(** * Blackhole PCIe reset sequence ([bh_reset.py]): model and properties

    A shallow embedding of [BHChipReset.reset_device_ioctl] and
    [BHChipReset.full_lds_reset].  The Python code talks to the kernel
    driver, to sysfs and to the clock; here every such call is a primitive
    of a small monad that
    - appends the call to a trace of events,
    - asks an environment [Env] (the kernel, sysfs, the pyluwen provider,
      the Python runtime) for the answer, as a function of the history of
      calls so far,
    - returns a value or raises a Python exception.

    Conventions.
    - Python [int] is [Z]; [bytes]/[bytearray] are [list byte].
    - [struct]'s native mode on the hosts the driver runs on: 4-byte
      unsigned [I], no padding between [I] fields, little-endian.
    - [time.time()] is a count of nanoseconds in [Z] (Python's float seconds
      are not modelled); a call never makes the clock go back ([latency] is
      an [N]) and [time.sleep] lasts at least what was asked.
    - The [while] loop takes a [fuel]: the number of turns it may make
      before the model gives up with [OutOfFuel].
    - A file descriptor is identified with what it denotes: the device node
      of an interface id, or the config-space file opened for an interface.
    - [os.close], [os.pread], [time.time], [time.sleep] and [print] do not
      raise; opening files, the ioctl and the pyluwen calls may. *)

From Stdlib Require Import ZArith NArith List String Ascii Lia.
From Stdlib Require Import Strings.Byte DecimalString.
From stdpp Require Import gmap sorting.

Local Open Scope Z_scope.
Local Open Scope list_scope.

(** ** Bytes and the [struct] module *)

Module Struct.

Definition byte_of_Z (z : Z) : byte :=
  match Byte.of_N (Z.to_N (z mod 256)) with
  | Some b => b
  | None => x00
  end.

Definition Z_of_byte (b : byte) : Z := Z.of_N (Byte.to_N b).

(** [x.to_bytes(n, 'little')] for [0 <= x < 256^n]. *)
Fixpoint le_bytes (n : nat) (x : Z) : list byte :=
  match n with
  | O => []
  | S k => byte_of_Z (x mod 256) :: le_bytes k (x / 256)
  end.

(** [int.from_bytes(bs, byteorder='little')]. *)
Fixpoint int_from_bytes_little (bs : list byte) : Z :=
  match bs with
  | [] => 0
  | b :: rest => Z_of_byte b + 256 * int_from_bytes_little rest
  end.

Definition is_I (c : ascii) : bool := Ascii.eqb c "I"%char.

(** [struct.calcsize(fmt)] for formats made of [I]. *)
Fixpoint calcsize (fmt : string) : nat :=
  match fmt with
  | EmptyString => 0
  | String _ fmt' => 4 + calcsize fmt'
  end.

(** [struct.pack(fmt, *vals)]; [None] stands for [struct.error] (wrong
    number of values, or a value outside [0, 2^32)). *)
Fixpoint pack (fmt : string) (vals : list Z) : option (list byte) :=
  match fmt, vals with
  | EmptyString, [] => Some []
  | String c fmt', v :: vals' =>
      if is_I c && (0 <=? v) && (v <? 2 ^ 32)
      then option_map (app (le_bytes 4 v)) (pack fmt' vals')
      else None
  | _, _ => None
  end.

(** [struct.unpack(fmt, buf)]; [None] stands for [struct.error] (the buffer
    does not have [calcsize fmt] bytes). *)
Fixpoint unpack (fmt : string) (buf : list byte) : option (list Z) :=
  match fmt with
  | EmptyString => match buf with [] => Some [] | _ => None end
  | String c fmt' =>
      if is_I c && (4 <=? length buf)%nat
      then option_map (cons (int_from_bytes_little (take 4 buf)))
                      (unpack fmt' (drop 4 buf))
      else None
  end.

End Struct.

(** ** Exceptions, events, environment *)

Inductive exn : Type :=
| SystemExit (code : Z)
| OSError (errno : Z)
| FileNotFoundError
| StructError
| KeyError (key : Z)
| ValueError
| ProviderError.

(** What [full_lds_reset] prints. *)
Inductive message : Type :=
| MsgArmUnsupported
| MsgStarting (pci_interfaces : list Z)
| MsgCompleted (pci_interface : Z)
| MsgNotCompleted (pci_interface : Z)
| MsgFinishing (pci_interfaces : list Z).

(** The object [open('/sys/bus/pci/devices/<bdf>/config', 'rb')] stored in
    [files_map] under the key [cfg_owner]. *)
Record cfg_file : Type := { cfg_owner : Z; cfg_bdf : string }.

(** A [PciChip] object. *)
Record PciChip : Type := { chip_interface : Z }.

Inductive event : Type :=
| EvHostInfo
| EvPrint (m : message)
| EvResolveBdf (pci_interface : Z)
| EvOpenDev (interface_id : Z)
| EvIoctl (interface_id : Z) (request : Z) (buf : list byte)
| EvCloseDev (interface_id : Z)
| EvOpenConfig (pci_interface : Z) (bdf : string)
| EvPread (f : cfg_file) (n offset : nat) (data : list byte)
| EvTime (t : Z)
| EvSleep (ns : N)
| EvPciChip (pci_interface : Z).

Record Env : Type := {
  (** [get_host_info()["Platform"]] *)
  host_platform : string;
  (** [list(set(l))]: the elements of the set in the order in which Python
      iterates it *)
  set_iter : list Z -> list Z;
  (** [PciChip(pci_interface=i).get_pci_bdf()] *)
  pci_bdf : list event -> Z -> exn + string;
  (** [os.open("/dev/tenstorrent/<i>", O_RDWR | O_CLOEXEC)] *)
  dev_open : list event -> Z -> exn + unit;
  (** what the driver writes back for an ioctl on device [i] *)
  dev_ioctl : list event -> Z -> Z -> list byte -> exn + list byte;
  (** [open(".../<bdf>/config", "rb")] *)
  cfg_open : list event -> string -> exn + unit;
  (** the bytes of [.../<bdf>/config] at this point of the run *)
  cfg_space : list event -> string -> list byte;
  (** [PciChip(pci_interface=i)] *)
  pci_chip : list event -> Z -> exn + unit;
  (** nanoseconds taken by the last call of the history *)
  latency : list event -> N
}.

(** Python iterates a set in an order of its own (it depends on the hashes
    and on the insertions made): [list(set(l))] is some permutation of the
    elements of the set of [l]. *)
Definition set_iter_ok (env : Env) : Prop :=
  forall l : list Z, set_iter env l ≡ₚ elements (list_to_set l : gset Z).

(** ** The monad of calls *)

Inductive outcome (A : Type) : Type :=
| Ok (a : A)
| Raise (e : exn)
| OutOfFuel.
Arguments Ok {A} a.
Arguments Raise {A} e.
Arguments OutOfFuel {A}.

Record world : Type := { hist : list event; now : Z }.

Record run (A : Type) : Type :=
  { out : outcome A; trace : list event; clock : Z }.
Arguments out {A} r.
Arguments trace {A} r.
Arguments clock {A} r.

Definition M (A : Type) : Type := world -> run A.

(** The world after a run that started in [w]. *)
Definition after {A} (w : world) (r : run A) : world :=
  {| hist := hist w ++ trace r; now := clock r |}.

Definition ret {A} (a : A) : M A :=
  fun w => {| out := Ok a; trace := []; clock := now w |}.

Definition raise {A} (e : exn) : M A :=
  fun w => {| out := Raise e; trace := []; clock := now w |}.

Definition out_of_fuel {A} : M A :=
  fun w => {| out := OutOfFuel; trace := []; clock := now w |}.

Definition bind {A B} (m : M A) (k : A -> M B) : M B :=
  fun w =>
    let r := m w in
    match out r with
    | Ok a =>
        let r' := k a (after w r) in
        {| out := out r'; trace := trace r ++ trace r'; clock := clock r' |}
    | Raise e => {| out := Raise e; trace := trace r; clock := clock r |}
    | OutOfFuel => {| out := OutOfFuel; trace := trace r; clock := clock r |}
    end.

#[global] Instance M_ret : MRet M := @ret.
#[global] Instance M_bind : MBind M := fun A B k m => bind m k.

(** [try: m finally: fin], with a [fin] that does not raise. *)
Definition try_finally {A} (m : M A) (fin : M unit) : M A :=
  fun w =>
    let r := m w in
    match out r with
    | OutOfFuel => r
    | _ =>
        let r' := fin (after w r) in
        {| out := match out r' with
                  | Ok _ => out r
                  | Raise e => Raise e
                  | OutOfFuel => OutOfFuel
                  end;
           trace := trace r ++ trace r'; clock := clock r' |}
    end.

Definition lift_option {A} (e : exn) (o : option A) : M A :=
  match o with Some a => ret a | None => raise e end.

Section Program.

Variable env : Env.

(** One call: logged as [e], answered by [answer] from the history before
    the call. *)
Definition perform {A} (e : event) (answer : list event -> exn + A) : M A :=
  fun w =>
    {| out := match answer (hist w) with inl x => Raise x | inr a => Ok a end;
       trace := [e];
       clock := now w + Z.of_N (latency env (hist w ++ [e])) |}.

Definition emit (e : event) : M unit := perform e (fun _ => inr tt).

Definition get_host_info_platform : M string :=
  emit EvHostInfo;; mret (host_platform env).

Definition print (m : message) : M unit := emit (EvPrint m).

Definition sys_exit {A} (code : Z) : M A := raise (SystemExit code).

Definition get_pci_bdf (pci_interface : Z) : M string :=
  perform (EvResolveBdf pci_interface) (fun h => pci_bdf env h pci_interface).

Definition os_open (interface_id : Z) : M Z :=
  perform (EvOpenDev interface_id)
          (fun h => match dev_open env h interface_id with
                    | inl x => inl x
                    | inr _ => inr interface_id
                    end).

Definition os_close (dev_fd : Z) : M unit := emit (EvCloseDev dev_fd).

(** [fcntl.ioctl] writes the driver's answer into the caller's bytearray,
    which keeps its length. *)
Definition writeback (buf reply : list byte) : list byte :=
  take (length buf) (reply ++ drop (length reply) buf).

Definition fcntl_ioctl (dev_fd request : Z) (buf : list byte) : M (list byte) :=
  perform (EvIoctl dev_fd request buf)
          (fun h => match dev_ioctl env h dev_fd request buf with
                    | inl x => inl x
                    | inr reply => inr (writeback buf reply)
                    end).

Definition open_config (pci_interface : Z) (bdf : string) : M cfg_file :=
  perform (EvOpenConfig pci_interface bdf)
          (fun h => match cfg_open env h bdf with
                    | inl x => inl x
                    | inr _ => inr {| cfg_owner := pci_interface; cfg_bdf := bdf |}
                    end).

Definition os_pread (f : cfg_file) (n offset : nat) : M (list byte) :=
  fun w =>
    let data := take n (drop offset (cfg_space env (hist w) (cfg_bdf f))) in
    perform (EvPread f n offset data) (fun _ => inr data) w.

Definition time_time : M Z :=
  fun w => perform (EvTime (now w)) (fun _ => inr (now w)) w.

Definition time_sleep (ns : N) : M unit :=
  fun w =>
    let r := emit (EvSleep ns) w in
    {| out := out r; trace := trace r; clock := clock r + Z.of_N ns |}.

Definition new_PciChip (pci_interface : Z) : M PciChip :=
  perform (EvPciChip pci_interface)
          (fun h => match pci_chip env h pci_interface with
                    | inl x => inl x
                    | inr _ => inr {| chip_interface := pci_interface |}
                    end).

(** ** [BHChipReset] *)

Definition TENSTORRENT_IOCTL_MAGIC : Z := 0xFA.
Definition TENSTORRENT_IOCTL_RESET_DEVICE : Z :=
  Z.lor (Z.shiftl TENSTORRENT_IOCTL_MAGIC 8) 6.
Definition TENSTORRENT_RESET_DEVICE_RESTORE_STATE : Z := 0.
Definition TENSTORRENT_RESET_DEVICE_RESET_PCIE_LINK : Z := 1.
Definition TENSTORRENT_RESET_DEVICE_CONFIG_WRITE : Z := 2.
(** [POST_RESET_MSG_WAIT_TIME = 2] seconds, in nanoseconds. *)
Definition POST_RESET_MSG_WAIT_TIME : Z := 2000000000.
(** [time.sleep(0.001)], in nanoseconds. *)
Definition POLL_SLEEP : N := 1000000%N.

Definition reset_device_ioctl (interface_id flags : Z) : M bool :=
  dev_fd ← os_open interface_id;
  try_finally
    (let reset_device_in_struct := "II"%string in
     let reset_device_out_struct := "II"%string in
     let reset_device_struct :=
       (reset_device_in_struct ++ reset_device_out_struct)%string in
     let input_size_bytes := Struct.calcsize reset_device_in_struct in
     let output_size_bytes := Struct.calcsize reset_device_out_struct in
     packed ← lift_option StructError
       (Struct.pack reset_device_struct
                    [Z.of_nat output_size_bytes; flags; 0; 0]);
     reset_device_buf ← fcntl_ioctl dev_fd TENSTORRENT_IOCTL_RESET_DEVICE packed;
     let output_buf := drop input_size_bytes reset_device_buf in
     fields ← lift_option StructError
       (Struct.unpack reset_device_out_struct output_buf);
     match fields with
     | [_; result] => mret (result =? 0)
     | _ => raise ValueError
     end)
    (os_close dev_fd).

(** [platform.startswith("arm") or platform.startswith("aarch")] *)
Definition is_arm (platform : string) : bool :=
  String.prefix "arm" platform || String.prefix "aarch" platform.

(** Lines 92-98: one pass over the devices; each gets its BDF resolved and
    then its CONFIG_WRITE command, whose boolean result is dropped. *)
Fixpoint config_write_loop (pci_interfaces : list Z)
    (pci_bdf_list : gmap Z string) : M (gmap Z string) :=
  match pci_interfaces with
  | [] => mret pci_bdf_list
  | pci_interface :: rest =>
      pci_bdf ← get_pci_bdf pci_interface;
      let pci_bdf_list := <[pci_interface := pci_bdf]> pci_bdf_list in
      reset_device_ioctl pci_interface TENSTORRENT_RESET_DEVICE_CONFIG_WRITE;;
      config_write_loop rest pci_bdf_list
  end.

(** Line 105: the dict comprehension building [files_map]; the keys come
    from a set, so the dict is the list of its items in insertion order. *)
Fixpoint open_files (pci_interfaces : list Z) (pci_bdf_list : gmap Z string)
    : M (list (Z * cfg_file)) :=
  match pci_interfaces with
  | [] => mret []
  | pci_interface :: rest =>
      bdf ← lift_option (KeyError pci_interface) (pci_bdf_list !! pci_interface);
      file ← open_config pci_interface bdf;
      files ← open_files rest pci_bdf_list;
      mret ((pci_interface, file) :: files)
  end.

(** Line 110: [{pci_interface: 1 for pci_interface in pci_interfaces}]. *)
Definition init_reset_bit_map (pci_interfaces : list Z) : gmap Z Z :=
  foldr (fun pci_interface m => <[pci_interface := 1]> m) ∅ pci_interfaces.

(** Line 114: [(int.from_bytes(b, byteorder='little') >> 1) & 1]. *)
Definition reset_bit_of (command_memory_byte : list byte) : Z :=
  Z.land (Z.shiftr (Struct.int_from_bytes_little command_memory_byte) 1) 1.

(** Lines 112-116: one round over [files_map.items()]. *)
Fixpoint poll_round (items : list (Z * cfg_file)) (reset_bit_map : gmap Z Z)
    : M (gmap Z Z) :=
  match items with
  | [] => mret reset_bit_map
  | (pci_interface, file) :: rest =>
      command_memory_byte ← os_pread file 1 4;
      let reset_bit := reset_bit_of command_memory_byte in
      poll_round rest (<[pci_interface := reset_bit]> reset_bit_map)
  end.

(** Lines 111-120: the [while] loop.  [completed] and [start_time] are not
    assigned in the loop; [elapsed] and [reset_bit_map] are.  The result is
    the value of [elapsed] and [reset_bit_map] after the loop, and whether
    the loop was left through [break]. *)
Fixpoint poll_loop (fuel : nat) (files_map : list (Z * cfg_file))
    (completed : nat) (start_time elapsed : Z) (reset_bit_map : gmap Z Z)
    : M (Z * gmap Z Z * bool) :=
  if elapsed <? POST_RESET_MSG_WAIT_TIME then
    match fuel with
    | O => out_of_fuel
    | S fuel' =>
        reset_bit_map ← poll_round files_map reset_bit_map;
        if Nat.eqb completed (length files_map)
        then mret (elapsed, reset_bit_map, true)
        else
          time_sleep POLL_SLEEP;;
          t ← time_time;
          poll_loop fuel' files_map completed start_time (t - start_time)
                    reset_bit_map
    end
  else mret (elapsed, reset_bit_map, false).

(** Lines 104-120 after [files_map] is built. *)
Definition poll_stage (fuel : nat) (pci_interfaces : list Z)
    (files_map : list (Z * cfg_file)) (completed : nat)
    : M (Z * gmap Z Z * bool) :=
  let elapsed := 0 in
  start_time ← time_time;
  let reset_bit_map := init_reset_bit_map pci_interfaces in
  poll_loop fuel files_map completed start_time elapsed reset_bit_map.

(** Lines 123-128. *)
Fixpoint classify (pci_interfaces : list Z) (reset_bit_map : gmap Z Z)
    (completed : nat) : M nat :=
  match pci_interfaces with
  | [] => mret completed
  | pci_interface :: rest =>
      bit ← lift_option (KeyError pci_interface) (reset_bit_map !! pci_interface);
      if bit =? 0 then
        print (MsgCompleted pci_interface);;
        classify rest reset_bit_map (S completed)
      else
        print (MsgNotCompleted pci_interface);;
        classify rest reset_bit_map completed
  end.

(** Lines 130-133: RESTORE_STATE for every device, result dropped. *)
Fixpoint restore_loop (pci_interfaces : list Z) : M unit :=
  match pci_interfaces with
  | [] => mret tt
  | pci_interface :: rest =>
      reset_device_ioctl pci_interface TENSTORRENT_RESET_DEVICE_RESTORE_STATE;;
      restore_loop rest
  end.

(** Line 141: [[PciChip(pci_interface=interface) for interface in ...]]. *)
Fixpoint make_chips (pci_interfaces : list Z) : M (list PciChip) :=
  match pci_interfaces with
  | [] => mret []
  | interface :: rest =>
      chip ← new_PciChip interface;
      chips ← make_chips rest;
      mret (chip :: chips)
  end.

(** Lines 73-83. *)
Definition preflight (pci_interfaces : list Z) (silent : bool) : M (list Z) :=
  platform ← get_host_info_platform;
  (if is_arm platform
   then print MsgArmUnsupported;; sys_exit 1
   else mret tt);;
  let pci_interfaces := set_iter env pci_interfaces in
  (if negb silent then print (MsgStarting pci_interfaces) else mret tt);;
  mret pci_interfaces.

Definition full_lds_reset (fuel : nat) (pci_interfaces : list Z)
    (reset_m3 silent : bool) : M (list PciChip) :=
  pci_interfaces ← preflight pci_interfaces silent;
  pci_bdf_list ← config_write_loop pci_interfaces ∅;
  let completed := 0%nat in
  files_map ← open_files pci_interfaces pci_bdf_list;
  '(elapsed, reset_bit_map, _) ← poll_stage fuel pci_interfaces files_map completed;
  completed ← classify pci_interfaces reset_bit_map completed;
  restore_loop pci_interfaces;;
  (if negb silent then print (MsgFinishing pci_interfaces) else mret tt);;
  pci_chips ← make_chips pci_interfaces;
  mret pci_chips.

End Program.

(** ** Observing a trace *)

(** The [k]-th 32-bit little-endian field of a buffer (from 0). *)
Definition field (k : nat) (buf : list byte) : Z :=
  Struct.int_from_bytes_little (take 4 (drop (4 * k) buf)).

(** [struct.pack("IIII", 8, flags, 0, 0)] on a little-endian host. *)
Definition command_buf (flags : Z) : list byte :=
  Struct.le_bytes 4 8 ++ Struct.le_bytes 4 flags ++
  Struct.le_bytes 4 0 ++ Struct.le_bytes 4 0.

Fixpoint count (p : event -> bool) (tr : list event) : nat :=
  match tr with
  | [] => 0
  | e :: rest => (if p e then 1 else 0) + count p rest
  end.

(** [all_before p q tr]: every [p]-event of [tr] comes before every
    [q]-event, that is, no [p]-event follows a [q]-event. *)
Fixpoint all_before (p q : event -> bool) (tr : list event) : bool :=
  match tr with
  | [] => true
  | e :: rest =>
      (negb (q e) || forallb (fun e' => negb (p e')) rest)
      && all_before p q rest
  end.

(** A reset command: an ioctl with the reset-device code whose [flags]
    field (the second 32-bit field of the buffer sent) is [flags]. *)
Definition any_command (flags : Z) (e : event) : bool :=
  match e with
  | EvIoctl _ request buf =>
      (request =? TENSTORRENT_IOCTL_RESET_DEVICE) && (field 1 buf =? flags)
  | _ => false
  end.

Definition is_command (flags : Z) (i : Z) (e : event) : bool :=
  match e with
  | EvIoctl j _ _ => (j =? i) && any_command flags e
  | _ => false
  end.

Definition any_config_write : event -> bool :=
  any_command TENSTORRENT_RESET_DEVICE_CONFIG_WRITE.
Definition is_config_write : Z -> event -> bool :=
  is_command TENSTORRENT_RESET_DEVICE_CONFIG_WRITE.
Definition any_restore : event -> bool :=
  any_command TENSTORRENT_RESET_DEVICE_RESTORE_STATE.
Definition is_restore : Z -> event -> bool :=
  is_command TENSTORRENT_RESET_DEVICE_RESTORE_STATE.

Definition any_ioctl (e : event) : bool :=
  match e with EvIoctl _ _ _ => true | _ => false end.

Definition any_resolve (e : event) : bool :=
  match e with EvResolveBdf _ => true | _ => false end.
Definition is_resolve (i : Z) (e : event) : bool :=
  match e with EvResolveBdf j => j =? i | _ => false end.

Definition any_pread (e : event) : bool :=
  match e with EvPread _ _ _ _ => true | _ => false end.
Definition is_pread (i : Z) (e : event) : bool :=
  match e with EvPread f _ _ _ => cfg_owner f =? i | _ => false end.

Definition any_sleep (e : event) : bool :=
  match e with EvSleep _ => true | _ => false end.

Definition is_completed_msg (i : Z) (e : event) : bool :=
  match e with EvPrint (MsgCompleted j) => j =? i | _ => false end.
Definition is_not_completed_msg (i : Z) (e : event) : bool :=
  match e with EvPrint (MsgNotCompleted j) => j =? i | _ => false end.
Definition is_classified (i : Z) (e : event) : bool :=
  is_completed_msg i e || is_not_completed_msg i e.
Definition any_classified (e : event) : bool :=
  match e with
  | EvPrint (MsgCompleted _) | EvPrint (MsgNotCompleted _) => true
  | _ => false
  end.

Definition any_chip (e : event) : bool :=
  match e with EvPciChip _ => true | _ => false end.
Definition is_chip (i : Z) (e : event) : bool :=
  match e with EvPciChip j => j =? i | _ => false end.

(** The bytes device [i]'s config-space reads returned, oldest first. *)
Fixpoint samples_of (i : Z) (tr : list event) : list (list byte) :=
  match tr with
  | [] => []
  | EvPread f _ _ data :: rest =>
      if cfg_owner f =? i then data :: samples_of i rest else samples_of i rest
  | _ :: rest => samples_of i rest
  end.

Definition last_sample (i : Z) (tr : list event) : option (list byte) :=
  last (samples_of i tr).

(** The events of the stages of [full_lds_reset]. *)
Definition preflight_ev (e : event) : bool :=
  match e with
  | EvHostInfo | EvPrint MsgArmUnsupported | EvPrint (MsgStarting _) => true
  | _ => false
  end.
Definition config_write_ev (e : event) : bool :=
  match e with
  | EvResolveBdf _ | EvOpenDev _ | EvCloseDev _ => true
  | EvIoctl _ _ _ => any_config_write e
  | _ => false
  end.
Definition open_config_ev (e : event) : bool :=
  match e with EvOpenConfig _ _ => true | _ => false end.
Definition poll_ev (e : event) : bool :=
  match e with EvTime _ | EvPread _ _ _ _ | EvSleep _ => true | _ => false end.
Definition restore_ev (e : event) : bool :=
  match e with
  | EvOpenDev _ | EvCloseDev _ => true
  | EvIoctl _ _ _ => any_restore e
  | _ => false
  end.
Definition finish_ev (e : event) : bool :=
  match e with EvPrint (MsgFinishing _) | EvPciChip _ => true | _ => false end.

(** What a device's pass through lines 92-98 and 130-133 logs when nothing
    raises. *)
Definition config_write_block (i : Z) : list event :=
  [EvResolveBdf i; EvOpenDev i;
   EvIoctl i TENSTORRENT_IOCTL_RESET_DEVICE
           (command_buf TENSTORRENT_RESET_DEVICE_CONFIG_WRITE);
   EvCloseDev i].
Definition restore_block (i : Z) : list event :=
  [EvOpenDev i;
   EvIoctl i TENSTORRENT_IOCTL_RESET_DEVICE
           (command_buf TENSTORRENT_RESET_DEVICE_RESTORE_STATE);
   EvCloseDev i].

(** The line [classify] prints for a device, from the final bit map. *)
Definition classification (reset_bit_map : gmap Z Z) (i : Z) : event :=
  match reset_bit_map !! i with
  | Some 0 => EvPrint (MsgCompleted i)
  | _ => EvPrint (MsgNotCompleted i)
  end.

(** A trace made of consecutive segments, the [k]-th holding only events
    of the [k]-th class. *)
Definition staged (classes : list (event -> bool)) (tr : list event) : Prop :=
  exists segs, tr = concat segs /\
    Forall2 (fun P s => Forall (fun e => P e = true) s) classes segs.

(** [m] logs only events of class [P], whatever happens. *)
Definition emits {A} (P : event -> bool) (m : M A) : Prop :=
  forall w, Forall (fun e => P e = true) (trace (m w)).

(** The run logged the beginning of [shape], and all of it if it returned. *)
Definition runs_within {A} (r : run A) (shape : list event) : Prop :=
  trace r `prefix_of` shape /\ (forall a, out r = Ok a -> trace r = shape).

(** ** Replacing the driver's answers *)

(** [env] with another driver behind the ioctl. *)
Definition with_dev_ioctl (env : Env)
    (answers : list event -> Z -> Z -> list byte -> exn + list byte) : Env :=
  {| host_platform := host_platform env;
     set_iter := set_iter env;
     pci_bdf := pci_bdf env;
     dev_open := dev_open env;
     dev_ioctl := answers;
     cfg_open := cfg_open env;
     cfg_space := cfg_space env;
     pci_chip := pci_chip env;
     latency := latency env |}.

(** Two drivers that raise on the same calls, with the same exception. *)
Definition same_failures
    (f g : list event -> Z -> Z -> list byte -> exn + list byte) : Prop :=
  forall h i request buf,
    match f h i request buf, g h i request buf with
    | inl x, inl y => x = y
    | inr _, inr _ => True
    | _, _ => False
    end.

(** Two runs that differ at most in the value returned. *)
Definition same_effect {A} (r r' : run A) : Prop :=
  trace r' = trace r /\ clock r' = clock r /\
  match out r, out r' with
  | Ok _, Ok _ => True
  | Raise x, Raise y => x = y
  | OutOfFuel, OutOfFuel => True
  | _, _ => False
  end.

(** ** Machines on which no call fails *)

Definition never_raises (env : Env) : Prop :=
  (forall h i, exists bdf, pci_bdf env h i = inr bdf) /\
  (forall h i, exists u, dev_open env h i = inr u) /\
  (forall h i request buf, exists reply,
     dev_ioctl env h i request buf = inr reply) /\
  (forall h bdf, exists u, cfg_open env h bdf = inr u) /\
  (forall h i, exists u, pci_chip env h i = inr u).

(** ** Sample machines *)

Module Sample.

(** The first bytes of a config space whose command register has the given
    low byte. *)
Definition config_bytes (command_low : byte) : list byte :=
  [x52; x1e; x40; xb1; command_low; x00; x10; x00].

Definition bdf_of (i : Z) : string :=
  if i =? 3 then "0000:03:00.0"%string else "0000:05:00.0"%string.

(** A sleep that takes a full second, so that two rounds fill the poll
    window. *)
Definition slow_sleep (h : list event) : N :=
  match last h with
  | Some (EvSleep _) => 999000000%N
  | _ => 0%N
  end.

(** An x86-64 host.  The set is iterated in increasing order, as CPython
    does for a few integers between 0 and 7.  Device 3 has completed its
    reset, every other device has not; the driver reports success (it
    leaves the buffer as it is). *)
Definition env : Env :=
  {| host_platform := "x86_64";
     set_iter := fun l => merge_sort Z.le (elements (list_to_set l : gset Z));
     pci_bdf := fun _ i => inr (bdf_of i);
     dev_open := fun _ _ => inr tt;
     dev_ioctl := fun _ _ _ buf => inr buf;
     cfg_open := fun _ _ => inr tt;
     cfg_space := fun _ bdf =>
       if String.eqb bdf "0000:03:00.0" then config_bytes x00
       else config_bytes x02;
     pci_chip := fun _ _ => inr tt;
     latency := slow_sleep |}.

(** The same machine with an ARM CPU. *)
Definition arm_env : Env :=
  {| host_platform := "aarch64";
     set_iter := set_iter env;
     pci_bdf := pci_bdf env;
     dev_open := dev_open env;
     dev_ioctl := dev_ioctl env;
     cfg_open := cfg_open env;
     cfg_space := cfg_space env;
     pci_chip := pci_chip env;
     latency := latency env |}.

(** A driver answering [(8, flags, 8, 0)], the size of its output and the
    result code 0: the third field is not zero, the fourth is. *)
Definition third_field_reply (buf : list byte) : list byte :=
  take 8 buf ++ Struct.le_bytes 4 8 ++ Struct.le_bytes 4 0.

Definition third_field_env : Env :=
  with_dev_ioctl env (fun _ _ _ buf => inr (third_field_reply buf)).

(** A driver answering [(8, flags, 8, 1)]: every command fails. *)
Definition failing_reply (buf : list byte) : list byte :=
  take 8 buf ++ Struct.le_bytes 4 8 ++ Struct.le_bytes 4 1.

Definition failing_env : Env :=
  with_dev_ioctl env (fun _ _ _ buf => inr (failing_reply buf)).

(** Device 3 shows bit 0 on the first read of its config space and bit 1
    on every later read. *)
Definition flaky_env : Env :=
  {| host_platform := host_platform env;
     set_iter := set_iter env;
     pci_bdf := pci_bdf env;
     dev_open := dev_open env;
     dev_ioctl := dev_ioctl env;
     cfg_open := cfg_open env;
     cfg_space := fun h _ =>
       if existsb any_pread h then config_bytes x02 else config_bytes x00;
     pci_chip := pci_chip env;
     latency := latency env |}.

Definition w0 : world := {| hist := []; now := 0 |}.

End Sample.

(** ** More observations *)

(** The clock does not go back during [m]. *)
Definition mono {A} (m : M A) : Prop := forall w, now w <= clock (m w).

(** The devices the events of one kind are about, in the order of the
    trace. *)
Definition resolved_ids (tr : list event) : list Z :=
  omap (fun e => match e with EvResolveBdf i => Some i | _ => None end) tr.

Definition command_ids (flags : Z) (tr : list event) : list Z :=
  omap (fun e => match e with
                 | EvIoctl i _ _ => if any_command flags e then Some i else None
                 | _ => None
                 end) tr.

Definition opened_ids (tr : list event) : list Z :=
  omap (fun e => match e with EvOpenConfig i _ => Some i | _ => None end) tr.

Definition classified_ids (tr : list event) : list Z :=
  omap (fun e => match e with
                 | EvPrint (MsgCompleted i) | EvPrint (MsgNotCompleted i) => Some i
                 | _ => None
                 end) tr.

Definition chip_ids (tr : list event) : list Z :=
  omap (fun e => match e with EvPciChip i => Some i | _ => None end) tr.

(** A machine like [Sample.env] on which pyluwen cannot tell the BDF of
    device 5. *)
Definition is_open_config (i : Z) (e : event) : bool :=
  match e with EvOpenConfig j _ => j =? i | _ => false end.

Module Faulty.

(** The machine of [Sample.env] where no [PciChip] can be built. *)
Definition no_chip_env : Env :=
  {| host_platform := host_platform Sample.env;
     set_iter := set_iter Sample.env;
     pci_bdf := pci_bdf Sample.env;
     dev_open := dev_open Sample.env;
     dev_ioctl := dev_ioctl Sample.env;
     cfg_open := cfg_open Sample.env;
     cfg_space := cfg_space Sample.env;
     pci_chip := fun _ _ => inl ProviderError;
     latency := latency Sample.env |}.

Definition env : Env :=
  {| host_platform := host_platform Sample.env;
     set_iter := set_iter Sample.env;
     pci_bdf := fun _ i =>
       if i =? 5 then inl ProviderError else inr (Sample.bdf_of i);
     dev_open := dev_open Sample.env;
     dev_ioctl := dev_ioctl Sample.env;
     cfg_open := cfg_open Sample.env;
     cfg_space := cfg_space Sample.env;
     pci_chip := pci_chip Sample.env;
     latency := latency Sample.env |}.

End Faulty.

(** * Reset inputs and logs ([reset_utils.py]) *)

Module ResetUtils.

(** ** [parse_reset_input] (lines 69-93)

    The function reads the file system and prints; the model takes the
    answers of [open], [json.load] and [int] as functions and returns what
    the call returns or raises together with what it printed.  A [str] is
    the [string] of its UTF-8 bytes: no byte of a multi-byte character is
    the byte of a comma, so splitting on the character and on the byte
    agree. *)

Inductive exn : Type :=
| JSONDecodeError (e : string)
| FileNotFoundError
| ValueError
| SystemExit (code : Z)
| OtherError (name : string).

Inductive message : Type :=
| MsgJsonFormat (e : string)
    (* "Please check the format of the json file.\n {e}" *)
| MsgInvalidInput.
    (* "Invalid input! Provide list of comma separated numbers or a json
       file.\n To generate a reset json config file run tt-smi -g" *)

(** What a call did: its result, and the lines it printed. *)
Record result (A : Type) : Type :=
  { returned : exn + A; printed : list message }.
Arguments returned {A} _.
Arguments printed {A} _.
Arguments Build_result {A} _ _.

(** The function returns the loaded JSON document or a list of ints. *)
Inductive parsed (Data : Type) : Type :=
| Loaded (data : Data)
| Ids (ids : list Z).
Arguments Loaded {Data} _.
Arguments Ids {Data} _.

(** [s.split(sep)] for a separator of one character. *)
Fixpoint split (sep : ascii) (s : string) : list string :=
  match s with
  | EmptyString => [EmptyString]
  | String c rest =>
      if Ascii.eqb c sep then EmptyString :: split sep rest
      else match split sep rest with
           | item :: items => String c item :: items
           | [] => [String c EmptyString]
           end
  end.

(** [sep.join(items)]. *)
Fixpoint join (sep : string) (items : list string) : string :=
  match items with
  | [] => EmptyString
  | [item] => item
  | item :: rest => (item ++ sep ++ join sep rest)%string
  end.

(** [s.count(sep)] for a separator of one character. *)
Fixpoint count_sep (sep : ascii) (s : string) : nat :=
  match s with
  | EmptyString => 0
  | String c rest => (if Ascii.eqb c sep then 1 else 0) + count_sep sep rest
  end.

Section ParseResetInput.

Context {Data : Type}.

(** [open(value, "r")]: the text of the file, or the exception raised. *)
Variable open_file : string -> exn + string.
(** [json.load] on that text. *)
Variable json_load : string -> exn + Data.
(** [int(item)]; [None] is [ValueError], the only exception [int] raises
    on a [str]. *)
Variable int : string -> option Z.

(** Lines 73-75, the body of the outer [try]. *)
Definition load_json_file (value : string) : exn + Data :=
  match open_file value with
  | inl x => inl x
  | inr text => json_load text
  end.

(** Line 86: the comprehension stops at the first item [int] rejects. *)
Definition int_items (value : string) : option (list Z) :=
  mapM int (split "," value).

Definition parse_reset_input (value : string) : result (parsed Data) :=
  match load_json_file value with
  | inr data => {| returned := inr (Loaded data); printed := [] |}
  | inl (JSONDecodeError e) =>
      {| returned := inl (SystemExit 1); printed := [MsgJsonFormat e] |}
  | inl FileNotFoundError =>
      match int_items value with
      | Some ids => {| returned := inr (Ids ids); printed := [] |}
      | None =>
          {| returned := inl (SystemExit 1); printed := [MsgInvalidInput] |}
      end
  | inl x => {| returned := inl x; printed := [] |}
  end.

End ParseResetInput.

(** ** [generate_reset_logs], lines 29-35: the PCI indexes by device kind *)

(** What the loop asks of a pyluwen device: [as_wh()] and [as_gs()] give a
    chip or [None], tested for truth. *)
Record device : Type :=
  { as_wh : bool;
    is_remote : bool;
    as_gs : bool;
    get_pci_interface_id : Z }.

(** The [for] loop, with the two lists it appends to; the result is
    [(gs_pci_idx, wh_pci_idx)]. *)
Fixpoint pci_idx_loop (devices : list device) (gs_pci_idx wh_pci_idx : list Z)
    : list Z * list Z :=
  match devices with
  | [] => (gs_pci_idx, wh_pci_idx)
  | dev :: rest =>
      if as_wh dev && negb (is_remote dev) then
        pci_idx_loop rest gs_pci_idx (wh_pci_idx ++ [get_pci_interface_id dev])
      else if as_gs dev then
        pci_idx_loop rest (gs_pci_idx ++ [get_pci_interface_id dev]) wh_pci_idx
      else
        pci_idx_loop rest gs_pci_idx wh_pci_idx
  end.

(** A directory without the file, a [json.load] that is never reached, and
    readers and writers of plain decimal numerals (an optional minus sign
    and ASCII digits), on which [int] and [str] agree with them. *)
Module Sample.

Definition no_file (value : string) : exn + string := inl FileNotFoundError.

Definition no_json (text : string) : exn + unit := inl (JSONDecodeError text).

Definition digit (c : ascii) : option Z :=
  let n := Z.of_nat (nat_of_ascii c) in
  if (48 <=? n) && (n <=? 57) then Some (n - 48) else None.

Fixpoint digits (acc : Z) (s : string) : option Z :=
  match s with
  | EmptyString => Some acc
  | String c rest =>
      match digit c with
      | Some d => digits (10 * acc + d) rest
      | None => None
      end
  end.

Definition int (s : string) : option Z :=
  match s with
  | EmptyString => None
  | String "-" EmptyString => None
  | String "-" rest => option_map Z.opp (digits 0 rest)
  | _ => digits 0 s
  end.

Definition str (z : Z) : string := NilZero.string_of_int (Z.to_int z).

End Sample.

End ResetUtils.

(** ** Running a computation: equations of [bind] *)

Section MonadFacts.

Context {A B : Type}.
Implicit Types (m : M A) (k : A -> M B) (w : world).

Lemma out_bind_Ok m k w a :
  out (m w) = Ok a -> out ((m ≫= k) w) = out (k a (after w (m w))).
Proof. intros E. unfold mbind, M_bind, bind. now rewrite E. Qed.

Lemma trace_bind_Ok m k w a :
  out (m w) = Ok a ->
  trace ((m ≫= k) w) = trace (m w) ++ trace (k a (after w (m w))).
Proof. intros E. unfold mbind, M_bind, bind. now rewrite E. Qed.

Lemma clock_bind_Ok m k w a :
  out (m w) = Ok a -> clock ((m ≫= k) w) = clock (k a (after w (m w))).
Proof. intros E. unfold mbind, M_bind, bind. now rewrite E. Qed.

Lemma bind_Ok_inv m k w b :
  out ((m ≫= k) w) = Ok b ->
  exists a, out (m w) = Ok a /\ out (k a (after w (m w))) = Ok b.
Proof.
  unfold mbind, M_bind, bind.
  destruct (out (m w)) as [a| |] eqn:E; simpl; intros H; try discriminate.
  now exists a.
Qed.

(** The trace of [m ≫= k] is the trace of [m] followed by the trace of the
    continuation, if [m] returned, and by nothing otherwise. *)
Lemma trace_bind_cases m k w :
  (exists a, out (m w) = Ok a /\
             trace ((m ≫= k) w) = trace (m w) ++ trace (k a (after w (m w))) /\
             out ((m ≫= k) w) = out (k a (after w (m w)))) \/
  ((forall a, out (m w) <> Ok a) /\
   trace ((m ≫= k) w) = trace (m w) /\
   (forall b, out ((m ≫= k) w) <> Ok b)).
Proof.
  unfold mbind, M_bind, bind.
  destruct (out (m w)) as [a| |] eqn:E; simpl.
  - left. exists a. auto.
  - right. repeat split; congruence.
  - right. repeat split; congruence.
Qed.

End MonadFacts.

(** ** Facts about [struct] *)

Module StructFacts.
Import Struct.

Lemma length_le_bytes n x : length (le_bytes n x) = n.
Proof. revert x. induction n; simpl; intros; auto. Qed.

Lemma length_command_buf flags : length (command_buf flags) = 16%nat.
Proof. unfold command_buf. now rewrite !length_app, !length_le_bytes. Qed.

Lemma Z_of_byte_range b : 0 <= Z_of_byte b < 256.
Proof.
  unfold Z_of_byte. pose proof (Byte.to_N_bounded b). lia.
Qed.

Lemma Z_of_byte_of_Z z : Z_of_byte (byte_of_Z z) = z mod 256.
Proof.
  unfold Z_of_byte, byte_of_Z.
  assert (Hr : 0 <= z mod 256 < 256) by (apply Z.mod_pos_bound; lia).
  destruct (Byte.of_N (Z.to_N (z mod 256))) as [b|] eqn:E.
  - apply Byte.to_of_N in E. rewrite E. lia.
  - apply Byte.of_N_None_iff in E. lia.
Qed.

Lemma int_from_le_bytes n x :
  int_from_bytes_little (le_bytes n x) = x mod 256 ^ Z.of_nat n.
Proof.
  revert x. induction n as [|n IH]; intros x.
  - simpl. now rewrite Z.mod_1_r.
  - cbn [le_bytes int_from_bytes_little].
    rewrite Z_of_byte_of_Z, IH, Zmod_mod.
    rewrite Nat2Z.inj_succ, Z.pow_succ_r by lia.
    rewrite Z.rem_mul_r by lia. lia.
Qed.

Lemma pack_command flags :
  0 <= flags < 2 ^ 32 ->
  pack "IIII" [8; flags; 0; 0] = Some (command_buf flags).
Proof.
  intros [Hlo Hhi]. cbn [pack is_I Ascii.eqb Bool.eqb].
  apply Z.leb_le in Hlo. apply Z.ltb_lt in Hhi.
  rewrite Hlo, Hhi. cbn -[le_bytes]. unfold command_buf.
  now rewrite app_nil_r.
Qed.

Lemma pack_out_of_range flags :
  ~ 0 <= flags < 2 ^ 32 -> pack "IIII" [8; flags; 0; 0] = None.
Proof.
  intros H. cbn [pack is_I Ascii.eqb Bool.eqb].
  destruct (0 <=? flags) eqn:E1; destruct (flags <? 2 ^ 32) eqn:E2;
    cbn -[le_bytes]; try reflexivity.
  apply Z.leb_le in E1. apply Z.ltb_lt in E2. lia.
Qed.

Lemma unpack_II buf :
  length buf = 8%nat ->
  unpack "II" buf = Some [field 0 buf; field 1 buf].
Proof.
  intros HL. cbn [unpack is_I Ascii.eqb Bool.eqb andb].
  rewrite HL. cbn [Nat.leb].
  rewrite length_drop, HL. cbn [Nat.sub Nat.leb].
  assert (E : drop 4 (drop 4 buf) = []).
  { apply nil_length_inv. rewrite !length_drop. lia. }
  rewrite E. reflexivity.
Qed.

Lemma field_drop j k buf : field k (drop (4 * j) buf) = field (j + k) buf.
Proof. unfold field. rewrite drop_drop. f_equal. f_equal. f_equal. lia. Qed.

End StructFacts.
Import StructFacts.

(** ** The command issuer *)

Section IoctlFacts.

Variable env : Env.

Lemma length_writeback buf reply : length (writeback buf reply) = length buf.
Proof.
  unfold writeback. rewrite length_take, length_app, length_drop. lia.
Qed.

Lemma writeback_same_length buf reply :
  length reply = length buf -> writeback buf reply = reply.
Proof.
  intros HL. unfold writeback.
  rewrite HL, drop_all, app_nil_r, <- HL. apply firstn_all.
Qed.

(** Stepping through a computation. *)
Lemma run_perform_bind {A B} e (answer : list event -> exn + A)
    (k : A -> M B) w :
  (perform env e answer ≫= k) w =
  let w' := {| hist := hist w ++ [e];
               now := now w + Z.of_N (latency env (hist w ++ [e])) |} in
  match answer (hist w) with
  | inl x => {| out := Raise x; trace := [e]; clock := now w' |}
  | inr a => {| out := out (k a w'); trace := e :: trace (k a w');
                clock := clock (k a w') |}
  end.
Proof.
  unfold mbind, M_bind, bind, perform; simpl.
  destruct (answer (hist w)); reflexivity.
Qed.

Lemma run_ret_bind {A B} (a : A) (k : A -> M B) w :
  (ret a ≫= k) w = k a w.
Proof.
  unfold mbind, M_bind, bind, ret, after; simpl.
  rewrite app_nil_r. destruct w; simpl. now destruct (k a _).
Qed.

Lemma run_lift_Some_bind {A B} (x : exn) (a : A) (k : A -> M B) w :
  (lift_option x (Some a) ≫= k) w = k a w.
Proof. apply run_ret_bind. Qed.

Lemma run_raise_bind {A B} (x : exn) (k : A -> M B) w :
  (raise x ≫= k) w = raise x w.
Proof. reflexivity. Qed.

Lemma run_try_finally_close {A} (m : M A) dev_fd w :
  out (m w) <> OutOfFuel ->
  try_finally m (os_close env dev_fd) w =
  {| out := out (m w);
     trace := trace (m w) ++ [EvCloseDev dev_fd];
     clock := clock (m w) +
              Z.of_N (latency env ((hist w ++ trace (m w)) ++ [EvCloseDev dev_fd])) |}.
Proof.
  intros H. unfold try_finally, os_close, emit, perform; simpl.
  destruct (out (m w)); try reflexivity. congruence.
Qed.

(** A call of [reset_device_ioctl], step by step. *)
Lemma reset_device_ioctl_eq interface_id flags w :
  0 <= flags < 2 ^ 32 ->
  reset_device_ioctl env interface_id flags w =
  let cmd := command_buf flags in
  let e1 := EvOpenDev interface_id in
  let e2 := EvIoctl interface_id TENSTORRENT_IOCTL_RESET_DEVICE cmd in
  let e3 := EvCloseDev interface_id in
  let h1 := hist w ++ [e1] in
  let c1 := now w + Z.of_N (latency env h1) in
  match dev_open env (hist w) interface_id with
  | inl x => {| out := Raise x; trace := [e1]; clock := c1 |}
  | inr _ =>
      {| out := match dev_ioctl env h1 interface_id
                        TENSTORRENT_IOCTL_RESET_DEVICE cmd with
                | inl x => Raise x
                | inr reply => Ok (field 3 (writeback cmd reply) =? 0)
                end;
         trace := [e1; e2; e3];
         clock := c1 + Z.of_N (latency env (h1 ++ [e2]))
                  + Z.of_N (latency env ((h1 ++ [e2]) ++ [e3])) |}
  end.
Proof.
  intros Hf. cbv zeta.
  unfold reset_device_ioctl, os_open. rewrite run_perform_bind. cbv zeta.
  destruct (dev_open env (hist w) interface_id) as [x|[]] eqn:Eo;
    [reflexivity|].
  change ("II" ++ "II")%string with "IIII"%string.
  change (Z.of_nat (Struct.calcsize "II")) with 8.
  change (Struct.calcsize "II") with 8%nat.
  rewrite (pack_command flags Hf).
  set (cmd := command_buf flags).
  set (w1 := {| hist := hist w ++ [EvOpenDev interface_id]; now := _ |}).
  set (body := lift_option StructError (Some cmd) ≫= _).
  assert (Hbody :
    body w1 =
    {| out := match dev_ioctl env (hist w1) interface_id
                      TENSTORRENT_IOCTL_RESET_DEVICE cmd with
              | inl x => Raise x
              | inr reply => Ok (field 3 (writeback cmd reply) =? 0)
              end;
       trace := [EvIoctl interface_id TENSTORRENT_IOCTL_RESET_DEVICE cmd];
       clock := now w1 +
                Z.of_N (latency env
                  (hist w1 ++
                   [EvIoctl interface_id TENSTORRENT_IOCTL_RESET_DEVICE cmd])) |}).
  { subst body. rewrite run_lift_Some_bind.
    unfold fcntl_ioctl. rewrite run_perform_bind. cbv zeta.
    destruct (dev_ioctl env (hist w1) interface_id
                TENSTORRENT_IOCTL_RESET_DEVICE cmd) as [x|reply] eqn:Ei;
      [reflexivity|].
    assert (HL : length (drop 8 (writeback cmd reply)) = 8%nat).
    { rewrite length_drop, length_writeback. subst cmd.
      rewrite length_command_buf. reflexivity. }
    rewrite (unpack_II _ HL), run_lift_Some_bind.
    cbn [out trace clock mret M_ret ret now].
    change (drop 8 (writeback cmd reply))
      with (drop (4 * 2) (writeback cmd reply)).
    rewrite field_drop. reflexivity. }
  rewrite run_try_finally_close.
  - rewrite Hbody. reflexivity.
  - rewrite Hbody. cbn [out].
    destruct (dev_ioctl env (hist w1) interface_id
                TENSTORRENT_IOCTL_RESET_DEVICE cmd); discriminate.
Qed.

(** The three shapes a call of [reset_device_ioctl] can take. *)
Lemma reset_device_ioctl_run interface_id flags w :
  0 <= flags < 2 ^ 32 ->
  let r := reset_device_ioctl env interface_id flags w in
  let cmd := command_buf flags in
  match dev_open env (hist w) interface_id with
  | inl x => out r = Raise x /\ trace r = [EvOpenDev interface_id]
  | inr _ =>
      trace r = [EvOpenDev interface_id;
                 EvIoctl interface_id TENSTORRENT_IOCTL_RESET_DEVICE cmd;
                 EvCloseDev interface_id] /\
      match dev_ioctl env (hist w ++ [EvOpenDev interface_id]) interface_id
                      TENSTORRENT_IOCTL_RESET_DEVICE cmd with
      | inl x => out r = Raise x
      | inr reply => out r = Ok (field 3 (writeback cmd reply) =? 0)
      end
  end.
Proof.
  intros Hf r cmd. subst r. rewrite (reset_device_ioctl_eq _ _ _ Hf).
  cbv zeta. fold cmd.
  destruct (dev_open env (hist w) interface_id); [split; reflexivity|].
  split; [reflexivity|]. cbn [out].
  destruct (dev_ioctl _ _ _ _ _); reflexivity.
Qed.

(** With flags that do not fit 32 bits, [struct.pack] raises before the
    device is asked anything. *)
Lemma reset_device_ioctl_struct_error interface_id flags w :
  ~ 0 <= flags < 2 ^ 32 ->
  dev_open env (hist w) interface_id = inr tt ->
  let r := reset_device_ioctl env interface_id flags w in
  out r = Raise StructError /\
  trace r = [EvOpenDev interface_id; EvCloseDev interface_id].
Proof.
  intros Hf Eo r. subst r.
  unfold reset_device_ioctl, os_open. rewrite run_perform_bind. cbv zeta.
  rewrite Eo.
  change ("II" ++ "II")%string with "IIII"%string.
  change (Z.of_nat (Struct.calcsize "II")) with 8.
  rewrite (pack_out_of_range flags Hf).
  rewrite run_try_finally_close by discriminate.
  split; reflexivity.
Qed.

End IoctlFacts.

(** ** Lists of events *)

Section TraceFacts.

Implicit Types (p q : event -> bool) (tr : list event).

Lemma count_app p tr1 tr2 : count p (tr1 ++ tr2) = (count p tr1 + count p tr2)%nat.
Proof. induction tr1 as [|e tr1 IH]; simpl; [reflexivity|]. rewrite IH. lia. Qed.

Lemma count_none p tr : Forall (fun e => p e = false) tr -> count p tr = 0%nat.
Proof. induction 1 as [|e tr He _ IH]; simpl; [reflexivity|]. now rewrite He, IH. Qed.

Lemma count_flat_map_zero p (f : Z -> list event) (ds : list Z) :
  (forall d, d ∈ ds -> count p (f d) = 0%nat) -> count p (flat_map f ds) = 0%nat.
Proof.
  induction ds as [|d ds IH]; simpl; intros H; [reflexivity|].
  rewrite count_app, H, IH; [reflexivity | | left].
  intros d' Hd'. apply H. now right.
Qed.

Lemma count_flat_map_once p (f : Z -> list event) (i : Z) (ds : list Z) :
  (forall d, d <> i -> count p (f d) = 0%nat) ->
  NoDup ds ->
  count p (flat_map f ds) = if decide (i ∈ ds) then count p (f i) else 0%nat.
Proof.
  intros Hf. induction 1 as [|d ds Hd _ IH]; simpl.
  - destruct (decide (i ∈ [])) as [H|]; [inversion H | reflexivity].
  - rewrite count_app, IH.
    destruct (decide (d = i)) as [->|Hne].
    + rewrite (decide_True (P := i ∈ i :: ds)) by left.
      rewrite (decide_False (P := i ∈ ds)) by assumption. lia.
    + rewrite (Hf d Hne).
      destruct (decide (i ∈ ds)) as [Hin|Hin].
      * now rewrite (decide_True (P := i ∈ d :: ds)) by now right.
      * rewrite (decide_False (P := i ∈ d :: ds)); [reflexivity|].
        intros [->|H]%elem_of_cons; tauto.
Qed.

Lemma map_as_flat_map (f : Z -> event) (ds : list Z) :
  map f ds = flat_map (fun d => [f d]) ds.
Proof. induction ds; simpl; congruence. Qed.

Lemma count_map_once p (f : Z -> event) (i : Z) (ds : list Z) :
  (forall d, d <> i -> p (f d) = false) ->
  NoDup ds ->
  count p (map f ds) =
    if decide (i ∈ ds) then (if p (f i) then 1%nat else 0%nat) else 0%nat.
Proof.
  intros Hf Hnd. rewrite map_as_flat_map.
  rewrite (count_flat_map_once p _ i ds); [|intros d Hd; simpl; now rewrite Hf|assumption].
  simpl. destruct (decide (i ∈ ds)); [|reflexivity]. lia.
Qed.

Lemma count_map_zero p (f : Z -> event) (ds : list Z) :
  (forall d, p (f d) = false) -> count p (map f ds) = 0%nat.
Proof.
  intros Hf. induction ds as [|d ds IH]; simpl; [reflexivity|].
  now rewrite Hf, IH.
Qed.

Lemma count_class_zero p (C : event -> bool) tr :
  Forall (fun e => C e = true) tr ->
  (forall e, C e = true -> p e = false) ->
  count p tr = 0%nat.
Proof.
  intros H HC. apply count_none. eapply Forall_impl; [exact H|]. exact HC.
Qed.

Lemma all_before_app p q tr1 tr2 :
  all_before p q tr1 = true -> all_before p q tr2 = true ->
  Forall (fun e => q e = false) tr1 \/ Forall (fun e => p e = false) tr2 ->
  all_before p q (tr1 ++ tr2) = true.
Proof.
  induction tr1 as [|e tr1 IH]; simpl; intros H1 H2 H3; [assumption|].
  apply andb_true_iff in H1 as [H1 H1'].
  apply andb_true_iff. split.
  - destruct H3 as [H3|H3].
    + inversion H3; subst. rewrite H4. reflexivity.
    + destruct (q e); simpl in *; [|reflexivity].
      rewrite forallb_app, H1. simpl.
      apply forallb_forall. intros x Hx.
      rewrite Forall_forall in H3. rewrite H3; [reflexivity|].
      now apply list_elem_of_In.
  - apply IH; auto. destruct H3 as [H3|H3]; [left|right; assumption].
    now inversion H3.
Qed.

Lemma all_before_no_p p q tr :
  Forall (fun e => p e = false) tr -> all_before p q tr = true.
Proof.
  induction 1 as [|e tr He Htr IH]; simpl; [reflexivity|].
  rewrite IH, andb_true_r. apply orb_true_iff. right.
  apply forallb_forall. intros x Hx. rewrite Forall_forall in Htr.
  rewrite Htr; [reflexivity|]. now apply list_elem_of_In.
Qed.

Lemma all_before_no_q p q tr :
  Forall (fun e => q e = false) tr -> all_before p q tr = true.
Proof.
  induction 1 as [|e tr He Htr IH]; simpl; [reflexivity|].
  now rewrite He, IH.
Qed.

Lemma all_before_prefix p q tr1 tr2 :
  all_before p q (tr1 ++ tr2) = true -> all_before p q tr1 = true.
Proof.
  induction tr1 as [|e tr1 IH]; simpl; [reflexivity|].
  intros [H1 H2]%andb_true_iff. apply andb_true_iff. split; [|auto].
  destruct (q e); simpl in *; [|reflexivity].
  rewrite forallb_app in H1. now apply andb_true_iff in H1 as [H1 _].
Qed.

Lemma all_before_inverted p q tr1 eq tr2 ep tr3 :
  q eq = true -> p ep = true ->
  all_before p q (tr1 ++ eq :: tr2 ++ ep :: tr3) = false.
Proof.
  intros Hq Hp. induction tr1 as [|e tr1 IH]; cbn [app all_before].
  - rewrite Hq. cbn [negb orb]. rewrite forallb_app. cbn [forallb].
    rewrite Hp. cbn [negb andb]. now rewrite andb_false_r.
  - rewrite IH. apply andb_false_r.
Qed.

Lemma staged_nil classes : staged classes [].
Proof.
  exists (map (fun _ => []) classes). split.
  - induction classes; simpl; auto.
  - induction classes; simpl; constructor; auto.
Qed.

Lemma staged_cons P classes s tr :
  Forall (fun e => P e = true) s -> staged classes tr ->
  staged (P :: classes) (s ++ tr).
Proof.
  intros Hs (segs & -> & Hsegs). exists (s :: segs). split; [reflexivity|].
  now constructor.
Qed.

Lemma staged_split classes1 classes2 tr :
  staged (classes1 ++ classes2) tr ->
  exists tr1 tr2, tr = tr1 ++ tr2 /\ staged classes1 tr1 /\ staged classes2 tr2.
Proof.
  intros (segs & -> & Hsegs).
  apply Forall2_app_inv_l in Hsegs as (segs1 & segs2 & H1 & H2 & ->).
  exists (concat segs1), (concat segs2). rewrite concat_app.
  split; [reflexivity|]. split; eexists; eauto.
Qed.

Lemma staged_Forall classes tr (R : event -> Prop) :
  staged classes tr ->
  (forall P, P ∈ classes -> forall e, P e = true -> R e) ->
  Forall R tr.
Proof.
  intros (segs & -> & Hsegs) HR.
  induction Hsegs as [|P s classes segs Hs _ IH]; simpl; [constructor|].
  apply Forall_app. split.
  - eapply Forall_impl; [exact Hs|]. intros e. apply HR. left.
  - apply IH. intros P' HP'. apply HR. now right.
Qed.

Lemma staged_all_before classes1 classes2 p q tr :
  staged (classes1 ++ classes2) tr ->
  (forall P, P ∈ classes1 -> forall e, P e = true -> q e = false) ->
  (forall P, P ∈ classes2 -> forall e, P e = true -> p e = false) ->
  all_before p q tr = true.
Proof.
  intros (tr1 & tr2 & -> & H1 & H2)%staged_split Hq Hp.
  pose proof (staged_Forall _ _ _ H1 Hq) as F1.
  pose proof (staged_Forall _ _ _ H2 Hp) as F2.
  apply all_before_app; auto using all_before_no_q, all_before_no_p.
Qed.

End TraceFacts.

(** ** What the stages log *)

Section StageFacts.

Variable env : Env.

Lemma emits_bind {A B} P (m : M A) (k : A -> M B) :
  emits P m -> (forall a, emits P (k a)) -> emits P (m ≫= k).
Proof.
  intros Hm Hk w.
  destruct (trace_bind_cases m k w) as [(a & _ & E & _)|(_ & E & _)]; rewrite E.
  - apply Forall_app. split; [apply Hm | apply Hk].
  - apply Hm.
Qed.

Lemma emits_ret {A} P (a : A) : emits P (mret a).
Proof. intros w. constructor. Qed.

Lemma emits_raise {A} P x : emits P (@raise A x).
Proof. intros w. constructor. Qed.

Lemma emits_lift_option {A} P x (o : option A) : emits P (lift_option x o).
Proof. destruct o; [apply (emits_ret P) | apply emits_raise]. Qed.

Lemma emits_perform {A} (P : event -> bool) e (answer : list event -> exn + A) :
  P e = true -> emits P (perform env e answer).
Proof. intros He w. simpl. now repeat constructor. Qed.

Lemma runs_within_Forall {A} (r : run A) shape (R : event -> Prop) :
  runs_within r shape -> Forall R shape -> Forall R (trace r).
Proof.
  intros [[k ->] _] H. now apply Forall_app in H as [H _].
Qed.

Lemma runs_within_bind {A B} (m : M A) (k : A -> M B) w s1 s2 :
  runs_within (m w) s1 ->
  (forall a, out (m w) = Ok a -> runs_within (k a (after w (m w))) s2) ->
  runs_within ((m ≫= k) w) (s1 ++ s2).
Proof.
  intros [Hp Heq] Hk.
  unfold runs_within.
  destruct (trace_bind_cases m k w) as [(a & Ea & E & Eo)|(Hn & E & Hn')];
    rewrite E.
  - destruct (Hk a Ea) as [Hp2 Heq2]. rewrite (Heq a Ea). split.
    + now apply prefix_app.
    + intros b Hb. rewrite Eo in Hb. now rewrite (Heq2 b Hb).
  - split; [now apply prefix_app_r|]. intros b Hb. now apply Hn' in Hb.
Qed.

Lemma runs_within_perform {A} e (answer : list event -> exn + A) w :
  runs_within (perform env e answer w) [e].
Proof. split; [reflexivity | intros; reflexivity]. Qed.

Lemma runs_within_ret {A} (a : A) w : runs_within (ret a w) [].
Proof. split; [reflexivity | intros; reflexivity]. Qed.

Lemma reset_device_ioctl_within interface_id flags w :
  0 <= flags < 2 ^ 32 ->
  runs_within (reset_device_ioctl env interface_id flags w)
    [EvOpenDev interface_id;
     EvIoctl interface_id TENSTORRENT_IOCTL_RESET_DEVICE (command_buf flags);
     EvCloseDev interface_id].
Proof.
  intros Hf. pose proof (reset_device_ioctl_run env interface_id flags w Hf) as H.
  cbv zeta in H.
  destruct (dev_open env (hist w) interface_id) as [x|u].
  - destruct H as [Ho Ht]. split.
    + rewrite Ht. now exists [EvIoctl interface_id TENSTORRENT_IOCTL_RESET_DEVICE
                               (command_buf flags); EvCloseDev interface_id].
    + intros a Ha. congruence.
  - destruct H as [Ht _]. rewrite <- Ht. split; [reflexivity|auto].
Qed.

Lemma reset_device_ioctl_never_out_of_fuel interface_id flags w :
  0 <= flags < 2 ^ 32 ->
  out (reset_device_ioctl env interface_id flags w) <> OutOfFuel.
Proof.
  intros Hf. pose proof (reset_device_ioctl_run env interface_id flags w Hf) as H.
  cbv zeta in H.
  destruct (dev_open env (hist w) interface_id) as [x|u].
  - destruct H as [-> _]. discriminate.
  - destruct H as [_ H].
    destruct (dev_ioctl _ _ _ _ _); rewrite H; discriminate.
Qed.

Lemma config_write_range : 0 <= TENSTORRENT_RESET_DEVICE_CONFIG_WRITE < 2 ^ 32.
Proof. unfold TENSTORRENT_RESET_DEVICE_CONFIG_WRITE. lia. Qed.

Lemma restore_state_range : 0 <= TENSTORRENT_RESET_DEVICE_RESTORE_STATE < 2 ^ 32.
Proof. unfold TENSTORRENT_RESET_DEVICE_RESTORE_STATE. lia. Qed.

(** *** Lines 92-98 *)

Lemma config_write_loop_within ds bdfs w :
  runs_within (config_write_loop env ds bdfs w) (flat_map config_write_block ds).
Proof.
  revert bdfs w. induction ds as [|d ds IH]; intros bdfs w.
  - apply runs_within_ret.
  - cbn [config_write_loop flat_map].
    change (config_write_block d) with
      ([EvResolveBdf d] ++
       [EvOpenDev d;
        EvIoctl d TENSTORRENT_IOCTL_RESET_DEVICE
                (command_buf TENSTORRENT_RESET_DEVICE_CONFIG_WRITE);
        EvCloseDev d]).
    rewrite <- app_assoc.
    apply runs_within_bind; [apply runs_within_perform|]. intros bdf _.
    apply runs_within_bind.
    + apply reset_device_ioctl_within, config_write_range.
    + intros _ _. apply IH.
Qed.

Lemma config_write_block_class d :
  Forall (fun e => config_write_ev e = true) (config_write_block d).
Proof. repeat constructor. Qed.

Lemma config_write_loop_emits ds bdfs :
  emits config_write_ev (config_write_loop env ds bdfs).
Proof.
  intros w. eapply runs_within_Forall; [apply config_write_loop_within|].
  induction ds; simpl; [constructor|].
  repeat (constructor; [reflexivity|]). assumption.
Qed.

Lemma config_write_loop_keys ds bdfs w bdfs' :
  out (config_write_loop env ds bdfs w) = Ok bdfs' ->
  forall i, i ∈ ds \/ is_Some (bdfs !! i) -> is_Some (bdfs' !! i).
Proof.
  revert bdfs w. induction ds as [|d ds IH]; intros bdfs w.
  - cbn. intros [= <-] i [H|H]; [inversion H | assumption].
  - cbn [config_write_loop]. intros H i Hi.
    apply bind_Ok_inv in H as (bdf & _ & H).
    apply bind_Ok_inv in H as (_ & _ & H).
    apply (IH _ _ H).
    destruct (decide (i = d)) as [->|Hne].
    + right. rewrite lookup_insert_eq. eauto.
    + destruct Hi as [[->|Hi]%elem_of_cons|Hi]; [tauto | now left |].
      right. now rewrite lookup_insert_ne.
Qed.

(** *** Lines 130-133 *)

Lemma restore_loop_within ds w :
  runs_within (restore_loop env ds w) (flat_map restore_block ds).
Proof.
  revert w. induction ds as [|d ds IH]; intros w.
  - apply runs_within_ret.
  - cbn [restore_loop flat_map].
    apply runs_within_bind.
    + apply reset_device_ioctl_within, restore_state_range.
    + intros _ _. apply IH.
Qed.

Lemma restore_loop_emits ds : emits restore_ev (restore_loop env ds).
Proof.
  intros w. eapply runs_within_Forall; [apply restore_loop_within|].
  induction ds; simpl; [constructor|].
  repeat (constructor; [reflexivity|]). assumption.
Qed.

(** *** Line 105 *)

Lemma open_files_emits ds bdfs : emits open_config_ev (open_files env ds bdfs).
Proof.
  induction ds as [|d ds IH]; cbn [open_files]; [apply emits_ret|].
  apply emits_bind; [apply emits_lift_option|]. intros bdf.
  apply emits_bind; [now apply emits_perform|]. intros f.
  apply emits_bind; [apply IH|]. intros fs. apply emits_ret.
Qed.

Lemma open_files_Ok ds bdfs w files :
  out (open_files env ds bdfs w) = Ok files ->
  map fst files = ds /\ Forall (fun it => cfg_owner (snd it) = fst it) files.
Proof.
  revert w files. induction ds as [|d ds IH]; intros w files.
  - cbn. intros [= <-]. split; [reflexivity | constructor].
  - cbn [open_files]. intros H.
    apply bind_Ok_inv in H as (bdf & _ & H).
    apply bind_Ok_inv in H as (f & Hf & H).
    apply bind_Ok_inv in H as (fs & Hfs & H).
    cbn in H. injection H as <-.
    apply IH in Hfs as [E F]. cbn [map fst]. rewrite E. split; [reflexivity|].
    constructor; [|assumption].
    unfold open_config, perform in Hf. cbn in Hf.
    destruct (cfg_open env _ bdf); [discriminate|].
    now injection Hf as <-.
Qed.

(** *** Lines 123-128 *)

Lemma classify_emits ds bm completed :
  emits any_classified (classify env ds bm completed).
Proof.
  revert completed. induction ds as [|d ds IH]; intros completed;
    cbn [classify]; [apply emits_ret|].
  apply emits_bind; [apply emits_lift_option|]. intros bit.
  destruct (bit =? 0);
    (apply emits_bind; [now apply emits_perform | intros _; apply IH]).
Qed.

Lemma classify_Ok ds bm completed w n :
  out (classify env ds bm completed w) = Ok n ->
  trace (classify env ds bm completed w) = map (classification bm) ds.
Proof.
  revert completed w. induction ds as [|d ds IH]; intros completed w;
    cbn [classify]; [reflexivity|].
  intros H. cbn [map]. unfold classification at 1.
  destruct (bm !! d) as [bit|] eqn:E; [|discriminate H].
  rewrite run_lift_Some_bind in H |- *.
  unfold print, emit in H |- *.
  destruct (Z.eqb_spec bit 0) as [->|Hne];
    rewrite run_perform_bind in H |- *; cbn [out trace] in H |- *.
  - f_equal. eapply IH, H.
  - destruct bit; try congruence; f_equal; eapply IH, H.
Qed.

(** *** Line 141 *)

Lemma make_chips_emits ds : emits finish_ev (make_chips env ds).
Proof.
  induction ds as [|d ds IH]; cbn [make_chips]; [apply emits_ret|].
  apply emits_bind; [now apply emits_perform|]. intros c.
  apply emits_bind; [apply IH|]. intros cs. apply emits_ret.
Qed.

Lemma make_chips_Ok ds w chips :
  out (make_chips env ds w) = Ok chips ->
  trace (make_chips env ds w) = map EvPciChip ds /\
  chips = map Build_PciChip ds.
Proof.
  revert w chips. induction ds as [|d ds IH]; intros w chips;
    cbn [make_chips].
  - cbn. intros [= <-]. split; reflexivity.
  - intros H. unfold new_PciChip in H |- *.
    rewrite run_perform_bind in H |- *. cbv zeta in H |- *.
    destruct (pci_chip env (hist w) d) as [x|u]; [discriminate H|].
    cbn [out trace] in H |- *.
    apply bind_Ok_inv in H as (cs & Hcs & H).
    cbn in H. injection H as <-.
    destruct (IH _ _ Hcs) as [Et Ec].
    rewrite (trace_bind_Ok _ _ _ _ Hcs), Et. cbn [trace mret M_ret ret].
    rewrite app_nil_r, Ec. split; reflexivity.
Qed.

End StageFacts.

(** ** The poll loop *)

Section PollFacts.

Variable env : Env.

Lemma run_pread_bind {B} f n offset (k : list byte -> M B) w :
  (os_pread env f n offset ≫= k) w =
  let data := take n (drop offset (cfg_space env (hist w) (cfg_bdf f))) in
  let e := EvPread f n offset data in
  let w' := {| hist := hist w ++ [e];
               now := now w + Z.of_N (latency env (hist w ++ [e])) |} in
  {| out := out (k data w'); trace := e :: trace (k data w');
     clock := clock (k data w') |}.
Proof. reflexivity. Qed.

Lemma run_sleep_bind {B} ns (k : unit -> M B) w :
  (time_sleep env ns ≫= k) w =
  let e := EvSleep ns in
  let w' := {| hist := hist w ++ [e];
               now := now w + Z.of_N (latency env (hist w ++ [e])) + Z.of_N ns |} in
  {| out := out (k tt w'); trace := e :: trace (k tt w');
     clock := clock (k tt w') |}.
Proof. reflexivity. Qed.

Lemma run_time_bind {B} (k : Z -> M B) w :
  (time_time env ≫= k) w =
  let e := EvTime (now w) in
  let w' := {| hist := hist w ++ [e];
               now := now w + Z.of_N (latency env (hist w ++ [e])) |} in
  {| out := out (k (now w) w'); trace := e :: trace (k (now w) w');
     clock := clock (k (now w) w') |}.
Proof. reflexivity. Qed.

Lemma samples_of_app i tr1 tr2 :
  samples_of i (tr1 ++ tr2) = samples_of i tr1 ++ samples_of i tr2.
Proof.
  induction tr1 as [|e tr1 IH]; [reflexivity|].
  destruct e; simpl; auto. destruct (cfg_owner f =? i); simpl; congruence.
Qed.

Lemma samples_of_none i tr :
  Forall (fun e => any_pread e = false) tr -> samples_of i tr = [].
Proof.
  induction 1 as [|e tr He _ IH]; [reflexivity|].
  destruct e; simpl; auto; discriminate.
Qed.

Lemma last_sample_app i tr1 tr2 :
  last_sample i (tr1 ++ tr2) =
  match last_sample i tr2 with
  | Some d => Some d
  | None => last_sample i tr1
  end.
Proof. unfold last_sample. now rewrite samples_of_app, last_app. Qed.

Lemma last_sample_none i tr :
  Forall (fun e => any_pread e = false) tr -> last_sample i tr = None.
Proof. intros H. unfold last_sample. now rewrite samples_of_none. Qed.

(** One round: never raises, reads one byte at offset 4 through every
    handle in turn, and leaves in the map the bit of what it read. *)
Lemma poll_round_spec items bm w :
  Forall (fun it => cfg_owner (snd it) = fst it) items ->
  let r := poll_round env items bm w in
  exists bm',
    out r = Ok bm' /\
    Forall2 (fun it e => exists data,
               e = EvPread (snd it) 1 4 data /\ (length data <= 1)%nat)
            items (trace r) /\
    now w <= clock r /\
    (forall i, match last_sample i (trace r) with
               | Some d => bm' !! i = Some (reset_bit_of d)
               | None => bm' !! i = bm !! i
               end) /\
    (forall i, i ∈ map fst items -> is_Some (last_sample i (trace r))).
Proof.
  intros Hk. revert bm w.
  induction Hk as [|[i f] items Hi _ IH]; intros bm w; cbv zeta.
  - exists bm. cbn. repeat split; auto; try lia. intros i H. inversion H.
  - cbn [poll_round]. rewrite run_pread_bind. cbv zeta. cbn [out trace clock].
    set (data := take 1 (drop 4 (cfg_space env (hist w) (cfg_bdf f)))).
    set (w' := {| hist := _; now := _ |}).
    destruct (IH (<[i := reset_bit_of data]> bm) w')
      as (bm' & Ho & Ht & Hc & Hl & Hs).
    exists bm'. split; [exact Ho|]. split; [|split; [|split]].
    + constructor; [|exact Ht]. exists data. split; [reflexivity|].
      subst data. rewrite length_take. lia.
    + subst w'. cbn [now] in Hc. lia.
    + intros j. specialize (Hl j). unfold last_sample in *.
      cbn [samples_of]. cbn [snd fst] in Hi. rewrite Hi.
      destruct (Z.eqb_spec i j) as [->|Hne].
      * rewrite last_cons.
        destruct (last (samples_of j _)); [exact Hl|].
        now rewrite Hl, lookup_insert_eq.
      * destruct (last (samples_of j _)); [exact Hl|].
        now rewrite Hl, lookup_insert_ne.
    + intros j Hj. unfold last_sample in *. cbn [samples_of].
      cbn [snd fst] in Hi. rewrite Hi. cbn [map fst] in Hj.
      destruct (Z.eqb_spec i j) as [->|Hne].
      * rewrite last_cons. destruct (last (samples_of j _)); eauto.
      * apply elem_of_cons in Hj as [->|Hj]; [congruence|]. now apply Hs.
Qed.

Lemma poll_round_emits items bm : emits poll_ev (poll_round env items bm).
Proof.
  revert bm. induction items as [|[i f] items IH]; intros bm w.
  - constructor.
  - cbn [poll_round]. rewrite run_pread_bind. cbv zeta. cbn [trace].
    constructor; [reflexivity | apply IH].
Qed.

Lemma poll_round_Ok items bm w :
  exists bm', out (poll_round env items bm w) = Ok bm' /\
              now w <= clock (poll_round env items bm w).
Proof.
  revert bm w. induction items as [|[i f] items IH]; intros bm w.
  - exists bm. cbn. split; [reflexivity | lia].
  - cbn [poll_round]. rewrite run_pread_bind. cbv zeta. cbn [out clock].
    set (w' := {| hist := _; now := _ |}).
    destruct (IH (<[i := reset_bit_of
                      (take 1 (drop 4 (cfg_space env (hist w) (cfg_bdf f))))]> bm) w')
      as (bm' & Ho & Hc).
    exists bm'. split; [exact Ho|]. subst w'. cbn [now] in Hc. lia.
Qed.

(** One turn of the [while] loop, when [elapsed] is below the timeout. *)
Lemma poll_loop_unfold fuel files completed start_time elapsed bm w bm1 :
  elapsed < POST_RESET_MSG_WAIT_TIME ->
  out (poll_round env files bm w) = Ok bm1 ->
  let r1 := poll_round env files bm w in
  let r := poll_loop env (S fuel) files completed start_time elapsed bm w in
  if Nat.eqb completed (length files)
  then out r = Ok (elapsed, bm1, true) /\ trace r = trace r1 /\
       clock r = clock r1
  else
    exists t w3,
      clock r1 + Z.of_N POLL_SLEEP <= t /\ t <= now w3 /\
      let r2 := poll_loop env fuel files completed start_time
                          (t - start_time) bm1 w3 in
      out r = out r2 /\
      trace r = trace r1 ++ EvSleep POLL_SLEEP :: EvTime t :: trace r2 /\
      clock r = clock r2.
Proof.
  intros Hlt Ho r1 r. subst r.
  cbn [poll_loop]. apply Z.ltb_lt in Hlt. rewrite Hlt.
  rewrite (out_bind_Ok _ _ _ _ Ho), (trace_bind_Ok _ _ _ _ Ho),
    (clock_bind_Ok _ _ _ _ Ho).
  destruct (Nat.eqb completed (length files)).
  - cbn. rewrite app_nil_r. auto.
  - rewrite run_sleep_bind. cbv zeta. cbn [out trace clock].
    rewrite run_time_bind. cbv zeta. cbn [out trace clock now].
    eexists _, _. split; [|split; [|split; [reflexivity|split; reflexivity]]].
    + cbn [after now hist]. fold r1. lia.
    + cbn [now]. lia.
Qed.

Lemma poll_loop_emits fuel files completed start_time elapsed bm :
  emits poll_ev (poll_loop env fuel files completed start_time elapsed bm).
Proof.
  revert elapsed bm.
  induction fuel as [|fuel IH]; intros elapsed bm w.
  - cbn [poll_loop]. destruct (elapsed <? _); constructor.
  - destruct (Z.ltb_spec elapsed POST_RESET_MSG_WAIT_TIME) as [Hlt|Hge].
    + destruct (poll_round_Ok files bm w) as (bm1 & Ho & _).
      pose proof (poll_loop_unfold fuel files completed start_time elapsed
                    bm w bm1 Hlt Ho) as H. cbv zeta in H.
      destruct (Nat.eqb completed (length files)).
      * destruct H as (_ & -> & _). apply poll_round_emits.
      * destruct H as (t & w3 & _ & _ & _ & -> & _).
        apply Forall_app. split; [apply poll_round_emits|].
        repeat (constructor; [reflexivity|]). apply IH.
    + cbn [poll_loop]. apply Z.ltb_ge in Hge. rewrite Hge. constructor.
Qed.

(** How the loop can end: through [break] only when the counter equals
    the number of handles, and otherwise only with [elapsed] at or past the
    timeout. *)
Lemma poll_loop_exit fuel files completed start_time elapsed bm w el bm' broke :
  out (poll_loop env fuel files completed start_time elapsed bm w)
    = Ok (el, bm', broke) ->
  if broke then completed = length files
  else POST_RESET_MSG_WAIT_TIME <= el.
Proof.
  revert elapsed bm w.
  induction fuel as [|fuel IH]; intros elapsed bm w.
  - cbn [poll_loop].
    destruct (Z.ltb_spec elapsed POST_RESET_MSG_WAIT_TIME); [discriminate|].
    cbn. intros [= <- <- <-]. assumption.
  - destruct (Z.ltb_spec elapsed POST_RESET_MSG_WAIT_TIME) as [Hlt|Hge].
    + destruct (poll_round_Ok files bm w) as (bm1 & Ho & _).
      pose proof (poll_loop_unfold fuel files completed start_time elapsed
                    bm w bm1 Hlt Ho) as H. cbv zeta in H.
      destruct (Nat.eqb_spec completed (length files)) as [E|E].
      * destruct H as (-> & _). intros [= <- <- <-]. exact E.
      * destruct H as (t & w3 & _ & _ & -> & _). apply IH.
    + cbn [poll_loop]. apply Z.ltb_ge in Hge. rewrite Hge.
      cbn. intros [= <- <- <-]. now apply Z.ltb_ge.
Qed.

(** The loop does not raise. *)
Lemma poll_loop_no_raise fuel files completed start_time elapsed bm w x :
  out (poll_loop env fuel files completed start_time elapsed bm w) <> Raise x.
Proof.
  revert elapsed bm w.
  induction fuel as [|fuel IH]; intros elapsed bm w.
  - cbn [poll_loop]. destruct (elapsed <? _); discriminate.
  - destruct (Z.ltb_spec elapsed POST_RESET_MSG_WAIT_TIME) as [Hlt|Hge].
    + destruct (poll_round_Ok files bm w) as (bm1 & Ho & _).
      pose proof (poll_loop_unfold fuel files completed start_time elapsed
                    bm w bm1 Hlt Ho) as H. cbv zeta in H.
      destruct (Nat.eqb completed (length files)).
      * destruct H as (-> & _). discriminate.
      * destruct H as (t & w3 & _ & _ & -> & _). apply IH.
    + cbn [poll_loop]. apply Z.ltb_ge in Hge. rewrite Hge. discriminate.
Qed.

(** Each turn takes at least the sleep, so [fuel] turns are enough as soon
    as [fuel] sleeps reach the timeout. *)
Lemma poll_loop_terminates fuel files completed start_time elapsed bm w :
  start_time + elapsed <= now w ->
  POST_RESET_MSG_WAIT_TIME <= elapsed + Z.of_nat fuel * Z.of_N POLL_SLEEP ->
  out (poll_loop env fuel files completed start_time elapsed bm w) <> OutOfFuel.
Proof.
  revert elapsed bm w.
  induction fuel as [|fuel IH]; intros elapsed bm w Hnow Hfuel.
  - cbn [poll_loop].
    destruct (Z.ltb_spec elapsed POST_RESET_MSG_WAIT_TIME); [lia|discriminate].
  - destruct (Z.ltb_spec elapsed POST_RESET_MSG_WAIT_TIME) as [Hlt|Hge].
    + destruct (poll_round_Ok files bm w) as (bm1 & Ho & Hc).
      pose proof (poll_loop_unfold fuel files completed start_time elapsed
                    bm w bm1 Hlt Ho) as H. cbv zeta in H.
      destruct (Nat.eqb completed (length files)).
      * destruct H as (-> & _). discriminate.
      * destruct H as (t & w3 & Ht & Hw3 & -> & _). apply IH; lia.
    + cbn [poll_loop]. apply Z.ltb_ge in Hge. rewrite Hge. discriminate.
Qed.

Lemma poll_loop_done fuel files completed start_time elapsed bm w :
  POST_RESET_MSG_WAIT_TIME <= elapsed ->
  poll_loop env fuel files completed start_time elapsed bm w =
  ret (elapsed, bm, false) w.
Proof.
  intros Hge. apply Z.ltb_ge in Hge.
  destruct fuel; cbn [poll_loop]; now rewrite Hge.
Qed.

Lemma poll_round_no_sleep_no_time items bm w :
  Forall (fun e => any_sleep e = false /\ forall t, e <> EvTime t)
         (trace (poll_round env items bm w)).
Proof.
  revert bm w. induction items as [|[i f] items IH]; intros bm w.
  - constructor.
  - cbn [poll_round]. rewrite run_pread_bind. cbv zeta. cbn [trace].
    constructor; [split; [reflexivity | discriminate] | apply IH].
Qed.

(** After the loop every entry of the map is the bit of the device's last
    sample (or what it was before the loop, if the device was not
    sampled). *)
Lemma poll_loop_last_sample fuel files completed start_time elapsed bm w
    el bm' broke :
  Forall (fun it => cfg_owner (snd it) = fst it) files ->
  let r := poll_loop env fuel files completed start_time elapsed bm w in
  out r = Ok (el, bm', broke) ->
  forall i, match last_sample i (trace r) with
            | Some d => bm' !! i = Some (reset_bit_of d)
            | None => bm' !! i = bm !! i
            end.
Proof.
  intros Hk. cbv zeta. revert elapsed bm w.
  induction fuel as [|fuel IH]; intros elapsed bm w.
  - cbn [poll_loop].
    destruct (Z.ltb_spec elapsed POST_RESET_MSG_WAIT_TIME); [discriminate|].
    cbn. intros [= <- <- <-] i. reflexivity.
  - destruct (Z.ltb_spec elapsed POST_RESET_MSG_WAIT_TIME) as [Hlt|Hge].
    + destruct (poll_round_spec files bm w Hk)
        as (bm1 & Ho & _ & _ & Hl & _).
      pose proof (poll_loop_unfold fuel files completed start_time elapsed
                    bm w bm1 Hlt Ho) as H. cbv zeta in H.
      destruct (Nat.eqb completed (length files)).
      * destruct H as (-> & -> & _). intros [= <- <- <-]. exact Hl.
      * destruct H as (t & w3 & _ & _ & -> & -> & _). intros Hr i.
        specialize (IH _ _ _ Hr i). specialize (Hl i).
        rewrite last_sample_app.
        change (EvSleep POLL_SLEEP :: EvTime t :: ?x)
          with ([EvSleep POLL_SLEEP; EvTime t] ++ x).
        rewrite last_sample_app.
        rewrite (last_sample_none i [EvSleep POLL_SLEEP; EvTime t])
          by (repeat constructor).
        destruct (last_sample i (trace (poll_loop env fuel files completed
                                          start_time (t - start_time) bm1 w3)));
          [exact IH|].
        destruct (last_sample i (trace (poll_round env files bm w)));
          congruence.
    + rewrite poll_loop_done by assumption.
      cbn. intros [= <- <- <-] i. reflexivity.
Qed.

(** If the loop is entered at all, every device is sampled. *)
Lemma poll_loop_sampled fuel files completed start_time elapsed bm w i :
  Forall (fun it => cfg_owner (snd it) = fst it) files ->
  elapsed < POST_RESET_MSG_WAIT_TIME ->
  out (poll_loop env fuel files completed start_time elapsed bm w) <> OutOfFuel ->
  i ∈ map fst files ->
  is_Some (last_sample i
             (trace (poll_loop env fuel files completed start_time elapsed bm w))).
Proof.
  intros Hk Hlt Hout Hi. destruct fuel as [|fuel].
  - cbn [poll_loop] in Hout. apply Z.ltb_lt in Hlt. rewrite Hlt in Hout.
    now contradiction Hout.
  - destruct (poll_round_spec files bm w Hk)
      as (bm1 & Ho & _ & _ & _ & Hs).
    pose proof (poll_loop_unfold fuel files completed start_time elapsed
                  bm w bm1 Hlt Ho) as H. cbv zeta in H.
    specialize (Hs i Hi).
    destruct (Nat.eqb completed (length files)).
    + destruct H as (_ & -> & _). exact Hs.
    + destruct H as (t & w3 & _ & _ & _ & -> & _).
      rewrite last_sample_app. destruct (last_sample i (_ :: _)); [eauto|].
      exact Hs.
Qed.

(** Every config-space read of the loop asks for 1 byte at offset 4. *)
Lemma poll_loop_reads fuel files completed start_time elapsed bm w :
  Forall (fun e => any_pread e = true ->
                   exists f data, e = EvPread f 1 4 data /\
                                  (length data <= 1)%nat /\ f ∈ map snd files)
         (trace (poll_loop env fuel files completed start_time elapsed bm w)).
Proof.
  assert (Hround : forall items bm w,
    Forall (fun e => any_pread e = true ->
                     exists f data, e = EvPread f 1 4 data /\
                                    (length data <= 1)%nat /\ f ∈ map snd items)
           (trace (poll_round env items bm w))).
  { induction items as [|[i f] items IH]; intros bm0 w0; [constructor|].
    cbn [poll_round]. rewrite run_pread_bind. cbv zeta. cbn [trace].
    constructor.
    - intros _. eexists _, _. split; [reflexivity|]. split.
      + rewrite length_take. lia.
      + left.
    - eapply Forall_impl; [apply IH|]. cbv beta.
      intros e He Hp. destruct (He Hp) as (f' & d & -> & Hl & Hin).
      exists f', d. repeat split; auto. now right. }
  revert elapsed bm w.
  induction fuel as [|fuel IH]; intros elapsed bm w.
  - cbn [poll_loop]. destruct (elapsed <? _); constructor.
  - destruct (Z.ltb_spec elapsed POST_RESET_MSG_WAIT_TIME) as [Hlt|Hge].
    + destruct (poll_round_Ok files bm w) as (bm1 & Ho & _).
      pose proof (poll_loop_unfold fuel files completed start_time elapsed
                    bm w bm1 Hlt Ho) as H. cbv zeta in H.
      destruct (Nat.eqb completed (length files)).
      * destruct H as (_ & -> & _). apply Hround.
      * destruct H as (t & w3 & _ & _ & _ & -> & _).
        apply Forall_app. split; [apply Hround|].
        constructor; [discriminate|]. constructor; [discriminate|]. apply IH.
    + rewrite poll_loop_done by assumption. constructor.
Qed.

(** A loop left on the timeout ends on the clock reading that reached it;
    every earlier reading was below the timeout. *)
Lemma poll_loop_last_reading fuel files completed start_time elapsed bm w
    el bm' :
  elapsed < POST_RESET_MSG_WAIT_TIME ->
  let r := poll_loop env fuel files completed start_time elapsed bm w in
  out r = Ok (el, bm', false) ->
  exists pre t,
    trace r = pre ++ [EvTime t] /\ el = t - start_time /\
    Forall (fun e => forall t', e = EvTime t' ->
                                t' - start_time < POST_RESET_MSG_WAIT_TIME) pre.
Proof.
  cbv zeta. revert elapsed bm w.
  induction fuel as [|fuel IH]; intros elapsed bm w Hlt.
  - cbn [poll_loop]. apply Z.ltb_lt in Hlt. rewrite Hlt. discriminate.
  - destruct (poll_round_Ok files bm w) as (bm1 & Ho & _).
    pose proof (poll_loop_unfold fuel files completed start_time elapsed
                  bm w bm1 Hlt Ho) as H. cbv zeta in H.
    pose proof (poll_round_no_sleep_no_time files bm w) as Hr1.
    destruct (Nat.eqb completed (length files)).
    + destruct H as (-> & _). discriminate.
    + destruct H as (t & w3 & _ & _ & -> & -> & _). intros Hr.
      destruct (Z.ltb_spec (t - start_time) POST_RESET_MSG_WAIT_TIME)
        as [Hlt'|Hge'].
      * destruct (IH _ _ _ Hlt' Hr) as (pre & t2 & -> & -> & Hpre).
        exists (trace (poll_round env files bm w) ++
                EvSleep POLL_SLEEP :: EvTime t :: pre), t2.
        split; [now rewrite <- app_assoc|]. split; [reflexivity|].
        apply Forall_app. split.
        -- eapply Forall_impl; [exact Hr1|]. cbv beta.
           intros e [_ He] t' ->. now contradiction (He t').
        -- constructor; [discriminate|]. constructor; [|exact Hpre].
           intros t' [= <-]. exact Hlt'.
      * rewrite poll_loop_done in Hr |- * by assumption.
        cbn in Hr. injection Hr as <- <-. cbn [trace ret].
        exists (trace (poll_round env files bm w) ++ [EvSleep POLL_SLEEP]), t.
        split; [now rewrite <- app_assoc|]. split; [reflexivity|].
        apply Forall_app. split.
        -- eapply Forall_impl; [exact Hr1|]. cbv beta.
           intros e [_ He] t' ->. now contradiction (He t').
        -- constructor; [discriminate|constructor].
Qed.

(** The number of sleeps is bounded by the timeout, whatever the fuel. *)
Lemma poll_loop_sleeps fuel files completed start_time elapsed bm w :
  start_time + elapsed <= now w ->
  let n := count any_sleep
             (trace (poll_loop env fuel files completed start_time elapsed bm w)) in
  n = 0%nat \/
  elapsed + Z.of_nat n * Z.of_N POLL_SLEEP
    < POST_RESET_MSG_WAIT_TIME + Z.of_N POLL_SLEEP.
Proof.
  cbv zeta. revert elapsed bm w.
  induction fuel as [|fuel IH]; intros elapsed bm w Hnow.
  - left. cbn [poll_loop]. destruct (elapsed <? _); reflexivity.
  - destruct (Z.ltb_spec elapsed POST_RESET_MSG_WAIT_TIME) as [Hlt|Hge].
    + destruct (poll_round_Ok files bm w) as (bm1 & Ho & Hc).
      pose proof (poll_loop_unfold fuel files completed start_time elapsed
                    bm w bm1 Hlt Ho) as H. cbv zeta in H.
      assert (Hz : count any_sleep (trace (poll_round env files bm w)) = 0%nat).
      { apply count_none. eapply Forall_impl;
          [apply poll_round_no_sleep_no_time|]. now intros e [He _]. }
      destruct (Nat.eqb completed (length files)).
      * destruct H as (_ & -> & _). now left.
      * destruct H as (t & w3 & Ht & Hw3 & _ & -> & _). right.
        rewrite count_app, Hz. cbn [count any_sleep Nat.add].
        destruct (IH (t - start_time) bm1 w3) as [->|Hb]; lia.
    + left. now rewrite poll_loop_done.
Qed.

End PollFacts.

(** ** The whole procedure *)

Section FullFacts.

Variable env : Env.

Lemma dedup_spec (l : list Z) :
  set_iter_ok env ->
  NoDup (set_iter env l) /\
  forall i, i ∈ set_iter env l <-> i ∈ l.
Proof.
  intros Hok. specialize (Hok l). split.
  - rewrite Hok. apply NoDup_elements.
  - intros i. rewrite Hok, elem_of_elements. apply elem_of_list_to_set.
Qed.

Lemma dedup_nil : set_iter_ok env -> set_iter env [] = [].
Proof.
  intros Hok. apply Permutation_nil_r. rewrite (Hok _).
  now rewrite list_to_set_nil, elements_empty.
Qed.

Lemma preflight_arm l silent w :
  is_arm (host_platform env) = true ->
  out (preflight env l silent w) = Raise (SystemExit 1) /\
  trace (preflight env l silent w) = [EvHostInfo; EvPrint MsgArmUnsupported].
Proof.
  intros H.
  cbv [preflight get_host_info_platform print emit perform sys_exit raise
       mbind M_bind bind mret M_ret ret out trace clock after hist now].
  rewrite H. split; reflexivity.
Qed.

Lemma preflight_not_arm l silent w :
  is_arm (host_platform env) = false ->
  let ds := set_iter env l in
  out (preflight env l silent w) = Ok ds /\
  trace (preflight env l silent w) =
    EvHostInfo :: (if silent then [] else [EvPrint (MsgStarting ds)]).
Proof.
  intros H.
  cbv [preflight get_host_info_platform print emit perform sys_exit raise
       mbind M_bind bind mret M_ret ret out trace clock after hist now].
  rewrite H. destruct silent; split; reflexivity.
Qed.

Lemma preflight_emits l silent : emits preflight_ev (preflight env l silent).
Proof.
  intros w. destruct (is_arm (host_platform env)) eqn:E.
  - destruct (preflight_arm l silent w E) as [_ ->]. repeat constructor.
  - destruct (preflight_not_arm l silent w E) as [_ ->].
    destruct silent; repeat constructor.
Qed.

Lemma preflight_Ok l silent w ds :
  out (preflight env l silent w) = Ok ds ->
  is_arm (host_platform env) = false /\ ds = set_iter env l.
Proof.
  intros H. destruct (is_arm (host_platform env)) eqn:E.
  - destruct (preflight_arm l silent w E) as [Ho _]. congruence.
  - destruct (preflight_not_arm l silent w E) as [Ho _].
    split; [reflexivity | congruence].
Qed.

Lemma poll_stage_emits fuel ds files completed :
  emits poll_ev (poll_stage env fuel ds files completed).
Proof.
  intros w. unfold poll_stage. rewrite run_time_bind. cbv zeta. cbn [trace].
  constructor; [reflexivity | apply poll_loop_emits].
Qed.

Lemma staged_bind {A B} P classes (m : M A) (k : A -> M B) w :
  emits P m ->
  (forall a w', staged classes (trace (k a w'))) ->
  staged (P :: classes) (trace ((m ≫= k) w)).
Proof.
  intros Hm Hk.
  destruct (trace_bind_cases m k w) as [(a & _ & E & _)|(_ & E & _)];
    rewrite E.
  - apply staged_cons; [apply Hm | apply Hk].
  - rewrite <- (app_nil_r (trace (m w))).
    apply staged_cons; [apply Hm | apply staged_nil].
Qed.

Lemma staged_last {A} P (m : M A) w :
  emits P m -> staged [P] (trace (m w)).
Proof.
  intros Hm. rewrite <- (app_nil_r (trace (m w))).
  apply staged_cons; [apply Hm | apply (staged_nil [])].
Qed.

(** Whatever happens, the trace of [full_lds_reset] is made of seven
    consecutive segments, one per stage. *)
Lemma full_lds_reset_staged fuel l reset_m3 silent w :
  staged [preflight_ev; config_write_ev; open_config_ev; poll_ev;
          any_classified; restore_ev; finish_ev]
         (trace (full_lds_reset env fuel l reset_m3 silent w)).
Proof.
  unfold full_lds_reset.
  apply staged_bind; [apply preflight_emits|]. intros ds w1.
  apply staged_bind; [apply config_write_loop_emits|]. intros bdfs w2.
  apply staged_bind; [apply open_files_emits|]. intros files w3.
  apply staged_bind; [apply poll_stage_emits|]. intros [[el bm] broke] w4.
  apply staged_bind; [apply classify_emits|]. intros completed w5.
  apply staged_bind; [apply restore_loop_emits|]. intros _ w6.
  apply staged_last.
  apply emits_bind.
  - destruct silent; [apply emits_ret | now apply emits_perform].
  - intros _. apply emits_bind; [apply make_chips_emits|].
    intros chips. apply emits_ret.
Qed.

(** The trace of a call that returned. *)
Lemma full_lds_reset_Ok fuel l reset_m3 silent w chips :
  let r := full_lds_reset env fuel l reset_m3 silent w in
  let ds := set_iter env l in
  out r = Ok chips ->
  is_arm (host_platform env) = false /\
  chips = map Build_PciChip ds /\
  exists opens polls bm,
    trace r =
      (EvHostInfo :: (if silent then [] else [EvPrint (MsgStarting ds)])) ++
      flat_map config_write_block ds ++ opens ++ polls ++
      map (classification bm) ds ++ flat_map restore_block ds ++
      (if silent then [] else [EvPrint (MsgFinishing ds)]) ++
      map EvPciChip ds /\
    Forall (fun e => open_config_ev e = true) opens /\
    Forall (fun e => poll_ev e = true) polls /\
    Forall (fun e => any_pread e = true ->
                     exists f data, e = EvPread f 1 4 data /\
                                    (length data <= 1)%nat) polls /\
    (forall i, i ∈ ds ->
       exists d, last_sample i polls = Some d /\
                 bm !! i = Some (reset_bit_of d)).
Proof.
  intros r ds H. subst r. unfold full_lds_reset in *.
  apply bind_Ok_inv in H as H'. destruct H' as (ds' & H0 & H').
  rewrite (trace_bind_Ok _ _ _ _ H0).
  destruct (preflight_Ok _ _ _ _ H0) as [Harm ->]. fold ds in H0, H' |- *.
  destruct (preflight_not_arm l silent w Harm) as [_ ->]. fold ds.
  set (w1 := after w _) in *.
  apply bind_Ok_inv in H' as H''. destruct H'' as (bdfs & H1 & H'').
  rewrite (trace_bind_Ok _ _ _ _ H1).
  destruct (config_write_loop_within env ds ∅ w1) as [_ E1].
  rewrite (E1 _ H1).
  set (w2 := after w1 _) in *.
  apply bind_Ok_inv in H'' as H3. destruct H3 as (files & H2 & H3).
  rewrite (trace_bind_Ok _ _ _ _ H2).
  destruct (open_files_Ok env _ _ _ _ H2) as [Ekeys Hkeyed].
  set (w3 := after w2 _) in *.
  apply bind_Ok_inv in H3 as H4. destruct H4 as ([[el bm] broke] & Hp & H4).
  rewrite (trace_bind_Ok _ _ _ _ Hp).
  set (w4 := after w3 _) in *.
  apply bind_Ok_inv in H4 as H5. destruct H5 as (completed & Hc & H5).
  rewrite (trace_bind_Ok _ _ _ _ Hc), (classify_Ok env _ _ _ _ _ Hc).
  set (w5 := after w4 _) in *.
  apply bind_Ok_inv in H5 as H6. destruct H6 as ([] & Hr & H6).
  rewrite (trace_bind_Ok _ _ _ _ Hr).
  destruct (restore_loop_within env ds w5) as [_ E5]. rewrite (E5 _ Hr).
  set (w6 := after w5 _) in *.
  apply bind_Ok_inv in H6 as H7. destruct H7 as ([] & Hf & H7).
  rewrite (trace_bind_Ok _ _ _ _ Hf).
  set (w7 := after w6 _) in *.
  apply bind_Ok_inv in H7 as H8. destruct H8 as (chips' & Hm & H8).
  rewrite (trace_bind_Ok _ _ _ _ Hm).
  destruct (make_chips_Ok env _ _ _ Hm) as [-> ->].
  cbn in H8. injection H8 as <-.
  split; [exact Harm|]. split; [reflexivity|].
  exists (trace (open_files env ds bdfs w2)),
         (trace (poll_stage env fuel ds files 0 w3)), bm.
  split; [|split; [apply open_files_emits|split; [apply poll_stage_emits|]]].
  - cbn [trace mret M_ret ret]. rewrite app_nil_r.
    do 6 f_equal. destruct silent; reflexivity.
  - unfold poll_stage in Hp |- *. rewrite run_time_bind in Hp |- *.
    cbv zeta in Hp |- *. cbn [out trace] in Hp |- *.
    set (w3' := {| hist := _; now := _ |}) in *.
    split.
    + constructor; [discriminate|].
      eapply Forall_impl; [apply poll_loop_reads|]. cbv beta.
      intros e He Hpre. destruct (He Hpre) as (f & d & -> & Hl & _). eauto.
    + intros i Hi.
      pose proof (poll_loop_last_sample env fuel files 0 (now w3) 0
                    (init_reset_bit_map ds) w3' el bm broke Hkeyed Hp i) as Hl.
      destruct (poll_loop_sampled env fuel files 0 (now w3) 0
                  (init_reset_bit_map ds) w3' i Hkeyed) as [d Hd].
      * unfold POST_RESET_MSG_WAIT_TIME. lia.
      * rewrite Hp. discriminate.
      * now rewrite Ekeys.
      * rewrite Hd in Hl. exists d. split; [|exact Hl].
        unfold last_sample in *. cbn [samples_of]. exact Hd.
Qed.

End FullFacts.

(** ** The sample machines are well formed *)

Lemma sample_set_iter_ok : set_iter_ok Sample.env.
Proof. intros l. apply merge_sort_Permutation. Qed.

(** ** Fields of the command buffer *)

Section FieldFacts.
Import Struct.

Lemma field_0_app a rest : length a = 4%nat -> field 0 (a ++ rest) = int_from_bytes_little a.
Proof.
  intros H. unfold field. change (4 * 0)%nat with 0%nat. rewrite drop_0.
  now rewrite take_app_length' by (symmetry; assumption).
Qed.

Lemma field_S_app k a rest : length a = 4%nat -> field (S k) (a ++ rest) = field k rest.
Proof.
  intros H. unfold field.
  replace (4 * S k)%nat with (length a + 4 * k)%nat by lia.
  now rewrite drop_app_add.
Qed.

Lemma int_from_le32 x : 0 <= x < 2 ^ 32 -> int_from_bytes_little (le_bytes 4 x) = x.
Proof.
  intros H. rewrite int_from_le_bytes.
  change (256 ^ Z.of_nat 4) with (2 ^ 32). now apply Z.mod_small.
Qed.

Lemma command_buf_fields flags :
  0 <= flags < 2 ^ 32 ->
  field 0 (command_buf flags) = 8 /\ field 1 (command_buf flags) = flags /\
  field 2 (command_buf flags) = 0 /\ field 3 (command_buf flags) = 0.
Proof.
  intros H. unfold command_buf.
  rewrite <- (app_nil_r (le_bytes 4 0)) at 2.
  repeat (rewrite ?field_S_app, ?field_0_app by apply length_le_bytes).
  rewrite !int_from_le32 by lia. auto.
Qed.

End FieldFacts.

(** ** Properties of [reset_device_ioctl] *)

(** C1 (as amended).  For flags that fit 32 bits, on a device that opens
    and a driver that answers, [reset_device_ioctl] sends the four
    little-endian 32-bit fields (8, flags, 0, 0) with the request code
    [(0xFA << 8) | 6], closes the device, and returns true exactly when the
    fourth field of the buffer after the call (the second output field) is
    zero: an answer (8, flags, 0, 0) gives true, an answer with a non-zero
    fourth field gives false. *)
Theorem reset_device_ioctl_result (env : Env) (interface_id flags : Z)
    (w : world) (reply : list byte) :
  0 <= flags < 2 ^ 32 ->
  dev_open env (hist w) interface_id = inr tt ->
  dev_ioctl env (hist w ++ [EvOpenDev interface_id]) interface_id
            (Z.lor (Z.shiftl 0xFA 8) 6) (command_buf flags) = inr reply ->
  let r := reset_device_ioctl env interface_id flags w in
  let sent := Struct.le_bytes 4 8 ++ Struct.le_bytes 4 flags ++
              Struct.le_bytes 4 0 ++ Struct.le_bytes 4 0 in
  (field 0 sent = 8 /\ field 1 sent = flags /\ field 2 sent = 0 /\
   field 3 sent = 0) /\
  trace r = [EvOpenDev interface_id;
             EvIoctl interface_id (Z.lor (Z.shiftl 0xFA 8) 6) sent;
             EvCloseDev interface_id] /\
  out r = Ok (field 3 (writeback sent reply) =? 0) /\
  (reply = sent -> out r = Ok true) /\
  (length reply = 16%nat -> field 3 reply <> 0 -> out r = Ok false).
Proof.
  intros Hf Hopen Hioctl r sent.
  pose proof (reset_device_ioctl_run env interface_id flags w Hf) as H.
  cbv zeta in H. rewrite Hopen in H. destruct H as [Ht Ho].
  change TENSTORRENT_IOCTL_RESET_DEVICE with (Z.lor (Z.shiftl 0xFA 8) 6) in *.
  rewrite Hioctl in Ho. fold r in Ht, Ho. change (command_buf flags) with sent in *.
  pose proof (command_buf_fields flags Hf) as Hfields.
  change (command_buf flags) with sent in Hfields.
  split; [exact Hfields|]. split; [exact Ht|]. split; [exact Ho|]. split.
  - intros ->. rewrite Ho, writeback_same_length by reflexivity.
    destruct Hfields as (_ & _ & _ & ->). reflexivity.
  - intros HL Hne. rewrite Ho, writeback_same_length.
    + apply Z.eqb_neq in Hne. now rewrite Hne.
    + rewrite HL. symmetry. apply length_command_buf.
Qed.

Lemma reset_device_ioctl_result_witness :
  let r := reset_device_ioctl Sample.env 3 2 Sample.w0 in
  let sent := Struct.le_bytes 4 8 ++ Struct.le_bytes 4 2 ++
              Struct.le_bytes 4 0 ++ Struct.le_bytes 4 0 in
  (field 0 sent = 8 /\ field 1 sent = 2 /\ field 2 sent = 0 /\
   field 3 sent = 0) /\
  trace r = [EvOpenDev 3; EvIoctl 3 (Z.lor (Z.shiftl 0xFA 8) 6) sent;
             EvCloseDev 3] /\
  out r = Ok (field 3 (writeback sent (command_buf 2)) =? 0) /\
  (command_buf 2 = sent -> out r = Ok true) /\
  (length (command_buf 2) = 16%nat -> field 3 (command_buf 2) <> 0 ->
   out r = Ok false).
Proof.
  apply (reset_device_ioctl_result Sample.env 3 2 Sample.w0 (command_buf 2));
    [lia | reflexivity | reflexivity].
Defined.

(** C1, as stated, fails.  With a driver answering (8, 2, 8, 0) the third
    field of the buffer after the call is 8, not zero, and the call returns
    true; and with flags -1 nothing is packed and no ioctl is made. *)
Lemma reset_device_ioctl_third_field :
  let sent := command_buf 2 in
  let reply := Sample.third_field_reply sent in
  dev_ioctl Sample.third_field_env [EvOpenDev 3] 3
            TENSTORRENT_IOCTL_RESET_DEVICE sent = inr reply /\
  field 2 (writeback sent reply) = 8 /\
  field 3 (writeback sent reply) = 0 /\
  out (reset_device_ioctl Sample.third_field_env 3 2 Sample.w0) = Ok true /\
  out (reset_device_ioctl Sample.env 3 (-1) Sample.w0) = Raise StructError /\
  trace (reset_device_ioctl Sample.env 3 (-1) Sample.w0)
    = [EvOpenDev 3; EvCloseDev 3].
Proof. vm_compute. repeat split; reflexivity. Qed.

(** ** Properties of [full_lds_reset] *)

Lemma bind_Raise {A B} (m : M A) (k : A -> M B) w x :
  out (m w) = Raise x ->
  out ((m ≫= k) w) = Raise x /\ trace ((m ≫= k) w) = trace (m w).
Proof. intros E. unfold mbind, M_bind, bind. now rewrite E. Qed.

(** C8.  On a host whose platform string starts with "arm" or "aarch",
    [full_lds_reset] prints its message and exits with status 1 before
    anything else: no BDF is resolved, no ioctl is made, no config space is
    opened or read. *)
Theorem full_lds_reset_arm_exit (env : Env) (fuel : nat)
    (pci_interfaces : list Z) (reset_m3 silent : bool) (w : world) :
  String.prefix "arm" (host_platform env) = true \/
  String.prefix "aarch" (host_platform env) = true ->
  let r := full_lds_reset env fuel pci_interfaces reset_m3 silent w in
  out r = Raise (SystemExit 1) /\
  trace r = [EvHostInfo; EvPrint MsgArmUnsupported] /\
  count any_resolve (trace r) = 0%nat /\
  count any_ioctl (trace r) = 0%nat /\
  count open_config_ev (trace r) = 0%nat /\
  count any_pread (trace r) = 0%nat.
Proof.
  intros Harm r.
  assert (E : is_arm (host_platform env) = true).
  { unfold is_arm. destruct Harm as [-> | ->]; [reflexivity|].
    apply orb_true_r. }
  destruct (preflight_arm env pci_interfaces silent w E) as [Ho Ht].
  subst r. unfold full_lds_reset.
  rewrite (proj1 (bind_Raise _ _ _ _ Ho)), (proj2 (bind_Raise _ _ _ _ Ho)), Ht.
  repeat split; reflexivity.
Qed.

Lemma full_lds_reset_arm_exit_witness :
  let r := full_lds_reset Sample.arm_env 10 [3; 3; 5] false false Sample.w0 in
  out r = Raise (SystemExit 1) /\
  trace r = [EvHostInfo; EvPrint MsgArmUnsupported] /\
  count any_resolve (trace r) = 0%nat /\
  count any_ioctl (trace r) = 0%nat /\
  count open_config_ev (trace r) = 0%nat /\
  count any_pread (trace r) = 0%nat.
Proof.
  apply (full_lds_reset_arm_exit Sample.arm_env 10 [3; 3; 5] false false
           Sample.w0).
  right. reflexivity.
Defined.

(** C10.  With an empty device list on a host that is not ARM,
    [full_lds_reset] makes no ioctl, resolves no BDF and reads no config
    space; the poll loop leaves through [break] in its first turn (the
    counter 0 equals the number of handles, 0) without sleeping; the call
    returns the empty list. *)
Theorem full_lds_reset_empty (env : Env) (fuel : nat) (reset_m3 silent : bool)
    (w : world) :
  set_iter_ok env ->
  is_arm (host_platform env) = false ->
  (1 <= fuel)%nat ->
  let r := full_lds_reset env fuel [] reset_m3 silent w in
  out r = Ok [] /\
  (exists t,
     trace r = EvHostInfo :: (if silent then [] else [EvPrint (MsgStarting [])])
               ++ EvTime t ::
               (if silent then [] else [EvPrint (MsgFinishing [])])) /\
  count any_resolve (trace r) = 0%nat /\
  count any_ioctl (trace r) = 0%nat /\
  count any_pread (trace r) = 0%nat /\
  count any_sleep (trace r) = 0%nat /\
  (forall w', out (poll_stage env fuel [] [] 0 w') = Ok (0, ∅, true) /\
              trace (poll_stage env fuel [] [] 0 w') = [EvTime (now w')]).
Proof.
  intros Hok Harm Hfuel r.
  destruct fuel as [|fuel]; [lia|].
  destruct (preflight_not_arm env [] silent w Harm) as [Ho Ht].
  rewrite (dedup_nil env Hok) in Ho, Ht.
  assert (Hr : out r = Ok [] /\
    exists t, trace r =
      EvHostInfo :: (if silent then [] else [EvPrint (MsgStarting [])])
      ++ EvTime t :: (if silent then [] else [EvPrint (MsgFinishing [])])).
  { subst r. unfold full_lds_reset.
    rewrite (out_bind_Ok _ _ _ _ Ho), (trace_bind_Ok _ _ _ _ Ho), Ht.
    destruct silent; cbn; split; eauto. }
  destruct Hr as [Hout [t Htr]].
  split; [exact Hout|]. split; [eauto|].
  rewrite Htr.
  repeat split; try (destruct silent; reflexivity).
Qed.

Lemma full_lds_reset_empty_witness :
  let r := full_lds_reset Sample.env 1 [] false false Sample.w0 in
  out r = Ok [] /\
  (exists t,
     trace r = EvHostInfo :: [EvPrint (MsgStarting [])]
               ++ EvTime t :: [EvPrint (MsgFinishing [])]) /\
  count any_resolve (trace r) = 0%nat /\
  count any_ioctl (trace r) = 0%nat /\
  count any_pread (trace r) = 0%nat /\
  count any_sleep (trace r) = 0%nat /\
  (forall w', out (poll_stage Sample.env 1 [] [] 0 w') = Ok (0, ∅, true) /\
              trace (poll_stage Sample.env 1 [] [] 0 w') = [EvTime (now w')]).
Proof.
  apply (full_lds_reset_empty Sample.env 1 false false Sample.w0);
    [exact sample_set_iter_ok | reflexivity | lia].
Defined.

(** ** Properties of the poll stage *)

Lemma poll_stage_eq env fuel ds files completed w :
  poll_stage env fuel ds files completed w =
  let w' := {| hist := hist w ++ [EvTime (now w)];
               now := now w + Z.of_N (latency env (hist w ++ [EvTime (now w)])) |} in
  let r := poll_loop env fuel files completed (now w) 0
                     (init_reset_bit_map ds) w' in
  {| out := out r; trace := EvTime (now w) :: trace r; clock := clock r |}.
Proof. unfold poll_stage. now rewrite run_time_bind. Qed.

(** With at least one handle and the counter at 0, a poll stage that has
    2000 turns of fuel returns, and a poll stage that returns was left on
    the timeout. *)
Lemma poll_stage_timeout env fuel ds files w :
  files <> [] ->
  let r := poll_stage env fuel ds files 0 w in
  (forall el bm broke,
     out r = Ok (el, bm, broke) ->
     broke = false /\ POST_RESET_MSG_WAIT_TIME <= el) /\
  ((2000 <= fuel)%nat -> exists el bm, out r = Ok (el, bm, false)).
Proof.
  intros Hne r. subst r. rewrite poll_stage_eq. cbv zeta. cbn [out].
  set (w' := {| hist := _; now := _ |}).
  assert (Hexit : forall el bm broke,
    out (poll_loop env fuel files 0 (now w) 0 (init_reset_bit_map ds) w')
      = Ok (el, bm, broke) ->
    broke = false /\ POST_RESET_MSG_WAIT_TIME <= el).
  { intros el bm broke H. apply poll_loop_exit in H.
    destruct broke; [|auto].
    destruct files; [congruence | discriminate]. }
  split; [exact Hexit|]. intros Hfuel.
  pose proof (poll_loop_terminates env fuel files 0 (now w) 0
                (init_reset_bit_map ds) w') as Hterm.
  pose proof (poll_loop_no_raise env fuel files 0 (now w) 0
                (init_reset_bit_map ds) w') as Hnr.
  destruct (out (poll_loop env fuel files 0 (now w) 0
                   (init_reset_bit_map ds) w')) as [[[el bm] broke]|x|] eqn:E.
  - destruct (Hexit _ _ _ eq_refl) as [-> _]. eauto.
  - now contradiction (Hnr x).
  - exfalso. apply Hterm; [subst w'; cbn [now]; lia | | reflexivity].
    unfold POST_RESET_MSG_WAIT_TIME, POLL_SLEEP. lia.
Qed.

(** C2.  For a non-empty device list the early exit of the poll loop is
    never taken: the counter is 0 when the loop starts and is not assigned
    in it, while the number of handles is at least 1; so a poll stage that
    ends, ends with [elapsed] at or past the 2 second timeout, whatever the
    config spaces show, and with 2000 turns of fuel it does end. *)
Theorem poll_loop_never_breaks (env : Env) (fuel : nat) (l : list Z)
    (bdfs : gmap Z string) (w0 w : world) (files : list (Z * cfg_file)) :
  set_iter_ok env ->
  l <> [] ->
  let ds := set_iter env l in
  out (open_files env ds bdfs w0) = Ok files ->
  let r := poll_stage env fuel ds files 0 w in
  (0 < length files)%nat /\
  (forall el bm broke,
     out r = Ok (el, bm, broke) ->
     broke = false /\ POST_RESET_MSG_WAIT_TIME <= el) /\
  ((2000 <= fuel)%nat ->
   exists el bm, out r = Ok (el, bm, false) /\ POST_RESET_MSG_WAIT_TIME <= el).
Proof.
  intros Hok Hl ds Hopen r.
  destruct (open_files_Ok env _ _ _ _ Hopen) as [Ekeys _].
  destruct (dedup_spec env l Hok) as [_ Hmem]. fold ds in Hmem.
  assert (Hne : files <> []).
  { intros ->. destruct l as [|x l]; [congruence|].
    assert (Hx : x ∈ ds) by (apply Hmem; left).
    cbn in Ekeys. rewrite <- Ekeys in Hx. inversion Hx. }
  destruct (poll_stage_timeout env fuel ds files w Hne) as [Hexit Hret].
  split; [destruct files; [congruence | cbn; lia]|].
  split; [exact Hexit|]. intros Hfuel.
  destruct (Hret Hfuel) as (el & bm & E). exists el, bm.
  split; [exact E|]. now destruct (Hexit _ _ _ E).
Qed.

Lemma sample_open_files :
  out (open_files Sample.env (set_iter Sample.env [3; 3; 5])
         {[ 3 := Sample.bdf_of 3; 5 := Sample.bdf_of 5 ]} Sample.w0)
  = Ok [(3, {| cfg_owner := 3; cfg_bdf := Sample.bdf_of 3 |});
        (5, {| cfg_owner := 5; cfg_bdf := Sample.bdf_of 5 |})].
Proof. vm_compute. reflexivity. Qed.

Lemma poll_loop_never_breaks_witness :
  let files := [(3, {| cfg_owner := 3; cfg_bdf := Sample.bdf_of 3 |});
                (5, {| cfg_owner := 5; cfg_bdf := Sample.bdf_of 5 |})] in
  let r := poll_stage Sample.env 2000
             (set_iter Sample.env [3; 3; 5]) files 0 Sample.w0 in
  (0 < length files)%nat /\
  (forall el bm broke,
     out r = Ok (el, bm, broke) ->
     broke = false /\ POST_RESET_MSG_WAIT_TIME <= el) /\
  ((2000 <= 2000)%nat ->
   exists el bm, out r = Ok (el, bm, false) /\ POST_RESET_MSG_WAIT_TIME <= el).
Proof.
  apply (poll_loop_never_breaks Sample.env 2000 [3; 3; 5]
           {[ 3 := Sample.bdf_of 3; 5 := Sample.bdf_of 5 ]} Sample.w0 Sample.w0).
  - exact sample_set_iter_ok.
  - discriminate.
  - exact sample_open_files.
Defined.

(** C7.  Whatever the config spaces show (also when no read ever shows bit
    0), for a non-empty batch the poll stage ends: 2000 turns are enough,
    since every turn sleeps at least a millisecond; it ends on the clock
    reading that first shows [elapsed] at or past the 2 second timeout
    (every earlier reading was below it); and it sleeps at most 2000
    times. *)
Theorem poll_stage_terminates_at_timeout (env : Env) (fuel : nat)
    (ds : list Z) (files : list (Z * cfg_file)) (w : world) :
  files <> [] ->
  (2000 <= fuel)%nat ->
  let r := poll_stage env fuel ds files 0 w in
  exists el bm pre t,
    out r = Ok (el, bm, false) /\
    trace r = EvTime (now w) :: pre ++ [EvTime t] /\
    el = t - now w /\
    POST_RESET_MSG_WAIT_TIME <= el /\
    Forall (fun e => forall t', e = EvTime t' ->
                                t' - now w < POST_RESET_MSG_WAIT_TIME) pre /\
    (count any_sleep (trace r) <= 2000)%nat.
Proof.
  intros Hne Hfuel r.
  destruct (poll_stage_timeout env fuel ds files w Hne) as [Hexit Hret].
  destruct (Hret Hfuel) as (el & bm & E). fold r in E.
  destruct (Hexit _ _ _ E) as [_ Hel].
  subst r. rewrite poll_stage_eq in E |- *. cbv zeta in E |- *.
  cbn [out trace] in E |- *.
  set (w' := {| hist := _; now := _ |}) in *.
  destruct (poll_loop_last_reading env fuel files 0 (now w) 0
              (init_reset_bit_map ds) w' el bm) as (pre & t & Htr & Het & Hpre);
    [unfold POST_RESET_MSG_WAIT_TIME; lia | exact E |].
  exists el, bm, pre, t. rewrite Htr.
  repeat (split; [assumption || reflexivity|]).
  rewrite <- Htr. cbn [count any_sleep Nat.add].
  destruct (poll_loop_sleeps env fuel files 0 (now w) 0
              (init_reset_bit_map ds) w') as [->|Hb].
  - subst w'. cbn [now]. lia.
  - lia.
  - unfold POST_RESET_MSG_WAIT_TIME, POLL_SLEEP in Hb. lia.
Qed.

Lemma poll_stage_terminates_at_timeout_witness :
  let files := [(5, {| cfg_owner := 5; cfg_bdf := Sample.bdf_of 5 |})] in
  let r := poll_stage Sample.env 2000 [5] files 0 Sample.w0 in
  exists el bm pre t,
    out r = Ok (el, bm, false) /\
    trace r = EvTime (now Sample.w0) :: pre ++ [EvTime t] /\
    el = t - now Sample.w0 /\
    POST_RESET_MSG_WAIT_TIME <= el /\
    Forall (fun e => forall t', e = EvTime t' ->
                                t' - now Sample.w0 < POST_RESET_MSG_WAIT_TIME) pre /\
    (count any_sleep (trace r) <= 2000)%nat.
Proof.
  apply (poll_stage_terminates_at_timeout Sample.env 2000 [5]
           [(5, {| cfg_owner := 5; cfg_bdf := Sample.bdf_of 5 |})] Sample.w0);
    [discriminate | lia].
Defined.

Lemma reset_bit_of_byte b :
  reset_bit_of [b] = Z.b2z (Z.testbit (Struct.Z_of_byte b) 1).
Proof. destruct b; reflexivity. Qed.

Lemma poll_stage_last_sample env fuel ds files w el bm broke :
  Forall (fun it => cfg_owner (snd it) = fst it) files ->
  let r := poll_stage env fuel ds files 0 w in
  out r = Ok (el, bm, broke) ->
  forall i, i ∈ map fst files ->
    exists d, last_sample i (trace r) = Some d /\
              bm !! i = Some (reset_bit_of d).
Proof.
  intros Hkeyed r E i Hi. subst r.
  rewrite poll_stage_eq in E |- *. cbv zeta in E |- *. cbn [out trace] in E |- *.
  set (w' := {| hist := _; now := _ |}) in *.
  pose proof (poll_loop_last_sample env fuel files 0 (now w) 0
                (init_reset_bit_map ds) w' el bm broke Hkeyed E i) as Hl.
  destruct (poll_loop_sampled env fuel files 0 (now w) 0
              (init_reset_bit_map ds) w' i Hkeyed) as [d Hd].
  - unfold POST_RESET_MSG_WAIT_TIME. lia.
  - rewrite E. discriminate.
  - exact Hi.
  - rewrite Hd in Hl. exists d. split; [|exact Hl].
    unfold last_sample in *. cbn [samples_of]. exact Hd.
Qed.

(** C4.  In every round the poller reads, through every handle of
    [files_map] in turn, 1 byte at offset 4; the bit it keeps is bit 1 of
    that byte (0 for 0x00, 1 for 0x02); and after the loop the entry of
    every device is the bit of the last byte read from that device, whatever
    was read before. *)
Theorem poll_keeps_latest_sample (env : Env) (fuel : nat) (ds : list Z)
    (bdfs : gmap Z string) (w0 w : world) (files : list (Z * cfg_file))
    (el : Z) (bm : gmap Z Z) (broke : bool) :
  out (open_files env ds bdfs w0) = Ok files ->
  let r := poll_stage env fuel ds files 0 w in
  out r = Ok (el, bm, broke) ->
  (reset_bit_of [x00] = 0 /\ reset_bit_of [x02] = 1 /\
   forall b, reset_bit_of [b] = Z.b2z (Z.testbit (Struct.Z_of_byte b) 1)) /\
  (forall bm0 w',
     Forall2 (fun it e => exists data,
                e = EvPread (snd it) 1 4 data /\ (length data <= 1)%nat)
             files (trace (poll_round env files bm0 w'))) /\
  Forall (fun e => any_pread e = true ->
                   exists f data, e = EvPread f 1 4 data /\
                                  (length data <= 1)%nat /\ f ∈ map snd files)
         (trace r) /\
  (forall i, i ∈ ds ->
     exists d, last_sample i (trace r) = Some d /\
               bm !! i = Some (reset_bit_of d)).
Proof.
  intros Hopen r E.
  destruct (open_files_Ok env _ _ _ _ Hopen) as [Ekeys Hkeyed].
  split; [|split; [|split]].
  - split; [reflexivity|]. split; [reflexivity | apply reset_bit_of_byte].
  - intros bm0 w'.
    destruct (poll_round_spec env files bm0 w' Hkeyed) as (_ & _ & H & _).
    exact H.
  - subst r. rewrite poll_stage_eq. cbv zeta. cbn [trace].
    constructor; [discriminate | apply poll_loop_reads].
  - intros i Hi. rewrite <- Ekeys in Hi.
    now apply (poll_stage_last_sample env fuel ds files w el bm broke).
Qed.

Lemma poll_keeps_latest_sample_witness :
  let files := [(3, {| cfg_owner := 3; cfg_bdf := Sample.bdf_of 3 |});
                (5, {| cfg_owner := 5; cfg_bdf := Sample.bdf_of 5 |})] in
  let ds := set_iter Sample.env [3; 3; 5] in
  let bm : gmap Z Z := {[ 3 := 0; 5 := 1 ]} in
  let r := poll_stage Sample.env 10 ds files 0 Sample.w0 in
  (reset_bit_of [x00] = 0 /\ reset_bit_of [x02] = 1 /\
   forall b, reset_bit_of [b] = Z.b2z (Z.testbit (Struct.Z_of_byte b) 1)) /\
  (forall bm0 w',
     Forall2 (fun it e => exists data,
                e = EvPread (snd it) 1 4 data /\ (length data <= 1)%nat)
             files (trace (poll_round Sample.env files bm0 w'))) /\
  Forall (fun e => any_pread e = true ->
                   exists f data, e = EvPread f 1 4 data /\
                                  (length data <= 1)%nat /\ f ∈ map snd files)
         (trace r) /\
  (forall i, i ∈ ds ->
     exists d, last_sample i (trace r) = Some d /\
               bm !! i = Some (reset_bit_of d)).
Proof.
  apply (poll_keeps_latest_sample Sample.env 10
           (set_iter Sample.env [3; 3; 5])
           {[ 3 := Sample.bdf_of 3; 5 := Sample.bdf_of 5 ]}
           Sample.w0 Sample.w0 _ 2000000000 {[ 3 := 0; 5 := 1 ]} false).
  - exact sample_open_files.
  - vm_compute. reflexivity.
Defined.

(** ** Counting the events of a call that returned *)

Section Counting.

Lemma any_command_excl f1 f2 e :
  f1 <> f2 -> any_command f1 e = true -> any_command f2 e = false.
Proof.
  intros Hne. destruct e; simpl; try discriminate.
  intros [_ H]%andb_true_iff. apply Z.eqb_eq in H. rewrite H.
  apply andb_false_iff. right. now apply Z.eqb_neq.
Qed.

Lemma config_write_not_restore e :
  any_config_write e = true -> any_restore e = false.
Proof. now apply any_command_excl. Qed.

Lemma restore_not_config_write e :
  any_restore e = true -> any_config_write e = false.
Proof. now apply any_command_excl. Qed.

Lemma is_command_any flags i e : is_command flags i e = true -> any_command flags e = true.
Proof. destruct e; simpl; try discriminate. now intros [_ H]%andb_true_iff. Qed.

Lemma any_command_false_is flags i e :
  any_command flags e = false -> is_command flags i e = false.
Proof.
  intros H. destruct (is_command flags i e) eqn:E; [|reflexivity].
  apply is_command_any in E. congruence.
Qed.

Lemma is_command_block flags i d :
  0 <= flags < 2 ^ 32 ->
  is_command flags i
    (EvIoctl d TENSTORRENT_IOCTL_RESET_DEVICE (command_buf flags)) = (d =? i).
Proof.
  intros Hf. simpl. destruct (command_buf_fields flags Hf) as (_ & -> & _).
  rewrite !Z.eqb_refl. now rewrite !andb_true_r.
Qed.

Lemma is_command_other_block flags flags' i d :
  0 <= flags' < 2 ^ 32 -> flags <> flags' ->
  is_command flags i
    (EvIoctl d TENSTORRENT_IOCTL_RESET_DEVICE (command_buf flags')) = false.
Proof.
  intros Hf Hne. simpl. destruct (command_buf_fields flags' Hf) as (_ & -> & _).
  apply not_eq_sym, Z.eqb_neq in Hne. rewrite Hne.
  now rewrite !andb_false_r.
Qed.

Lemma eqb_indicator (d i : Z) :
  (if d =? i then 1%nat else 0%nat) = if decide (d = i) then 1%nat else 0%nat.
Proof.
  destruct (Z.eqb_spec d i); destruct (decide (d = i)); congruence.
Qed.

Variable env : Env.
Variables (fuel : nat) (l : list Z) (reset_m3 silent : bool) (w : world).
Variable chips : list PciChip.
Hypothesis Hok : set_iter_ok env.
Hypothesis Hret : out (full_lds_reset env fuel l reset_m3 silent w) = Ok chips.

Let ds := set_iter env l.
Let tr := trace (full_lds_reset env fuel l reset_m3 silent w).

Lemma count_in_batch (i : Z) :
  (if decide (i ∈ ds) then 1%nat else 0%nat) =
  (if decide (i ∈ l) then 1%nat else 0%nat).
Proof.
  destruct (dedup_spec env l Hok) as [_ Hmem]. fold ds in Hmem.
  destruct (decide (i ∈ ds)) as [H|H]; destruct (decide (i ∈ l)) as [H'|H'];
    try reflexivity; apply Hmem in H || apply Hmem in H'; tauto.
Qed.

(** A predicate that holds of nothing outside the blocks of the two command
    loops, the classification lines and the returned handles is counted
    there only. *)
Lemma count_full (p : event -> bool) :
  p EvHostInfo = false ->
  (forall m, p (EvPrint (MsgStarting m)) = false) ->
  (forall m, p (EvPrint (MsgFinishing m)) = false) ->
  (forall e, open_config_ev e = true -> p e = false) ->
  (forall e, poll_ev e = true -> p e = false) ->
  exists bm,
    count p tr =
      (count p (flat_map config_write_block ds) +
       count p (map (classification bm) ds) +
       count p (flat_map restore_block ds) +
       count p (map EvPciChip ds))%nat /\
    (forall i, i ∈ ds ->
       exists d, last_sample i tr = Some d /\ bm !! i = Some (reset_bit_of d)).
Proof.
  intros H0 Hs Hf Hopen Hpoll.
  destruct (full_lds_reset_Ok env fuel l reset_m3 silent w chips Hret)
    as (_ & _ & opens & polls & bm & Htr & Fo & Fp & _ & Hbm).
  fold ds tr in Htr. exists bm. split.
  - rewrite Htr, !count_app.
    rewrite (count_class_zero p _ opens Fo Hopen).
    rewrite (count_class_zero p _ polls Fp Hpoll).
    assert (E1 : count p (EvHostInfo ::
                   (if silent then [] else [EvPrint (MsgStarting ds)])) = 0%nat).
    { destruct silent; simpl; now rewrite ?H0, ?Hs. }
    assert (E2 : count p (if silent then [] else [EvPrint (MsgFinishing ds)])
                 = 0%nat).
    { destruct silent; simpl; now rewrite ?Hf. }
    rewrite E1, E2. lia.
  - intros i Hi. destruct (Hbm i Hi) as (d & Hd & Hb). exists d.
    split; [|exact Hb]. rewrite Htr.
    assert (Hnone : forall s, Forall (fun e => any_pread e = false) s ->
                              last_sample i s = None)
      by (intros s; apply last_sample_none).
    rewrite !last_sample_app.
    rewrite (Hnone (map EvPciChip ds)) by (apply Forall_map, Forall_true; auto).
    rewrite (Hnone (if silent then [] else _))
      by (destruct silent; repeat constructor).
    rewrite (Hnone (flat_map restore_block ds))
      by (apply Forall_flat_map, Forall_true; intros; repeat constructor).
    rewrite (Hnone (map (classification bm) ds)).
    + now rewrite Hd.
    + apply Forall_map, Forall_true. intros x. unfold classification.
      destruct (bm !! x) as [[| |]|]; reflexivity.
Qed.

End Counting.

Section BlockCounts.

Variable i : Z.

Lemma count_blocks p (block : Z -> list event) (c : nat) ds :
  (forall d, count p (block d) = if d =? i then c else 0%nat) ->
  NoDup ds ->
  count p (flat_map block ds) = if decide (i ∈ ds) then c else 0%nat.
Proof.
  intros Hb Hnd. rewrite (count_flat_map_once p block i ds); [|.. | exact Hnd].
  - now rewrite Hb, Z.eqb_refl.
  - intros d Hd. rewrite Hb. apply Z.eqb_neq in Hd. now rewrite Hd.
Qed.

Lemma count_resolve_config_write_block d :
  count (is_resolve i) (config_write_block d) = if d =? i then 1%nat else 0%nat.
Proof. cbn [count config_write_block is_resolve]. now destruct (d =? i). Qed.

Lemma count_config_write_block d :
  count (is_config_write i) (config_write_block d)
  = if d =? i then 1%nat else 0%nat.
Proof.
  unfold config_write_block, is_config_write. cbn [count].
  rewrite is_command_block by apply config_write_range.
  cbn [is_command]. now destruct (d =? i).
Qed.

Lemma count_restore_block d :
  count (is_restore i) (restore_block d) = if d =? i then 1%nat else 0%nat.
Proof.
  unfold restore_block, is_restore. cbn [count].
  rewrite is_command_block by apply restore_state_range.
  cbn [is_command]. now destruct (d =? i).
Qed.

Lemma count_restore_in_config_write_block d :
  count (is_restore i) (config_write_block d) = 0%nat.
Proof.
  unfold config_write_block, is_restore. cbn [count].
  rewrite is_command_other_block
    by (apply config_write_range || discriminate).
  reflexivity.
Qed.

Lemma count_config_write_in_restore_block d :
  count (is_config_write i) (restore_block d) = 0%nat.
Proof.
  unfold restore_block, is_config_write. cbn [count].
  rewrite is_command_other_block
    by (apply restore_state_range || discriminate).
  reflexivity.
Qed.

Lemma classification_is_classified bm d :
  is_classified i (classification bm d) = (d =? i).
Proof.
  unfold classification, is_classified.
  destruct (bm !! d) as [[| |]|]; simpl; now rewrite ?orb_false_r.
Qed.

Lemma count_classified bm ds :
  NoDup ds ->
  count (is_classified i) (map (classification bm) ds)
  = if decide (i ∈ ds) then 1%nat else 0%nat.
Proof.
  intros Hnd. rewrite map_as_flat_map.
  apply (count_blocks _ (fun d => [classification bm d]) 1); [|exact Hnd].
  intros d. cbn [count]. rewrite classification_is_classified.
  now destruct (d =? i).
Qed.

Lemma count_chips ds :
  NoDup ds ->
  count (is_chip i) (map EvPciChip ds) = if decide (i ∈ ds) then 1%nat else 0%nat.
Proof.
  intros Hnd. rewrite map_as_flat_map.
  apply (count_blocks _ (fun d => [EvPciChip d]) 1); [|exact Hnd].
  intros d. cbn [count is_chip]. now destruct (d =? i).
Qed.

End BlockCounts.

Lemma init_reset_bit_map_dom ds :
  dom (init_reset_bit_map ds) = (list_to_set ds : gset Z).
Proof.
  induction ds as [|d ds IH]; cbn [init_reset_bit_map foldr list_to_set].
  - apply dom_empty_L.
  - rewrite dom_insert_L. fold (init_reset_bit_map ds). now rewrite IH.
Qed.

Lemma poll_round_dom env items bm w bm' :
  out (poll_round env items bm w) = Ok bm' ->
  dom bm' = dom bm ∪ (list_to_set (map fst items) : gset Z).
Proof.
  revert bm w. induction items as [|[i f] items IH]; intros bm w.
  - cbn. intros [= <-]. now rewrite union_empty_r_L.
  - cbn [poll_round]. rewrite run_pread_bind. cbv zeta. cbn [out].
    intros H. apply IH in H. rewrite H, dom_insert_L.
    cbn [map fst list_to_set]. apply set_eq. intros x.
    rewrite !elem_of_union. tauto.
Qed.

Lemma poll_loop_dom env fuel files completed start_time elapsed bm w el bm' broke :
  (list_to_set (map fst files) : gset Z) ⊆ dom bm ->
  out (poll_loop env fuel files completed start_time elapsed bm w)
    = Ok (el, bm', broke) ->
  dom bm' = dom bm.
Proof.
  revert elapsed bm w.
  induction fuel as [|fuel IH]; intros elapsed bm w Hsub.
  - cbn [poll_loop]. destruct (elapsed <? _); [discriminate|].
    cbn. now intros [= <- <- <-].
  - destruct (Z.ltb_spec elapsed POST_RESET_MSG_WAIT_TIME) as [Hlt|Hge].
    + destruct (poll_round_Ok env files bm w) as (bm1 & Ho & _).
      pose proof (poll_round_dom env files bm w bm1 Ho) as Hd.
      assert (Hd' : dom bm1 = dom bm).
      { apply set_eq. intros x. rewrite Hd, elem_of_union.
        split; [intros [?|?]; auto | auto]. }
      pose proof (poll_loop_unfold env fuel files completed start_time elapsed
                    bm w bm1 Hlt Ho) as H. cbv zeta in H.
      destruct (Nat.eqb completed (length files)).
      * destruct H as (-> & _). now intros [= <- <- <-].
      * destruct H as (t & w3 & _ & _ & -> & _). intros Hr.
        apply IH in Hr; [congruence|]. now rewrite Hd'.
    + rewrite poll_loop_done by assumption. cbn. now intros [= <- <- <-].
Qed.

(** In a call that returned, every kind of per-device event occurs once
    for a device of the batch and not at all for another id. *)
Lemma stage_counts (env : Env) (fuel : nat) (l : list Z)
    (reset_m3 silent : bool) (w : world) (chips : list PciChip) (i : Z) :
  set_iter_ok env ->
  out (full_lds_reset env fuel l reset_m3 silent w) = Ok chips ->
  let tr := trace (full_lds_reset env fuel l reset_m3 silent w) in
  let n := if decide (i ∈ l) then 1%nat else 0%nat in
  count (is_resolve i) tr = n /\
  count (is_config_write i) tr = n /\
  count (is_classified i) tr = n /\
  count (is_restore i) tr = n /\
  count (is_chip i) tr = n.
Proof.
  intros Hok Hret tr n. subst n.
  set (ds := set_iter env l).
  destruct (dedup_spec env l Hok) as [Hnd _]. fold ds in Hnd.
  rewrite <- (count_in_batch env l Hok i). fold ds.
  assert (Hc : forall p,
    p EvHostInfo = false ->
    (forall m, p (EvPrint (MsgStarting m)) = false) ->
    (forall m, p (EvPrint (MsgFinishing m)) = false) ->
    (forall e, open_config_ev e = true -> p e = false) ->
    (forall e, poll_ev e = true -> p e = false) ->
    exists bm, count p tr =
      (count p (flat_map config_write_block ds) +
       count p (map (classification bm) ds) +
       count p (flat_map restore_block ds) +
       count p (map EvPciChip ds))%nat).
  { intros p H1 H2 H3 H4 H5.
    destruct (count_full env fuel l reset_m3 silent w chips Hret p
                H1 H2 H3 H4 H5) as (bm & E & _).
    now exists bm. }
  assert (Hcls : forall (p : event -> bool) bm,
    (forall j, p (EvPrint (MsgCompleted j)) = false) ->
    (forall j, p (EvPrint (MsgNotCompleted j)) = false) ->
    count p (map (classification bm) ds) = 0%nat).
  { intros p bm Hp1 Hp2. apply count_map_zero. intros d.
    unfold classification. destruct (bm !! d) as [[| |]|]; auto. }
  repeat split.
  - destruct (Hc (is_resolve i)) as (bm & ->); try reflexivity;
      try (intros [] He; (discriminate He || reflexivity)).
    rewrite (count_blocks i _ _ 1 ds (count_resolve_config_write_block i) Hnd).
    rewrite Hcls by reflexivity.
    rewrite count_flat_map_zero by reflexivity.
    rewrite count_map_zero by reflexivity. lia.
  - destruct (Hc (is_config_write i)) as (bm & ->); try reflexivity;
      try (intros [] He; (discriminate He || reflexivity)).
    rewrite (count_blocks i _ _ 1 ds (count_config_write_block i) Hnd).
    rewrite Hcls by reflexivity.
    rewrite count_flat_map_zero
      by (intros; apply count_config_write_in_restore_block).
    rewrite count_map_zero by reflexivity. lia.
  - destruct (Hc (is_classified i)) as (bm & ->); try reflexivity;
      try (intros [] He; (discriminate He || reflexivity)).
    rewrite count_classified by exact Hnd.
    rewrite !count_flat_map_zero by reflexivity.
    rewrite count_map_zero by reflexivity. lia.
  - destruct (Hc (is_restore i)) as (bm & ->); try reflexivity;
      try (intros [] He; (discriminate He || reflexivity)).
    rewrite (count_blocks i _ _ 1 ds (count_restore_block i) Hnd).
    rewrite Hcls by reflexivity.
    rewrite count_flat_map_zero
      by (intros; apply count_restore_in_config_write_block).
    rewrite count_map_zero by reflexivity. lia.
  - destruct (Hc (is_chip i)) as (bm & ->); try reflexivity;
      try (intros [] He; (discriminate He || reflexivity)).
    rewrite count_chips by exact Hnd.
    rewrite Hcls by reflexivity.
    rewrite !count_flat_map_zero by reflexivity. lia.
Qed.

(** C9.  The deduplicated list holds every distinct input id once, and in
    a call that returns every stage passes over it once: for every id of
    the input, one BDF resolution, one CONFIG_WRITE, one entry in the bit
    map, one classification line, one RESTORE_STATE and one returned
    handle; for any other id, none. *)
Theorem each_stage_once_per_device (env : Env) (fuel : nat) (l : list Z)
    (reset_m3 silent : bool) (w : world) (chips : list PciChip) :
  set_iter_ok env ->
  out (full_lds_reset env fuel l reset_m3 silent w) = Ok chips ->
  let ds := set_iter env l in
  let tr := trace (full_lds_reset env fuel l reset_m3 silent w) in
  NoDup ds /\ (forall i, i ∈ ds <-> i ∈ l) /\
  (forall i,
     let n := if decide (i ∈ l) then 1%nat else 0%nat in
     count (is_resolve i) tr = n /\
     count (is_config_write i) tr = n /\
     count (is_classified i) tr = n /\
     count (is_restore i) tr = n /\
     count (is_chip i) tr = n) /\
  map chip_interface chips = ds /\
  dom (init_reset_bit_map ds) = (list_to_set l : gset Z) /\
  (forall files w' el bm broke,
     map fst files = ds ->
     out (poll_stage env fuel ds files 0 w') = Ok (el, bm, broke) ->
     dom bm = (list_to_set l : gset Z)).
Proof.
  intros Hok Hret ds tr.
  destruct (dedup_spec env l Hok) as [Hnd Hmem]. fold ds in Hnd, Hmem.
  assert (Hset : (list_to_set ds : gset Z) = list_to_set l).
  { apply set_eq. intros x. rewrite !elem_of_list_to_set. apply Hmem. }
  split; [exact Hnd|]. split; [exact Hmem|]. split; [|split; [|split]].
  - intros i. now apply (stage_counts env fuel l reset_m3 silent w chips).
  - destruct (full_lds_reset_Ok env fuel l reset_m3 silent w chips Hret)
      as (_ & -> & _).
    fold ds. rewrite map_map. cbn [chip_interface]. apply map_id.
  - now rewrite init_reset_bit_map_dom.
  - intros files w' el bm broke Ekeys Hp.
    rewrite poll_stage_eq in Hp. cbv zeta in Hp. cbn [out] in Hp.
    apply poll_loop_dom in Hp.
    + now rewrite Hp, init_reset_bit_map_dom.
    + now rewrite Ekeys, init_reset_bit_map_dom.
Qed.

Lemma sample_run_returns :
  out (full_lds_reset Sample.env 10 [3; 3; 5] false false Sample.w0)
  = Ok [{| chip_interface := 3 |}; {| chip_interface := 5 |}].
Proof. vm_compute. reflexivity. Qed.

Lemma each_stage_once_per_device_witness :
  let ds := set_iter Sample.env [3; 3; 5] in
  let tr := trace (full_lds_reset Sample.env 10 [3; 3; 5] false false
                     Sample.w0) in
  NoDup ds /\ (forall i, i ∈ ds <-> i ∈ [3; 3; 5]) /\
  (forall i,
     let n := if decide (i ∈ [3; 3; 5]) then 1%nat else 0%nat in
     count (is_resolve i) tr = n /\
     count (is_config_write i) tr = n /\
     count (is_classified i) tr = n /\
     count (is_restore i) tr = n /\
     count (is_chip i) tr = n) /\
  map chip_interface [{| chip_interface := 3 |}; {| chip_interface := 5 |}]
    = ds /\
  dom (init_reset_bit_map ds) = (list_to_set [3; 3; 5] : gset Z) /\
  (forall files w' el bm broke,
     map fst files = ds ->
     out (poll_stage Sample.env 10 ds files 0 w') = Ok (el, bm, broke) ->
     dom bm = (list_to_set [3; 3; 5] : gset Z)).
Proof.
  apply (each_stage_once_per_device Sample.env 10 [3; 3; 5] false false
           Sample.w0).
  - exact sample_set_iter_ok.
  - exact sample_run_returns.
Defined.

(** ** Classification *)

Lemma count_completed_classification i bm ds b :
  NoDup ds -> i ∈ ds -> bm !! i = Some b ->
  count (is_completed_msg i) (map (classification bm) ds)
    = (if b =? 0 then 1%nat else 0%nat) /\
  count (is_not_completed_msg i) (map (classification bm) ds)
    = (if b =? 0 then 0%nat else 1%nat).
Proof.
  intros Hnd Hi Hb. split.
  - rewrite (count_map_once _ _ i ds); [|.. | exact Hnd].
    + rewrite decide_True by exact Hi. unfold classification. rewrite Hb.
      destruct b; simpl; now rewrite ?Z.eqb_refl.
    + intros d Hd. unfold classification.
      apply Z.eqb_neq in Hd.
      destruct (bm !! d) as [[| |]|]; simpl; auto.
  - rewrite (count_map_once _ _ i ds); [|.. | exact Hnd].
    + rewrite decide_True by exact Hi. unfold classification. rewrite Hb.
      destruct b; simpl; now rewrite ?Z.eqb_refl.
    + intros d Hd. unfold classification.
      apply Z.eqb_neq in Hd.
      destruct (bm !! d) as [[| |]|]; simpl; auto.
Qed.

(** C3 (as amended).  In a call that returns, every device of the batch is
    classified once, by the last byte the poller read from it: "completed"
    if bit 1 of that byte is 0, "not completed" otherwise.  So a device
    that never showed 0 is "not completed".  Either way the device gets
    its RESTORE_STATE command. *)
Theorem classified_by_last_sample (env : Env) (fuel : nat) (l : list Z)
    (reset_m3 silent : bool) (w : world) (chips : list PciChip) (i : Z) :
  set_iter_ok env ->
  out (full_lds_reset env fuel l reset_m3 silent w) = Ok chips ->
  i ∈ l ->
  let tr := trace (full_lds_reset env fuel l reset_m3 silent w) in
  exists d,
    last_sample i tr = Some d /\
    count (is_completed_msg i) tr = (if reset_bit_of d =? 0 then 1%nat else 0%nat) /\
    count (is_not_completed_msg i) tr
      = (if reset_bit_of d =? 0 then 0%nat else 1%nat) /\
    ((forall d', d' ∈ samples_of i tr -> reset_bit_of d' <> 0) ->
     count (is_not_completed_msg i) tr = 1%nat /\
     count (is_completed_msg i) tr = 0%nat) /\
    count (is_restore i) tr = 1%nat.
Proof.
  intros Hok Hret Hi tr.
  set (ds := set_iter env l).
  destruct (dedup_spec env l Hok) as [Hnd Hmem]. fold ds in Hnd, Hmem.
  assert (Hids : i ∈ ds) by now apply Hmem.
  assert (Hc : forall p,
    p EvHostInfo = false ->
    (forall m, p (EvPrint (MsgStarting m)) = false) ->
    (forall m, p (EvPrint (MsgFinishing m)) = false) ->
    (forall e, open_config_ev e = true -> p e = false) ->
    (forall e, poll_ev e = true -> p e = false) ->
    (forall d, count p (config_write_block d) = 0%nat) ->
    (forall d, count p (restore_block d) = 0%nat) ->
    (forall d, p (EvPciChip d) = false) ->
    exists bm d,
      count p tr = count p (map (classification bm) ds) /\
      last_sample i tr = Some d /\ bm !! i = Some (reset_bit_of d)).
  { intros p H1 H2 H3 H4 H5 H6 H7 H8.
    destruct (count_full env fuel l reset_m3 silent w chips Hret p
                H1 H2 H3 H4 H5) as (bm & E & Hbm).
    destruct (Hbm i Hids) as (d & Hd & Hb).
    exists bm, d. split; [|auto]. fold tr ds in E. rewrite E.
    rewrite !count_flat_map_zero by auto.
    rewrite (count_map_zero p EvPciChip) by auto. lia. }
  destruct (Hc (is_completed_msg i)) as (bm1 & d & E1 & Hd & Hb1);
    try reflexivity; try (intros [] He; (discriminate He || reflexivity)).
  destruct (Hc (is_not_completed_msg i)) as (bm2 & d2 & E2 & Hd2 & Hb2);
    try reflexivity; try (intros [] He; (discriminate He || reflexivity)).
  assert (d2 = d) by congruence. subst d2.
  destruct (count_completed_classification i bm1 ds _ Hnd Hids Hb1) as [C1 _].
  destruct (count_completed_classification i bm2 ds _ Hnd Hids Hb2) as [_ C2].
  exists d. split; [exact Hd|]. split; [congruence|]. split; [congruence|].
  split.
  - intros Hnever.
    assert (Hne : reset_bit_of d <> 0).
    { apply Hnever. unfold last_sample in Hd.
      now apply last_Some_elem_of. }
    apply Z.eqb_neq in Hne. rewrite Hne in C1, C2. split; congruence.
  - destruct (stage_counts env fuel l reset_m3 silent w chips i Hok Hret)
      as (_ & _ & _ & Hr & _).
    fold tr in Hr. rewrite Hr. now rewrite decide_True.
Qed.

Lemma classified_by_last_sample_witness :
  let tr := trace (full_lds_reset Sample.env 10 [3; 3; 5] false false
                     Sample.w0) in
  exists d,
    last_sample 5 tr = Some d /\
    count (is_completed_msg 5) tr = (if reset_bit_of d =? 0 then 1%nat else 0%nat) /\
    count (is_not_completed_msg 5) tr
      = (if reset_bit_of d =? 0 then 0%nat else 1%nat) /\
    ((forall d', d' ∈ samples_of 5 tr -> reset_bit_of d' <> 0) ->
     count (is_not_completed_msg 5) tr = 1%nat /\
     count (is_completed_msg 5) tr = 0%nat) /\
    count (is_restore 5) tr = 1%nat.
Proof.
  apply (classified_by_last_sample Sample.env 10 [3; 3; 5] false false
           Sample.w0 [{| chip_interface := 3 |}; {| chip_interface := 5 |}] 5).
  - exact sample_set_iter_ok.
  - exact sample_run_returns.
  - right. right. left.
Defined.

(** C3, as stated, fails.  Device 3 shows bit 0 on the first read, at the
    very start of the poll window, and bit 1 on the second and last read:
    it is reported "not completed" although 0 was observed within the
    timeout. *)
Lemma classification_ignores_earlier_zero :
  let r := full_lds_reset Sample.flaky_env 10 [3] false false Sample.w0 in
  let f := {| cfg_owner := 3; cfg_bdf := Sample.bdf_of 3 |} in
  out r = Ok [{| chip_interface := 3 |}] /\
  List.filter poll_ev (trace r) =
    [EvTime 0; EvPread f 1 4 [x00]; EvSleep 1000000; EvTime 1000000000;
     EvPread f 1 4 [x02]; EvSleep 1000000; EvTime 2000000000] /\
  samples_of 3 (trace r) = [[x00]; [x02]] /\
  reset_bit_of [x00] = 0 /\
  count (is_completed_msg 3) (trace r) = 0%nat /\
  count (is_not_completed_msg 3) (trace r) = 1%nat.
Proof. vm_compute. repeat split; reflexivity. Qed.

(** ** The answers of the driver are not used *)

Section Independence.

Variable env : Env.
Variable answers : list event -> Z -> Z -> list byte -> exn + list byte.
Hypothesis Hsame : same_failures (dev_ioctl env) answers.

Let env' := with_dev_ioctl env answers.

Lemma reset_device_ioctl_same_effect interface_id flags w :
  0 <= flags < 2 ^ 32 ->
  same_effect (reset_device_ioctl env interface_id flags w)
              (reset_device_ioctl env' interface_id flags w).
Proof.
  intros Hf. rewrite !reset_device_ioctl_eq by assumption. cbv zeta.
  subst env'. cbn [dev_open dev_ioctl latency with_dev_ioctl].
  destruct (dev_open env (hist w) interface_id); [repeat split|].
  repeat split. cbn [out].
  specialize (Hsame (hist w ++ [EvOpenDev interface_id]) interface_id
                TENSTORRENT_IOCTL_RESET_DEVICE (command_buf flags)).
  destruct (dev_ioctl env _ _ _ _), (answers _ _ _ _); auto.
Qed.

Lemma bind_cong {A B} (m m' : M A) (k k' : A -> M B) w :
  m' w = m w -> (forall a w', k' a w' = k a w') ->
  (m' ≫= k') w = (m ≫= k) w.
Proof.
  intros Hm Hk. unfold mbind, M_bind, bind. rewrite Hm.
  destruct (out (m w)); [now rewrite Hk | reflexivity | reflexivity].
Qed.

Lemma bind_ignored {A B} (m m' : M A) (k k' : M B) w :
  same_effect (m w) (m' w) -> (forall w', k' w' = k w') ->
  (m' ≫= fun _ => k') w = (m ≫= fun _ => k) w.
Proof.
  intros (Ht & Hc & Ho) Hk. unfold mbind, M_bind, bind, after.
  rewrite Ht, Hc.
  destruct (out (m w)), (out (m' w)); try contradiction;
    [now rewrite Hk | now subst | reflexivity].
Qed.

Lemma config_write_loop_indep ds bdfs w :
  config_write_loop env' ds bdfs w = config_write_loop env ds bdfs w.
Proof.
  revert bdfs w. induction ds as [|d ds IH]; intros bdfs w; [reflexivity|].
  cbn [config_write_loop].
  apply bind_cong; [reflexivity|]. intros bdf w1.
  apply bind_ignored; [|apply IH].
  apply reset_device_ioctl_same_effect, config_write_range.
Qed.

Lemma restore_loop_indep ds w :
  restore_loop env' ds w = restore_loop env ds w.
Proof.
  revert w. induction ds as [|d ds IH]; intros w; [reflexivity|].
  cbn [restore_loop].
  apply bind_ignored; [|apply IH].
  apply reset_device_ioctl_same_effect, restore_state_range.
Qed.

Lemma full_lds_reset_indep fuel l reset_m3 silent w :
  full_lds_reset env' fuel l reset_m3 silent w
  = full_lds_reset env fuel l reset_m3 silent w.
Proof.
  unfold full_lds_reset.
  apply bind_cong; [reflexivity|]. intros ds w1.
  apply bind_cong; [apply config_write_loop_indep|]. intros bdfs w2.
  apply bind_cong; [reflexivity|]. intros files w3.
  apply bind_cong; [reflexivity|]. intros [[el bm] broke] w4.
  apply bind_cong; [reflexivity|]. intros completed w5.
  apply bind_cong; [apply restore_loop_indep|]. intros _ w6.
  reflexivity.
Qed.

End Independence.

(** ** Order of the stages *)

Ltac class_cases :=
  let P := fresh "P" in
  let HP := fresh "HP" in
  let e := fresh "e" in
  let He := fresh "He" in
  intros P HP;
  repeat (apply elem_of_cons in HP; destruct HP as [->|HP]);
  try (now inversion HP);
  intros e He; destruct e as [|[]| | | | | | | | |];
  try discriminate He; try reflexivity;
  auto using config_write_not_restore, restore_not_config_write.

(** Whatever happens, no CONFIG_WRITE follows a config-space read, no
    config-space read or classification line follows a RESTORE_STATE, and
    no RESTORE_STATE follows the construction of a returned handle. *)
Lemma stage_barriers (env : Env) (fuel : nat) (l : list Z)
    (reset_m3 silent : bool) (w : world) :
  let tr := trace (full_lds_reset env fuel l reset_m3 silent w) in
  all_before any_config_write any_pread tr = true /\
  all_before (fun e => any_pread e || any_classified e) any_restore tr = true /\
  all_before any_restore any_chip tr = true.
Proof.
  intros tr.
  pose proof (full_lds_reset_staged env fuel l reset_m3 silent w) as Hst.
  fold tr in Hst. split; [|split].
  - apply (staged_all_before
             [preflight_ev; config_write_ev; open_config_ev]
             [poll_ev; any_classified; restore_ev; finish_ev]);
      [exact Hst | class_cases | class_cases].
  - apply (staged_all_before
             [preflight_ev; config_write_ev; open_config_ev; poll_ev;
              any_classified]
             [restore_ev; finish_ev]);
      [exact Hst | class_cases | class_cases].
  - apply (staged_all_before
             [preflight_ev; config_write_ev; open_config_ev; poll_ev;
              any_classified; restore_ev]
             [finish_ev]);
      [exact Hst | class_cases | class_cases].
Qed.

(** C6.  In a call that returns, RESTORE_STATE is sent once to every device
    of the deduplicated batch (and to no other), after every config-space
    read and every classification line, whatever the classification was;
    and what the driver answers to a reset command changes nothing: with
    any other answers that raise on the same calls, the whole run (trace,
    clock, result) is the same. *)
Theorem restore_once_unconditionally (env : Env) (fuel : nat) (l : list Z)
    (reset_m3 silent : bool) (w : world) (chips : list PciChip) :
  set_iter_ok env ->
  out (full_lds_reset env fuel l reset_m3 silent w) = Ok chips ->
  let tr := trace (full_lds_reset env fuel l reset_m3 silent w) in
  (forall i, count (is_restore i) tr = if decide (i ∈ l) then 1%nat else 0%nat) /\
  all_before (fun e => any_pread e || any_classified e) any_restore tr = true /\
  (forall answers,
     same_failures (dev_ioctl env) answers ->
     full_lds_reset (with_dev_ioctl env answers) fuel l reset_m3 silent w
     = full_lds_reset env fuel l reset_m3 silent w).
Proof.
  intros Hok Hret tr. split; [|split].
  - intros i.
    now destruct (stage_counts env fuel l reset_m3 silent w chips i Hok Hret)
      as (_ & _ & _ & Hr & _).
  - now destruct (stage_barriers env fuel l reset_m3 silent w) as (_ & H & _).
  - intros answers Hsame. now apply full_lds_reset_indep.
Qed.

Lemma failing_set_iter_ok : set_iter_ok Sample.failing_env.
Proof. exact sample_set_iter_ok. Qed.

Lemma failing_run_returns :
  out (full_lds_reset Sample.failing_env 10 [5; 5] false false Sample.w0)
  = Ok [{| chip_interface := 5 |}].
Proof. vm_compute. reflexivity. Qed.

Lemma restore_once_unconditionally_witness :
  let tr := trace (full_lds_reset Sample.failing_env 10 [5; 5] false false
                     Sample.w0) in
  (forall i, count (is_restore i) tr
             = if decide (i ∈ [5; 5]) then 1%nat else 0%nat) /\
  all_before (fun e => any_pread e || any_classified e) any_restore tr = true /\
  (forall answers,
     same_failures (dev_ioctl Sample.failing_env) answers ->
     full_lds_reset (with_dev_ioctl Sample.failing_env answers) 10 [5; 5]
                    false false Sample.w0
     = full_lds_reset Sample.failing_env 10 [5; 5] false false Sample.w0).
Proof.
  apply (restore_once_unconditionally Sample.failing_env 10 [5; 5] false false
           Sample.w0 [{| chip_interface := 5 |}]).
  - exact failing_set_iter_ok.
  - exact failing_run_returns.
Defined.

Example failing_restore_returns_false :
  out (reset_device_ioctl Sample.failing_env 5
         TENSTORRENT_RESET_DEVICE_RESTORE_STATE Sample.w0) = Ok false.
Proof. vm_compute. reflexivity. Qed.

(** Whatever happens, the trace starts with the preflight, goes on with a
    beginning of the per-device blocks of lines 92-98, and ends with events
    of the later stages. *)
Lemma full_lds_reset_split (env : Env) (fuel : nat) (l : list Z)
    (reset_m3 silent : bool) (w : world) :
  let ds := set_iter env l in
  exists s0 s1 rest,
    trace (full_lds_reset env fuel l reset_m3 silent w) = s0 ++ s1 ++ rest /\
    Forall (fun e => preflight_ev e = true) s0 /\
    s1 `prefix_of` flat_map config_write_block ds /\
    staged [open_config_ev; poll_ev; any_classified; restore_ev; finish_ev] rest.
Proof.
  intros ds. unfold full_lds_reset.
  pose proof (preflight_emits env l silent w) as H0.
  match goal with
  | |- context [trace ((?m ≫= ?k) w)] =>
      destruct (trace_bind_cases m k w) as [(ds' & E0 & Et & _)|(_ & Et & _)];
      rewrite Et; clear Et
  end.
  - destruct (preflight_Ok env _ _ _ _ E0) as [_ ->]. fold ds.
    set (w1 := after w _).
    destruct (config_write_loop_within env ds ∅ w1) as [Hp _].
    match goal with
    | |- context [trace ((?m ≫= ?k) w1)] =>
        destruct (trace_bind_cases m k w1) as [(bdfs & E1 & Et & _)|(_ & Et & _)];
        rewrite Et; clear Et
    end.
    + eexists _, _, _. split; [reflexivity|]. split; [exact H0|].
      split; [exact Hp|].
      apply staged_bind; [apply open_files_emits|]. intros files w3.
      apply staged_bind; [apply poll_stage_emits|]. intros [[el bm] broke] w4.
      apply staged_bind; [apply classify_emits|]. intros completed w5.
      apply staged_bind; [apply restore_loop_emits|]. intros _ w6.
      apply staged_last.
      apply emits_bind.
      * destruct silent; [apply emits_ret | now apply emits_perform].
      * intros _. apply emits_bind; [apply make_chips_emits|].
        intros chips. apply emits_ret.
    + exists (trace (preflight env l silent w)),
             (trace (config_write_loop env ds ∅ w1)), [].
      rewrite app_nil_r. split; [reflexivity|]. split; [exact H0|].
      split; [exact Hp | apply staged_nil].
  - exists (trace (preflight env l silent w)), [], [].
    rewrite !app_nil_r. split; [reflexivity|]. split; [exact H0|].
    split; [apply prefix_nil | apply staged_nil].
Qed.

(** In the blocks of lines 92-98 a device's BDF resolution comes before
    its CONFIG_WRITE. *)
Lemma all_before_config_write_blocks i ds :
  NoDup ds ->
  all_before (is_resolve i) (is_config_write i)
             (flat_map config_write_block ds) = true.
Proof.
  induction 1 as [|d ds Hd Hnd IH]; [reflexivity|].
  cbn [flat_map]. apply all_before_app; [| exact IH |].
  - unfold config_write_block, is_config_write.
    cbn [all_before forallb].
    rewrite is_command_block by apply config_write_range.
    cbn [is_command is_resolve negb orb andb].
    now destruct (d =? i).
  - destruct (Z.eqb_spec d i) as [->|Hne].
    + right. apply Forall_flat_map, Forall_forall. intros d' Hd'.
      assert (Hne : d' <> i) by (intros ->; contradiction).
      apply Z.eqb_neq in Hne.
      unfold config_write_block. repeat constructor. cbn. exact Hne.
    + left. unfold config_write_block, is_config_write.
      constructor; [reflexivity|]. constructor; [reflexivity|].
      constructor; [|repeat constructor].
      rewrite is_command_block by apply config_write_range.
      now apply Z.eqb_neq.
Qed.

(** C5 (as amended).  BDF resolution and CONFIG_WRITE share one pass over
    the devices: each device's BDF is resolved before that device's own
    CONFIG_WRITE, and in a call that returns for two devices or more, some
    CONFIG_WRITE comes before some BDF resolution.  The other stages are
    barriers for the whole batch: every CONFIG_WRITE comes before any
    config-space read, every config-space read and classification line
    before any RESTORE_STATE, and every RESTORE_STATE before the
    construction of any returned handle. *)
Theorem stages_are_barriers (env : Env) (fuel : nat) (l : list Z)
    (reset_m3 silent : bool) (w : world) :
  set_iter_ok env ->
  let ds := set_iter env l in
  let tr := trace (full_lds_reset env fuel l reset_m3 silent w) in
  (forall i, all_before (is_resolve i) (is_config_write i) tr = true) /\
  (forall chips,
     out (full_lds_reset env fuel l reset_m3 silent w) = Ok chips ->
     (2 <= length ds)%nat ->
     all_before any_resolve any_config_write tr = false) /\
  all_before any_config_write any_pread tr = true /\
  all_before (fun e => any_pread e || any_classified e) any_restore tr = true /\
  all_before any_restore any_chip tr = true.
Proof.
  intros Hok ds tr. split; [|split; [|apply stage_barriers]].
  2:{ intros chips Hret Hlen. subst tr.
      destruct (full_lds_reset_Ok env fuel l reset_m3 silent w chips Hret)
        as (_ & _ & opens & polls & bm & -> & _).
      fold ds. destruct ds as [|d1 [|d2 ds']]; cbn [length] in Hlen; try lia.
      cbn [flat_map]. unfold config_write_block at 1 2.
      set (S0 := EvHostInfo :: _).
      match goal with
      | |- all_before _ _
             (S0 ++ ([?r1; ?o1; ?c1; ?x1] ++ [?r2; ?o2; ?c2; ?x2] ++ ?more)
                 ++ ?rest) = false =>
          change (S0 ++ ([r1; o1; c1; x1] ++ [r2; o2; c2; x2] ++ more) ++ rest)
            with (S0 ++ [r1; o1] ++ c1 :: [x1] ++ r2 ::
                    ([o2; c2; x2] ++ more) ++ rest)
      end.
      rewrite (app_assoc S0).
      apply all_before_inverted; reflexivity. }
  intros i. subst tr.
  destruct (full_lds_reset_split env fuel l reset_m3 silent w)
    as (s0 & s1 & rest & -> & F0 & [k Hk] & Hrest).
  destruct (dedup_spec env l Hok) as [Hnd _].
  assert (Frest : Forall (fun e => is_resolve i e = false) rest).
  { apply (staged_Forall _ _ _ Hrest). class_cases. }
  apply all_before_app.
  - apply all_before_no_p. eapply Forall_impl; [exact F0|].
    intros [|[]| | | | | | | | |] He; (discriminate He || reflexivity).
  - apply all_before_app.
    + apply (all_before_prefix _ _ s1 k). rewrite <- Hk.
      now apply all_before_config_write_blocks.
    + now apply all_before_no_p.
    + now right.
  - left. eapply Forall_impl; [exact F0|].
    intros [|[]| | | | | | | | |] He; (discriminate He || reflexivity).
Qed.

Lemma stages_are_barriers_witness :
  let ds := set_iter Sample.env [3; 3; 5] in
  let tr := trace (full_lds_reset Sample.env 10 [3; 3; 5] false false
                     Sample.w0) in
  (forall i, all_before (is_resolve i) (is_config_write i) tr = true) /\
  (forall chips,
     out (full_lds_reset Sample.env 10 [3; 3; 5] false false Sample.w0)
       = Ok chips ->
     (2 <= length ds)%nat ->
     all_before any_resolve any_config_write tr = false) /\
  all_before any_config_write any_pread tr = true /\
  all_before (fun e => any_pread e || any_classified e) any_restore tr = true /\
  all_before any_restore any_chip tr = true.
Proof.
  apply (stages_are_barriers Sample.env 10 [3; 3; 5] false false Sample.w0).
  exact sample_set_iter_ok.
Defined.

(** C5, as stated, fails.  For the batch {3, 5} device 3 gets its
    CONFIG_WRITE (fifth event) before the BDF of device 5 is resolved
    (seventh event). *)
Lemma config_write_before_next_resolution :
  let tr := trace (full_lds_reset Sample.env 10 [3; 5] false false Sample.w0) in
  tr !! 4%nat = Some (EvIoctl 3 TENSTORRENT_IOCTL_RESET_DEVICE
                        (command_buf TENSTORRENT_RESET_DEVICE_CONFIG_WRITE)) /\
  tr !! 6%nat = Some (EvResolveBdf 5) /\
  all_before any_resolve any_config_write tr = false.
Proof. vm_compute. repeat split; reflexivity. Qed.

(** ** The call returns when no call fails *)

Section Returns.

Variable env : Env.
Hypothesis Hnr : never_raises env.

Lemma reset_device_ioctl_returns interface_id flags w :
  0 <= flags < 2 ^ 32 ->
  exists b, out (reset_device_ioctl env interface_id flags w) = Ok b.
Proof.
  intros Hf. destruct Hnr as (_ & Hopen & Hioctl & _).
  rewrite reset_device_ioctl_eq by assumption. cbv zeta.
  destruct (Hopen (hist w) interface_id) as [u ->]. cbn [out].
  destruct (Hioctl (hist w ++ [EvOpenDev interface_id]) interface_id
              TENSTORRENT_IOCTL_RESET_DEVICE (command_buf flags)) as [reply ->].
  eauto.
Qed.

Lemma config_write_loop_returns ds bdfs w :
  exists bdfs', out (config_write_loop env ds bdfs w) = Ok bdfs'.
Proof.
  revert bdfs w. induction ds as [|d ds IH]; intros bdfs w.
  - now exists bdfs.
  - cbn [config_write_loop]. unfold get_pci_bdf. rewrite run_perform_bind.
    cbv zeta. destruct Hnr as (Hbdf & _).
    destruct (Hbdf (hist w) d) as [bdf ->]. cbn [out].
    set (w1 := {| hist := _; now := _ |}).
    destruct (reset_device_ioctl_returns d
                TENSTORRENT_RESET_DEVICE_CONFIG_WRITE w1 config_write_range)
      as [b Hb].
    rewrite (out_bind_Ok _ _ _ _ Hb). apply IH.
Qed.

Lemma restore_loop_returns ds w :
  out (restore_loop env ds w) = Ok tt.
Proof.
  revert w. induction ds as [|d ds IH]; intros w; [reflexivity|].
  cbn [restore_loop].
  destruct (reset_device_ioctl_returns d
              TENSTORRENT_RESET_DEVICE_RESTORE_STATE w restore_state_range)
    as [b Hb].
  rewrite (out_bind_Ok _ _ _ _ Hb). apply IH.
Qed.

Lemma open_files_returns ds bdfs w :
  (forall i, i ∈ ds -> is_Some (bdfs !! i)) ->
  exists files, out (open_files env ds bdfs w) = Ok files.
Proof.
  revert w. induction ds as [|d ds IH]; intros w Hkeys.
  - now exists [].
  - cbn [open_files]. destruct (Hkeys d) as [bdf Hb]; [left|].
    rewrite Hb, run_lift_Some_bind. unfold open_config.
    rewrite run_perform_bind. cbv zeta.
    destruct Hnr as (_ & _ & _ & Hcfg & _).
    destruct (Hcfg (hist w) bdf) as [u ->]. cbn [out].
    set (w1 := {| hist := _; now := _ |}).
    destruct (IH w1) as [files Hf]; [intros i Hi; apply Hkeys; now right|].
    rewrite (out_bind_Ok _ _ _ _ Hf). cbn. eauto.
Qed.

Lemma classify_returns ds bm completed w :
  (forall i, i ∈ ds -> is_Some (bm !! i)) ->
  exists n, out (classify env ds bm completed w) = Ok n.
Proof.
  revert completed w. induction ds as [|d ds IH]; intros completed w Hkeys.
  - now exists completed.
  - cbn [classify]. destruct (Hkeys d) as [bit Hb]; [left|].
    rewrite Hb, run_lift_Some_bind. unfold print, emit.
    destruct (bit =? 0); rewrite run_perform_bind; cbv zeta; cbn [out];
      apply IH; intros i Hi; apply Hkeys; now right.
Qed.

Lemma make_chips_returns ds w :
  exists chips, out (make_chips env ds w) = Ok chips.
Proof.
  revert w. induction ds as [|d ds IH]; intros w.
  - now exists [].
  - cbn [make_chips]. unfold new_PciChip. rewrite run_perform_bind. cbv zeta.
    destruct Hnr as (_ & _ & _ & _ & Hchip).
    destruct (Hchip (hist w) d) as [u ->]. cbn [out].
    set (w1 := {| hist := _; now := _ |}).
    destruct (IH w1) as [chips Hc].
    rewrite (out_bind_Ok _ _ _ _ Hc). cbn. eauto.
Qed.

Lemma poll_stage_returns fuel ds files w :
  (2000 <= fuel)%nat ->
  exists el bm broke, out (poll_stage env fuel ds files 0 w) = Ok (el, bm, broke).
Proof.
  intros Hfuel. rewrite poll_stage_eq. cbv zeta. cbn [out].
  set (w' := {| hist := _; now := _ |}).
  pose proof (poll_loop_terminates env fuel files 0 (now w) 0
                (init_reset_bit_map ds) w') as Hterm.
  pose proof (poll_loop_no_raise env fuel files 0 (now w) 0
                (init_reset_bit_map ds) w') as Hno.
  destruct (out (poll_loop env fuel files 0 (now w) 0
                   (init_reset_bit_map ds) w')) as [[[el bm] broke]|x|].
  - eauto.
  - now contradiction (Hno x).
  - exfalso. apply Hterm; [subst w'; cbn [now]; lia | | reflexivity].
    unfold POST_RESET_MSG_WAIT_TIME, POLL_SLEEP. lia.
Qed.

(** On a host that is not ARM, if no call to the system fails, 2000 turns
    of fuel are enough for [full_lds_reset] to return. *)
Lemma full_lds_reset_returns fuel l reset_m3 silent w :
  is_arm (host_platform env) = false ->
  (2000 <= fuel)%nat ->
  exists chips, out (full_lds_reset env fuel l reset_m3 silent w) = Ok chips.
Proof.
  intros Harm Hfuel. unfold full_lds_reset.
  destruct (preflight_not_arm env l silent w Harm) as [H0 _].
  rewrite (out_bind_Ok _ _ _ _ H0).
  set (ds := set_iter env l). set (w1 := after w _).
  destruct (config_write_loop_returns ds ∅ w1) as [bdfs H1].
  rewrite (out_bind_Ok _ _ _ _ H1). set (w2 := after w1 _).
  destruct (open_files_returns ds bdfs w2) as [files H2].
  { intros i Hi. apply (config_write_loop_keys env _ _ _ _ H1). now left. }
  rewrite (out_bind_Ok _ _ _ _ H2). set (w3 := after w2 _).
  destruct (open_files_Ok env _ _ _ _ H2) as [Ekeys _].
  destruct (poll_stage_returns fuel ds files w3 Hfuel) as (el & bm & broke & H3).
  rewrite (out_bind_Ok _ _ _ _ H3). set (w4 := after w3 _).
  assert (Hdom : dom bm = (list_to_set ds : gset Z)).
  { pose proof H3 as H3'. rewrite poll_stage_eq in H3'. cbv zeta in H3'.
    cbn [out] in H3'. apply poll_loop_dom in H3'.
    - now rewrite H3', init_reset_bit_map_dom.
    - now rewrite Ekeys, init_reset_bit_map_dom. }
  destruct (classify_returns ds bm 0 w4) as [n H4].
  { intros i Hi. apply elem_of_dom. rewrite Hdom.
    now apply elem_of_list_to_set. }
  rewrite (out_bind_Ok _ _ _ _ H4). set (w5 := after w4 _).
  rewrite (out_bind_Ok _ _ _ _ (restore_loop_returns ds w5)).
  set (w6 := after w5 _).
  assert (H6 : out ((if negb silent then print env (MsgFinishing ds)
                     else mret tt) w6) = Ok tt)
    by (destruct silent; reflexivity).
  rewrite (out_bind_Ok _ _ _ _ H6). set (w7 := after w6 _).
  destruct (make_chips_returns ds w7) as [chips H7].
  rewrite (out_bind_Ok _ _ _ _ H7). cbn. eauto.
Qed.

End Returns.

(** * Further properties of [bh_reset.py] *)

(** ** The clock *)

Section Clock.

Variable env : Env.

Lemma mono_ret {A} (a : A) : mono (mret a).
Proof. intros w. cbn. lia. Qed.

Lemma mono_raise {A} x : mono (@raise A x).
Proof. intros w. cbn. lia. Qed.

Lemma mono_lift_option {A} x (o : option A) : mono (lift_option x o).
Proof. destruct o; [apply (mono_ret a) | apply mono_raise]. Qed.

Lemma mono_perform {A} e (answer : list event -> exn + A) :
  mono (perform env e answer).
Proof. intros w. cbn. lia. Qed.

Lemma mono_bind {A B} (m : M A) (k : A -> M B) :
  mono m -> (forall a, mono (k a)) -> mono (m ≫= k).
Proof.
  intros Hm Hk w. unfold mbind, M_bind, bind.
  specialize (Hm w).
  destruct (out (m w)) as [a| |]; cbn [clock]; [|assumption|assumption].
  specialize (Hk a (after w (m w))).
  change (now (after w (m w))) with (clock (m w)) in Hk. lia.
Qed.

Lemma mono_try_finally {A} (m : M A) (fin : M unit) :
  mono m -> mono fin -> mono (try_finally m fin).
Proof.
  intros Hm Hf w. unfold try_finally. specialize (Hm w).
  specialize (Hf (after w (m w))).
  change (now (after w (m w))) with (clock (m w)) in Hf.
  destruct (out (m w)); cbn [clock]; lia.
Qed.

Lemma clock_bind_ge {A B} (m : M A) (k : A -> M B) w a :
  out (m w) = Ok a -> mono (k a) -> clock (m w) <= clock ((m ≫= k) w).
Proof.
  intros E Hk. rewrite (clock_bind_Ok _ _ _ _ E).
  apply (Hk (after w (m w))).
Qed.

Lemma mono_reset_device_ioctl interface_id flags :
  mono (reset_device_ioctl env interface_id flags).
Proof.
  unfold reset_device_ioctl.
  apply mono_bind; [apply mono_perform|]. intros dev_fd.
  apply mono_try_finally; [|apply mono_perform].
  cbv zeta.
  apply mono_bind; [apply mono_lift_option|]. intros packed.
  apply mono_bind; [apply mono_perform|]. intros buf.
  apply mono_bind; [apply mono_lift_option|]. intros fields.
  destruct fields as [|a [|b [|c rest]]];
    (apply mono_raise || apply (mono_ret (b =? 0))).
Qed.

Lemma mono_config_write_loop ds bdfs : mono (config_write_loop env ds bdfs).
Proof.
  revert bdfs. induction ds as [|d ds IH]; intros bdfs; cbn [config_write_loop].
  - apply mono_ret.
  - apply mono_bind; [apply mono_perform|]. intros bdf.
    apply mono_bind; [apply mono_reset_device_ioctl|]. intros _. apply IH.
Qed.

Lemma mono_restore_loop ds : mono (restore_loop env ds).
Proof.
  induction ds as [|d ds IH]; cbn [restore_loop]; [apply mono_ret|].
  apply mono_bind; [apply mono_reset_device_ioctl|]. intros _. apply IH.
Qed.

Lemma mono_open_files ds bdfs : mono (open_files env ds bdfs).
Proof.
  induction ds as [|d ds IH]; cbn [open_files]; [apply mono_ret|].
  apply mono_bind; [apply mono_lift_option|]. intros bdf.
  apply mono_bind; [apply mono_perform|]. intros f.
  apply mono_bind; [apply IH|]. intros fs. apply mono_ret.
Qed.

Lemma mono_classify ds bm completed : mono (classify env ds bm completed).
Proof.
  revert completed. induction ds as [|d ds IH]; intros completed;
    cbn [classify]; [apply mono_ret|].
  apply mono_bind; [apply mono_lift_option|]. intros bit.
  destruct (bit =? 0);
    (apply mono_bind; [apply mono_perform | intros _; apply IH]).
Qed.

Lemma mono_make_chips ds : mono (make_chips env ds).
Proof.
  induction ds as [|d ds IH]; cbn [make_chips]; [apply mono_ret|].
  apply mono_bind; [apply mono_perform|]. intros c.
  apply mono_bind; [apply IH|]. intros cs. apply mono_ret.
Qed.

Lemma mono_preflight l silent : mono (preflight env l silent).
Proof.
  unfold preflight, get_host_info_platform, print, emit, sys_exit.
  apply mono_bind; [|intros platform].
  { apply mono_bind; [apply mono_perform | intros _; apply mono_ret]. }
  apply mono_bind.
  { destruct (is_arm platform); [|apply mono_ret].
    apply mono_bind; [apply mono_perform | intros _; apply mono_raise]. }
  intros _. cbv zeta.
  apply mono_bind; [|intros _; apply mono_ret].
  destruct silent; [apply mono_ret | apply mono_perform].
Qed.

(** When the loop ends, the clock is at least [elapsed] past the start. *)
Lemma poll_loop_clock fuel files completed start_time elapsed bm w el bm' broke :
  start_time + elapsed <= now w ->
  let r := poll_loop env fuel files completed start_time elapsed bm w in
  out r = Ok (el, bm', broke) ->
  start_time + el <= clock r.
Proof.
  cbv zeta. revert elapsed bm w.
  induction fuel as [|fuel IH]; intros elapsed bm w Hnow.
  - cbn [poll_loop]. destruct (elapsed <? _); [discriminate|].
    cbn. intros [= <- <- <-]. exact Hnow.
  - destruct (Z.ltb_spec elapsed POST_RESET_MSG_WAIT_TIME) as [Hlt|Hge].
    + destruct (poll_round_Ok env files bm w) as (bm1 & Ho & Hc).
      pose proof (poll_loop_unfold env fuel files completed start_time elapsed
                    bm w bm1 Hlt Ho) as H. cbv zeta in H.
      destruct (Nat.eqb completed (length files)).
      * destruct H as (-> & _ & ->). intros [= <- <- <-]. lia.
      * destruct H as (t & w3 & _ & Hw3 & -> & _ & ->). intros Hr.
        eapply IH; [|exact Hr]. lia.
    + rewrite poll_loop_done by assumption. cbn. intros [= <- <- <-].
      exact Hnow.
Qed.

End Clock.

(** ** The stages of a call that returned *)

Section Inversion.

Variable env : Env.

Lemma open_files_Ok_trace ds bdfs w files :
  out (open_files env ds bdfs w) = Ok files ->
  trace (open_files env ds bdfs w)
    = map (fun it => EvOpenConfig (fst it) (cfg_bdf (snd it))) files /\
  Forall (fun it => bdfs !! fst it = Some (cfg_bdf (snd it))) files.
Proof.
  revert w files. induction ds as [|d ds IH]; intros w files.
  - cbn. intros [= <-]. split; [reflexivity | constructor].
  - cbn [open_files]. intros H.
    destruct (bdfs !! d) as [bdf|] eqn:Eb; [|discriminate H].
    rewrite run_lift_Some_bind in H |- *. unfold open_config in H |- *.
    rewrite run_perform_bind in H |- *. cbv zeta in H |- *.
    destruct (cfg_open env (hist w) bdf) as [x|u]; [discriminate H|].
    cbn [out trace] in H |- *.
    apply bind_Ok_inv in H as (fs & Hfs & H). cbn in H. injection H as <-.
    destruct (IH _ _ Hfs) as [Et Ef].
    rewrite (trace_bind_Ok _ _ _ _ Hfs), Et. cbn [trace mret M_ret ret].
    rewrite app_nil_r. split; [reflexivity|]. constructor; assumption.
Qed.

(** What each stage of a call that returned did. *)
Lemma full_lds_reset_Ok_inv fuel l reset_m3 silent w chips :
  out (full_lds_reset env fuel l reset_m3 silent w) = Ok chips ->
  let ds := set_iter env l in
  let r0 := preflight env l silent w in
  let w1 := after w r0 in
  exists bdfs files el bm broke,
    let r1 := config_write_loop env ds ∅ w1 in
    let w2 := after w1 r1 in
    let r2 := open_files env ds bdfs w2 in
    let w3 := after w2 r2 in
    let r3 := poll_stage env fuel ds files 0 w3 in
    out r0 = Ok ds /\ out r1 = Ok bdfs /\ out r2 = Ok files /\
    out r3 = Ok (el, bm, broke) /\
    trace (full_lds_reset env fuel l reset_m3 silent w) =
      trace r0 ++ trace r1 ++ trace r2 ++ trace r3 ++
      map (classification bm) ds ++ flat_map restore_block ds ++
      (if silent then [] else [EvPrint (MsgFinishing ds)]) ++
      map EvPciChip ds /\
    clock r3 <= clock (full_lds_reset env fuel l reset_m3 silent w) /\
    chips = map Build_PciChip ds.
Proof.
  intros H ds r0 w1. unfold full_lds_reset in *.
  apply bind_Ok_inv in H as H'. destruct H' as (ds' & H0 & H').
  rewrite (trace_bind_Ok _ _ _ _ H0), (clock_bind_Ok _ _ _ _ H0).
  destruct (preflight_Ok _ _ _ _ _ H0) as [Harm ->].
  fold ds r0 w1 in H0, H' |- *.
  apply bind_Ok_inv in H' as H''. destruct H'' as (bdfs & H1 & H'').
  rewrite (trace_bind_Ok _ _ _ _ H1), (clock_bind_Ok _ _ _ _ H1).
  set (w2 := after w1 _) in *.
  apply bind_Ok_inv in H'' as H3. destruct H3 as (files & H2 & H3).
  rewrite (trace_bind_Ok _ _ _ _ H2), (clock_bind_Ok _ _ _ _ H2).
  set (w3 := after w2 _) in *.
  apply bind_Ok_inv in H3 as H4. destruct H4 as ([[el bm] broke] & Hp & H4).
  rewrite (trace_bind_Ok _ _ _ _ Hp).
  exists bdfs, files, el, bm, broke. cbv zeta. fold w2 w3.
  split; [exact H0|]. split; [exact H1|]. split; [exact H2|].
  split; [exact Hp|].
  set (w4 := after w3 _) in *.
  apply bind_Ok_inv in H4 as H5. destruct H5 as (completed & Hc & H5).
  rewrite (trace_bind_Ok _ _ _ _ Hc), (classify_Ok env _ _ _ _ _ Hc).
  set (w5 := after w4 _) in *.
  apply bind_Ok_inv in H5 as H6. destruct H6 as ([] & Hr & H6).
  rewrite (trace_bind_Ok _ _ _ _ Hr).
  destruct (restore_loop_within env ds w5) as [_ E5]. rewrite (E5 _ Hr).
  set (w6 := after w5 _) in *.
  apply bind_Ok_inv in H6 as H7. destruct H7 as ([] & Hf & H7).
  rewrite (trace_bind_Ok _ _ _ _ Hf).
  set (w7 := after w6 _) in *.
  apply bind_Ok_inv in H7 as H8. destruct H8 as (chips' & Hm & H8).
  rewrite (trace_bind_Ok _ _ _ _ Hm).
  destruct (make_chips_Ok env _ _ _ Hm) as [-> ->].
  cbn in H8. injection H8 as <-.
  split; [|split; [|reflexivity]].
  - cbn [trace mret M_ret ret]. rewrite app_nil_r.
    do 6 f_equal. destruct silent; reflexivity.
  - apply clock_bind_ge with (a := (el, bm, broke)); [exact Hp|].
    apply mono_bind; [apply mono_classify|]. intros n.
    apply mono_bind; [apply mono_restore_loop|]. intros _.
    apply mono_bind.
    + destruct silent; [apply mono_ret | apply mono_perform].
    + intros _. apply mono_bind; [apply mono_make_chips|].
      intros cs. apply mono_ret.
Qed.

End Inversion.

(** ** [reset_device_ioctl]: every path *)

(** X1.  [reset_device_ioctl] opens the device node first.  If the open
    raises, the exception is passed on and nothing else is done.  Once the
    node is open, closing it is the last thing the call does on every path:
    when the flags do not fit 32 bits ([struct.error], no ioctl is made),
    when the ioctl raises (the exception is passed on), and when it
    answers. *)
Theorem reset_device_ioctl_paths (env : Env) (interface_id flags : Z)
    (w : world) :
  let r := reset_device_ioctl env interface_id flags w in
  let cmd := command_buf flags in
  match dev_open env (hist w) interface_id with
  | inl x => out r = Raise x /\ trace r = [EvOpenDev interface_id]
  | inr _ =>
      if (0 <=? flags) && (flags <? 2 ^ 32) then
        trace r = [EvOpenDev interface_id;
                   EvIoctl interface_id TENSTORRENT_IOCTL_RESET_DEVICE cmd;
                   EvCloseDev interface_id] /\
        match dev_ioctl env (hist w ++ [EvOpenDev interface_id]) interface_id
                        TENSTORRENT_IOCTL_RESET_DEVICE cmd with
        | inl x => out r = Raise x
        | inr reply => out r = Ok (field 3 (writeback cmd reply) =? 0)
        end
      else
        out r = Raise StructError /\
        trace r = [EvOpenDev interface_id; EvCloseDev interface_id]
  end.
Proof.
  intros r cmd.
  destruct (Z.leb_spec 0 flags) as [Hlo|Hlo];
    destruct (Z.ltb_spec flags (2 ^ 32)) as [Hhi|Hhi]; cbn [andb].
  - apply (reset_device_ioctl_run env interface_id flags w). lia.
  - destruct (dev_open env (hist w) interface_id) as [x|[]] eqn:Eo.
    + subst r. unfold reset_device_ioctl, os_open.
      rewrite run_perform_bind. cbv zeta. rewrite Eo. split; reflexivity.
    + apply reset_device_ioctl_struct_error; [lia | exact Eo].
  - destruct (dev_open env (hist w) interface_id) as [x|[]] eqn:Eo.
    + subst r. unfold reset_device_ioctl, os_open.
      rewrite run_perform_bind. cbv zeta. rewrite Eo. split; reflexivity.
    + apply reset_device_ioctl_struct_error; [lia | exact Eo].
  - lia.
Qed.

(** ** [full_lds_reset]: when nothing fails *)

(** X2.  On a host that is not ARM, if no call to the system raises (BDF
    resolution, opening the device nodes and the config spaces, the ioctl,
    building the handles), [full_lds_reset] returns for every input list,
    within 2000 poll rounds: one handle per element of the deduplicated
    list, in its order.  It raises no [KeyError] and no [struct.error] of
    its own. *)
Theorem full_lds_reset_total (env : Env) (fuel : nat) (l : list Z)
    (reset_m3 silent : bool) (w : world) :
  never_raises env ->
  is_arm (host_platform env) = false ->
  (2000 <= fuel)%nat ->
  out (full_lds_reset env fuel l reset_m3 silent w)
  = Ok (map Build_PciChip (set_iter env l)).
Proof.
  intros Hnr Harm Hfuel.
  destruct (full_lds_reset_returns env Hnr fuel l reset_m3 silent w Harm Hfuel)
    as [chips Hc].
  rewrite Hc. f_equal.
  now destruct (full_lds_reset_Ok env fuel l reset_m3 silent w chips Hc)
    as (_ & -> & _).
Qed.

Lemma sample_never_raises : never_raises Sample.env.
Proof. repeat split; intros; eexists; reflexivity. Qed.

Lemma full_lds_reset_total_witness :
  out (full_lds_reset Sample.env 2000 [3; 3; 5] false false Sample.w0)
  = Ok (map Build_PciChip (set_iter Sample.env [3; 3; 5])).
Proof.
  apply (full_lds_reset_total Sample.env 2000 [3; 3; 5] false false Sample.w0);
    [exact sample_never_raises | reflexivity | lia].
Defined.

(** ** [full_lds_reset]: one order for all stages *)

Section Orders.

Variable f : event -> option Z.

Lemma omap_class_nil (C : event -> bool) tr :
  Forall (fun e => C e = true) tr ->
  (forall e, C e = true -> f e = None) ->
  omap f tr = [].
Proof.
  intros H HC. induction H as [|e tr He _ IH]; [reflexivity|].
  cbn [omap list_omap]. now rewrite (HC e He), IH.
Qed.

Lemma omap_blocks (block : Z -> list event) (c : Z -> list Z) ds :
  (forall d, omap f (block d) = c d) ->
  omap f (flat_map block ds) = flat_map c ds.
Proof.
  intros Hb. induction ds as [|d ds IH]; [reflexivity|].
  cbn [flat_map]. now rewrite omap_app, Hb, IH.
Qed.

Lemma omap_stages ds S0 opens polls bm fin (a b c e : Z -> list Z) ids :
  omap f S0 = [] ->
  (forall d, omap f (config_write_block d) = a d) ->
  omap f opens = ids ->
  omap f polls = [] ->
  (forall d, omap f [classification bm d] = b d) ->
  (forall d, omap f (restore_block d) = c d) ->
  omap f fin = [] ->
  (forall d, omap f [EvPciChip d] = e d) ->
  omap f (S0 ++ flat_map config_write_block ds ++ opens ++ polls ++
          map (classification bm) ds ++ flat_map restore_block ds ++
          fin ++ map EvPciChip ds)
  = flat_map a ds ++ ids ++ flat_map b ds ++ flat_map c ds ++ flat_map e ds.
Proof.
  intros H0 Ha Ho Hp Hb Hc Hf He.
  rewrite !omap_app, H0, Ho, Hp, Hf, !map_as_flat_map.
  rewrite (omap_blocks _ a), (omap_blocks _ b), (omap_blocks _ c),
    (omap_blocks _ e) by assumption.
  reflexivity.
Qed.

End Orders.

Lemma flat_map_singleton (ds : list Z) : flat_map (fun d => [d]) ds = ds.
Proof. induction ds; simpl; congruence. Qed.

Lemma flat_map_nothing (ds : list Z) : flat_map (fun _ => @nil Z) ds = [].
Proof. induction ds; simpl; congruence. Qed.

(** X3.  In a call that returns, every per-device stage goes through the
    devices in one and the same order, the order in which the set of input
    ids is iterated: BDF resolutions, CONFIG_WRITE commands, config-space
    opens, classification lines, RESTORE_STATE commands and returned
    handles all follow it (also when the list of that order has
    repetitions). *)
Theorem stages_follow_one_order (env : Env) (fuel : nat) (l : list Z)
    (reset_m3 silent : bool) (w : world) (chips : list PciChip) :
  out (full_lds_reset env fuel l reset_m3 silent w) = Ok chips ->
  let ds := set_iter env l in
  let tr := trace (full_lds_reset env fuel l reset_m3 silent w) in
  resolved_ids tr = ds /\
  command_ids TENSTORRENT_RESET_DEVICE_CONFIG_WRITE tr = ds /\
  opened_ids tr = ds /\
  classified_ids tr = ds /\
  command_ids TENSTORRENT_RESET_DEVICE_RESTORE_STATE tr = ds /\
  chip_ids tr = ds /\
  map chip_interface chips = ds.
Proof.
  intros Hret ds tr.
  destruct (full_lds_reset_Ok_inv env fuel l reset_m3 silent w chips Hret)
    as (bdfs & files & el & bm & broke & H0 & H1 & H2 & H3 & Htr & _ & Hch).
  cbv zeta in *. fold ds tr in H0, H1, H2, H3, Htr.
  destruct (preflight_Ok env _ _ _ _ H0) as [Harm _].
  destruct (preflight_not_arm env l silent w Harm) as [_ E0]. fold ds in E0.
  destruct (config_write_loop_within env ds ∅
              (after w (preflight env l silent w))) as [_ E1].
  rewrite (E1 _ H1), E0 in Htr.
  destruct (open_files_Ok env _ _ _ _ H2) as [Ekeys _].
  destruct (open_files_Ok_trace env _ _ _ _ H2) as [E2 _].
  rewrite E2 in Htr.
  pose proof (poll_stage_emits env fuel ds files 0
                (after (after (after w (preflight env l silent w))
                   (config_write_loop env ds ∅
                      (after w (preflight env l silent w))))
                   (open_files env ds bdfs
                      (after (after w (preflight env l silent w))
                         (config_write_loop env ds ∅
                            (after w (preflight env l silent w))))))) as Fp.
  set (polls := trace (poll_stage _ _ _ _ _ _)) in *.
  assert (Hopens : forall g : event -> option Z,
    (forall i b, g (EvOpenConfig i b) = None) ->
    omap g (map (fun it => EvOpenConfig (fst it) (cfg_bdf (snd it))) files) = []).
  { intros g Hg. generalize files. intros fs0.
    induction fs0 as [|it fs IH]; [reflexivity|].
    cbn [map omap list_omap]. rewrite Hg. apply IH. }
  assert (Hpre : forall g : event -> option Z,
    g EvHostInfo = None -> (forall m, g (EvPrint (MsgStarting m)) = None) ->
    omap g (EvHostInfo :: (if silent then [] else [EvPrint (MsgStarting ds)]))
    = []).
  { intros g G1 G2. destruct silent; cbn [omap list_omap];
      now rewrite ?G1, ?G2. }
  assert (Hfin : forall g : event -> option Z,
    (forall m, g (EvPrint (MsgFinishing m)) = None) ->
    omap g (if silent then [] else [EvPrint (MsgFinishing ds)]) = []).
  { intros g G. destruct silent; cbn [omap list_omap]; now rewrite ?G. }
  assert (Hpolls : forall g : event -> option Z,
    (forall e, poll_ev e = true -> g e = None) -> omap g polls = []).
  { intros g G. now apply (omap_class_nil g poll_ev). }
  assert (Hcls : forall bm' d,
    classification bm' d = EvPrint (MsgCompleted d) \/
    classification bm' d = EvPrint (MsgNotCompleted d)).
  { intros bm' d. unfold classification.
    destruct (bm' !! d) as [[| |]|]; auto. }
  subst tr. rewrite Htr.
  repeat split.
  - unfold resolved_ids.
    rewrite (omap_stages _ ds _ _ _ _ _ (fun d => [d]) (fun _ => [])
               (fun _ => []) (fun _ => []) []); try reflexivity.
    + rewrite ?flat_map_singleton, ?flat_map_nothing. cbn [app].
      now rewrite ?app_nil_r.
    + now apply Hpre.
    + now apply Hopens.
    + apply Hpolls. now intros [].
    + intros d. destruct (Hcls bm d) as [-> | ->]; reflexivity.
    + now apply Hfin.
  - unfold command_ids.
    rewrite (omap_stages _ ds _ _ _ _ _ (fun d => [d]) (fun _ => [])
               (fun _ => []) (fun _ => []) []); try reflexivity.
    + rewrite ?flat_map_singleton, ?flat_map_nothing. cbn [app].
      now rewrite ?app_nil_r.
    + now apply Hpre.
    + now apply Hopens.
    + apply Hpolls. now intros [].
    + intros d. destruct (Hcls bm d) as [-> | ->]; reflexivity.
    + now apply Hfin.
  - unfold opened_ids.
    rewrite (omap_stages _ ds _ _ _ _ _ (fun _ => []) (fun _ => [])
               (fun _ => []) (fun _ => []) ds); try reflexivity.
    + rewrite ?flat_map_singleton, ?flat_map_nothing. cbn [app].
      now rewrite ?app_nil_r.
    + now apply Hpre.
    + rewrite <- Ekeys. generalize files. intros fs0.
      induction fs0 as [|it fs IH]; [reflexivity|].
      cbn [map omap list_omap]. now rewrite IH.
    + apply Hpolls. now intros [].
    + intros d. destruct (Hcls bm d) as [-> | ->]; reflexivity.
    + now apply Hfin.
  - unfold classified_ids.
    rewrite (omap_stages _ ds _ _ _ _ _ (fun _ => []) (fun d => [d])
               (fun _ => []) (fun _ => []) []); try reflexivity.
    + rewrite ?flat_map_singleton, ?flat_map_nothing. cbn [app].
      now rewrite ?app_nil_r.
    + now apply Hpre.
    + now apply Hopens.
    + apply Hpolls. now intros [].
    + intros d. destruct (Hcls bm d) as [-> | ->]; reflexivity.
    + now apply Hfin.
  - unfold command_ids.
    rewrite (omap_stages _ ds _ _ _ _ _ (fun _ => []) (fun _ => [])
               (fun d => [d]) (fun _ => []) []); try reflexivity.
    + rewrite ?flat_map_singleton, ?flat_map_nothing. cbn [app].
      now rewrite ?app_nil_r.
    + now apply Hpre.
    + now apply Hopens.
    + apply Hpolls. now intros [].
    + intros d. destruct (Hcls bm d) as [-> | ->]; reflexivity.
    + now apply Hfin.
  - unfold chip_ids.
    rewrite (omap_stages _ ds _ _ _ _ _ (fun _ => []) (fun _ => [])
               (fun _ => []) (fun d => [d]) []); try reflexivity.
    + rewrite ?flat_map_singleton, ?flat_map_nothing. cbn [app].
      now rewrite ?app_nil_r.
    + now apply Hpre.
    + now apply Hopens.
    + apply Hpolls. now intros [].
    + intros d. destruct (Hcls bm d) as [-> | ->]; reflexivity.
    + now apply Hfin.
  - rewrite Hch, map_map. cbn [chip_interface]. apply map_id.
Qed.

Lemma stages_follow_one_order_witness :
  let ds := set_iter Sample.env [3; 3; 5] in
  let tr := trace (full_lds_reset Sample.env 10 [3; 3; 5] false false
                     Sample.w0) in
  resolved_ids tr = ds /\
  command_ids TENSTORRENT_RESET_DEVICE_CONFIG_WRITE tr = ds /\
  opened_ids tr = ds /\
  classified_ids tr = ds /\
  command_ids TENSTORRENT_RESET_DEVICE_RESTORE_STATE tr = ds /\
  chip_ids tr = ds /\
  map chip_interface [{| chip_interface := 3 |}; {| chip_interface := 5 |}]
    = ds.
Proof.
  apply (stages_follow_one_order Sample.env 10 [3; 3; 5] false false Sample.w0).
  exact sample_run_returns.
Defined.

(** ** [full_lds_reset]: how long it takes *)

(** X4.  A call that returns for a non-empty list lasts at least the 2
    seconds of [POST_RESET_MSG_WAIT_TIME], also when every device shows its
    reset complete on the first read: the early exit of the poll loop is
    never taken. *)
Theorem nonempty_batch_takes_two_seconds (env : Env) (fuel : nat) (l : list Z)
    (reset_m3 silent : bool) (w : world) (chips : list PciChip) :
  set_iter_ok env ->
  l <> [] ->
  out (full_lds_reset env fuel l reset_m3 silent w) = Ok chips ->
  now w + POST_RESET_MSG_WAIT_TIME
  <= clock (full_lds_reset env fuel l reset_m3 silent w).
Proof.
  intros Hok Hl Hret.
  destruct (full_lds_reset_Ok_inv env fuel l reset_m3 silent w chips Hret)
    as (bdfs & files & el & bm & broke & H0 & H1 & H2 & H3 & _ & Hclock & _).
  cbv zeta in *.
  set (ds := set_iter env l) in *.
  set (w1 := after w (preflight env l silent w)) in *.
  set (w2 := after w1 (config_write_loop env ds ∅ w1)) in *.
  set (w3 := after w2 (open_files env ds bdfs w2)) in *.
  assert (Hw3 : now w <= now w3).
  { pose proof (mono_preflight env l silent w).
    pose proof (mono_config_write_loop env ds ∅ w1).
    pose proof (mono_open_files env ds bdfs w2).
    subst w3 w2 w1. cbn [after now] in *. lia. }
  destruct (open_files_Ok env _ _ _ _ H2) as [Ekeys _].
  destruct (dedup_spec env l Hok) as [_ Hmem]. fold ds in Hmem.
  assert (Hne : files <> []).
  { intros ->. destruct l as [|x l]; [congruence|].
    assert (Hx : x ∈ ds) by (apply Hmem; left).
    cbn in Ekeys. rewrite <- Ekeys in Hx. inversion Hx. }
  destruct (poll_stage_timeout env fuel ds files w3 Hne) as [Hexit _].
  destruct (Hexit _ _ _ H3) as [_ Hel].
  rewrite poll_stage_eq in H3, Hclock. cbv zeta in H3, Hclock.
  cbn [out clock] in H3, Hclock.
  apply poll_loop_clock in H3; [lia|]. cbn [now]. lia.
Qed.

Lemma nonempty_batch_takes_two_seconds_witness :
  now Sample.w0 + POST_RESET_MSG_WAIT_TIME
  <= clock (full_lds_reset Sample.env 10 [3; 3; 5] false false Sample.w0).
Proof.
  apply (nonempty_batch_takes_two_seconds Sample.env 10 [3; 3; 5] false false
           Sample.w0 [{| chip_interface := 3 |}; {| chip_interface := 5 |}]).
  - exact sample_set_iter_ok.
  - discriminate.
  - exact sample_run_returns.
Defined.

(** ** The poll loop: one read per device and round *)

Section Rounds.

Variable env : Env.

Lemma poll_round_reads_once items bm w i :
  NoDup (map fst items) ->
  Forall (fun it => cfg_owner (snd it) = fst it) items ->
  count (is_pread i) (trace (poll_round env items bm w))
  = if decide (i ∈ map fst items) then 1%nat else 0%nat.
Proof.
  revert bm w. induction items as [|[j f] items IH]; intros bm w Hnd Hk.
  - cbn. destruct (decide (i ∈ [])) as [H|]; [inversion H | reflexivity].
  - cbn [map fst] in Hnd. apply NoDup_cons in Hnd as [Hj Hnd].
    apply Forall_cons in Hk as [Hjf Hk]. cbn [fst snd] in Hjf.
    cbn [poll_round]. rewrite run_pread_bind. cbv zeta.
    cbn [trace count is_pread map fst]. rewrite Hjf, (IH _ _ Hnd Hk).
    destruct (Z.eqb_spec j i) as [->|Hne].
    + rewrite (decide_True (P := i ∈ i :: map fst items)) by left.
      now rewrite (decide_False (P := i ∈ map fst items)).
    + destruct (decide (i ∈ map fst items)) as [Hin|Hin].
      * now rewrite (decide_True (P := i ∈ j :: map fst items)) by now right.
      * rewrite (decide_False (P := i ∈ j :: map fst items)); [reflexivity|].
        intros [->|H]%elem_of_cons; tauto.
Qed.

(** Without the early exit, a device is read as many times as the loop
    sleeps. *)
Lemma poll_loop_reads_per_sleep fuel files completed start_time elapsed bm w i :
  NoDup (map fst files) ->
  Forall (fun it => cfg_owner (snd it) = fst it) files ->
  Nat.eqb completed (length files) = false ->
  i ∈ map fst files ->
  let tr := trace (poll_loop env fuel files completed start_time elapsed bm w) in
  count (is_pread i) tr = count any_sleep tr.
Proof.
  intros Hnd Hk Hnb Hi. cbv zeta. revert elapsed bm w.
  induction fuel as [|fuel IH]; intros elapsed bm w.
  - cbn [poll_loop]. destruct (elapsed <? _); reflexivity.
  - destruct (Z.ltb_spec elapsed POST_RESET_MSG_WAIT_TIME) as [Hlt|Hge].
    + destruct (poll_round_Ok env files bm w) as (bm1 & Ho & _).
      pose proof (poll_loop_unfold env fuel files completed start_time elapsed
                    bm w bm1 Hlt Ho) as H. cbv zeta in H. rewrite Hnb in H.
      destruct H as (t & w3 & _ & _ & _ & -> & _).
      rewrite !count_app. cbn [count is_pread any_sleep].
      rewrite (poll_round_reads_once files bm w i Hnd Hk).
      rewrite decide_True by exact Hi.
      rewrite (count_none any_sleep (trace (poll_round env files bm w))).
      * rewrite IH. lia.
      * eapply Forall_impl; [apply poll_round_no_sleep_no_time|].
        now intros e [He _].
    + now rewrite poll_loop_done.
Qed.

(** A loop that is entered and not left at once sleeps at least once. *)
Lemma poll_loop_sleeps_once fuel files completed start_time elapsed bm w :
  elapsed < POST_RESET_MSG_WAIT_TIME ->
  Nat.eqb completed (length files) = false ->
  out (poll_loop env fuel files completed start_time elapsed bm w) <> OutOfFuel ->
  (1 <= count any_sleep
          (trace (poll_loop env fuel files completed start_time elapsed bm w)))%nat.
Proof.
  intros Hlt Hnb Hout. destruct fuel as [|fuel].
  - cbn [poll_loop] in Hout. apply Z.ltb_lt in Hlt. rewrite Hlt in Hout.
    now contradiction Hout.
  - destruct (poll_round_Ok env files bm w) as (bm1 & Ho & _).
    pose proof (poll_loop_unfold env fuel files completed start_time elapsed
                  bm w bm1 Hlt Ho) as H. cbv zeta in H. rewrite Hnb in H.
    destruct H as (t & w3 & _ & _ & _ & -> & _).
    rewrite count_app. cbn [count any_sleep]. lia.
Qed.

End Rounds.

(** X5.  In a poll stage that returns, every device of a (duplicate-free)
    batch has its config space read exactly once per round: as many reads
    as the loop slept, at least one and at most 2000. *)
Theorem every_device_read_once_per_round (env : Env) (fuel : nat)
    (ds : list Z) (bdfs : gmap Z string) (w0 w : world)
    (files : list (Z * cfg_file)) (el : Z) (bm : gmap Z Z) (broke : bool)
    (i : Z) :
  NoDup ds ->
  out (open_files env ds bdfs w0) = Ok files ->
  let r := poll_stage env fuel ds files 0 w in
  out r = Ok (el, bm, broke) ->
  i ∈ ds ->
  count (is_pread i) (trace r) = count any_sleep (trace r) /\
  (1 <= count any_sleep (trace r) <= 2000)%nat.
Proof.
  intros Hnd Hopen r Hr Hi.
  destruct (open_files_Ok env _ _ _ _ Hopen) as [Ekeys Hkeyed].
  assert (Hnb : Nat.eqb 0 (length files) = false).
  { destruct files; [|reflexivity]. cbn in Ekeys. subst ds. inversion Hi. }
  subst r. rewrite poll_stage_eq in Hr |- *. cbv zeta in Hr |- *.
  cbn [out trace] in Hr |- *. cbn [count is_pread any_sleep].
  set (w' := {| hist := _; now := _ |}) in *.
  rewrite <- Ekeys in Hnd, Hi. split; [|split].
  - now apply poll_loop_reads_per_sleep.
  - cbn [Nat.add]. apply poll_loop_sleeps_once; [| exact Hnb |].
    + unfold POST_RESET_MSG_WAIT_TIME. lia.
    + rewrite Hr. discriminate.
  - cbn [Nat.add].
    destruct (poll_loop_sleeps env fuel files 0 (now w) 0
                (init_reset_bit_map ds) w') as [->|Hb].
    + subst w'. cbn [now]. lia.
    + lia.
    + unfold POST_RESET_MSG_WAIT_TIME, POLL_SLEEP in Hb. lia.
Qed.

Lemma sample_poll_stage_returns :
  out (poll_stage Sample.env 10 [3; 5]
         [(3, {| cfg_owner := 3; cfg_bdf := Sample.bdf_of 3 |});
          (5, {| cfg_owner := 5; cfg_bdf := Sample.bdf_of 5 |})] 0 Sample.w0)
  = Ok (2000000000, {[ 3 := 0; 5 := 1 ]}, false).
Proof. vm_compute. reflexivity. Qed.

Lemma sample_open_files_plain :
  out (open_files Sample.env [3; 5]
         {[ 3 := Sample.bdf_of 3; 5 := Sample.bdf_of 5 ]} Sample.w0)
  = Ok [(3, {| cfg_owner := 3; cfg_bdf := Sample.bdf_of 3 |});
        (5, {| cfg_owner := 5; cfg_bdf := Sample.bdf_of 5 |})].
Proof. vm_compute. reflexivity. Qed.

Lemma every_device_read_once_per_round_witness :
  let r := poll_stage Sample.env 10 [3; 5]
             [(3, {| cfg_owner := 3; cfg_bdf := Sample.bdf_of 3 |});
              (5, {| cfg_owner := 5; cfg_bdf := Sample.bdf_of 5 |})] 0
             Sample.w0 in
  count (is_pread 5) (trace r) = count any_sleep (trace r) /\
  (1 <= count any_sleep (trace r) <= 2000)%nat.
Proof.
  apply (every_device_read_once_per_round Sample.env 10 [3; 5]
           {[ 3 := Sample.bdf_of 3; 5 := Sample.bdf_of 5 ]} Sample.w0 Sample.w0
           _ 2000000000 {[ 3 := 0; 5 := 1 ]} false 5).
  - repeat constructor; [intros [H|H]%elem_of_cons | intros H];
      (discriminate H || inversion H).
  - exact sample_open_files_plain.
  - exact sample_poll_stage_returns.
  - right. left.
Defined.

(** ** Lines 92-98: what the loop leaves behind *)

Section ConfigWrite.

Variable env : Env.

(** Every device of the loop had its BDF resolved, by the provider's answer
    at that moment, and the dict maps it to that answer. *)
Lemma config_write_loop_resolved ds bdfs w m :
  NoDup ds ->
  out (config_write_loop env ds bdfs w) = Ok m ->
  (forall i, i ∉ ds -> m !! i = bdfs !! i) /\
  (forall i, i ∈ ds ->
     exists pre post b,
       trace (config_write_loop env ds bdfs w) = pre ++ EvResolveBdf i :: post /\
       pci_bdf env (hist w ++ pre) i = inr b /\
       m !! i = Some b).
Proof.
  revert bdfs w. induction ds as [|d ds IH]; intros bdfs w Hnd H.
  - cbn in H. injection H as <-. split; [reflexivity|].
    intros i Hi. inversion Hi.
  - apply NoDup_cons in Hnd as [Hd Hnd].
    cbn [config_write_loop] in H |- *. unfold get_pci_bdf in H |- *.
    rewrite run_perform_bind in H |- *. cbv zeta in H |- *.
    destruct (pci_bdf env (hist w) d) as [x|b] eqn:Eb; [discriminate|].
    cbn [out trace] in H |- *.
    set (w1 := {| hist := hist w ++ [EvResolveBdf d]; now := _ |}) in *.
    destruct (bind_Ok_inv _ _ _ _ H) as (u & Hu & H').
    rewrite (trace_bind_Ok _ _ _ _ Hu).
    set (w2 := after w1 _) in *.
    destruct (IH _ _ Hnd H') as [Hout Hin]. split.
    + intros i Hi. rewrite Hout.
      * apply lookup_insert_ne. intros ->. apply Hi. left.
      * intros Hi'. apply Hi. now right.
    + intros i [->|Hi]%elem_of_cons.
      * exists [], (trace (reset_device_ioctl env d
                             TENSTORRENT_RESET_DEVICE_CONFIG_WRITE w1)
                    ++ trace (config_write_loop env ds (<[d:=b]> bdfs) w2)), b.
        split; [reflexivity|]. rewrite app_nil_r. split; [exact Eb|].
        rewrite (Hout d Hd). apply lookup_insert_eq.
      * destruct (Hin i Hi) as (pre & post & b' & Et & Hb' & Hm).
        exists (EvResolveBdf d
                  :: trace (reset_device_ioctl env d
                              TENSTORRENT_RESET_DEVICE_CONFIG_WRITE w1) ++ pre),
          post, b'.
        split; [|split; [|exact Hm]].
        -- rewrite Et. cbn [app]. now rewrite <- app_assoc.
        -- rewrite <- Hb'. f_equal. subst w2 w1. cbn [after hist].
           rewrite <- !app_assoc. reflexivity.
Qed.

(** When the provider raises for a device after the devices before it
    went through, the loop stops at that resolution. *)
Lemma config_write_loop_stops pre i post bdfs w bdfs1 x :
  out (config_write_loop env pre bdfs w) = Ok bdfs1 ->
  pci_bdf env (hist (after w (config_write_loop env pre bdfs w))) i = inl x ->
  out (config_write_loop env (pre ++ i :: post) bdfs w) = Raise x /\
  trace (config_write_loop env (pre ++ i :: post) bdfs w)
  = flat_map config_write_block pre ++ [EvResolveBdf i].
Proof.
  revert bdfs w. induction pre as [|d pre IH]; intros bdfs w H Hx.
  - cbn in Hx. rewrite app_nil_r in Hx.
    cbn [app config_write_loop flat_map]. unfold get_pci_bdf.
    rewrite run_perform_bind. cbv zeta. now rewrite Hx.
  - cbn [config_write_loop app] in H, Hx |- *. unfold get_pci_bdf in H, Hx |- *.
    rewrite run_perform_bind in H, Hx |- *. cbv zeta in H, Hx |- *.
    destruct (pci_bdf env (hist w) d) as [y|b] eqn:Eb; [discriminate|].
    cbn [out trace after hist] in H, Hx |- *.
    set (w1 := {| hist := hist w ++ [EvResolveBdf d]; now := _ |}) in *.
    destruct (bind_Ok_inv _ _ _ _ H) as (u & Hu & H').
    rewrite (trace_bind_Ok _ _ _ _ Hu) in Hx.
    rewrite (trace_bind_Ok _ _ _ _ Hu), (out_bind_Ok _ _ _ _ Hu).
    set (w2 := after w1 _) in *.
    destruct (IH (<[d:=b]> bdfs) w2 H') as [Eo Et].
    + rewrite <- Hx. f_equal. subst w2 w1. cbn [after hist].
      rewrite <- !app_assoc. reflexivity.
    + split; [exact Eo|]. rewrite Et.
      destruct (reset_device_ioctl_within env d
                  TENSTORRENT_RESET_DEVICE_CONFIG_WRITE w1 config_write_range)
        as [_ E].
      rewrite (E _ Hu). reflexivity.
Qed.

End ConfigWrite.

(** X6.  The config space polled for a device is the one of the BDF that
    was resolved for it: in a call that returns, every device of the list
    has a resolution in the trace, and with the provider's answer [b] at
    that moment, the device's config space is opened for [b] and every
    read for the device is made on the file of [b]. *)
Theorem polled_config_space_is_resolved_bdf (env : Env) (fuel : nat)
    (l : list Z) (reset_m3 silent : bool) (w : world) (chips : list PciChip)
    (i : Z) :
  set_iter_ok env ->
  out (full_lds_reset env fuel l reset_m3 silent w) = Ok chips ->
  i ∈ l ->
  let tr := trace (full_lds_reset env fuel l reset_m3 silent w) in
  exists pre post b,
    tr = pre ++ EvResolveBdf i :: post /\
    pci_bdf env (hist w ++ pre) i = inr b /\
    EvOpenConfig i b ∈ post /\
    Forall (fun e => match e with
                     | EvOpenConfig j b' => j = i -> b' = b
                     | EvPread f _ _ _ => cfg_owner f = i -> cfg_bdf f = b
                     | _ => True
                     end) tr.
Proof.
  intros Hok Hret Hi tr.
  destruct (full_lds_reset_Ok_inv env fuel l reset_m3 silent w chips Hret)
    as (bdfs & files & el & bm & broke & H0 & H1 & H2 & H3 & Htr & _ & _).
  cbv zeta in *.
  set (ds := set_iter env l) in *.
  set (r0 := preflight env l silent w) in *.
  set (w1 := after w r0) in *.
  set (r1 := config_write_loop env ds ∅ w1) in *.
  set (w2 := after w1 r1) in *.
  set (r2 := open_files env ds bdfs w2) in *.
  set (w3 := after w2 r2) in *.
  destruct (dedup_spec env l Hok) as [Hnd Hmem]. fold ds in Hnd, Hmem.
  assert (Hids : i ∈ ds) by now apply Hmem.
  destruct (config_write_loop_resolved env ds ∅ w1 bdfs Hnd H1) as [_ Hres].
  destruct (Hres i Hids) as (pre1 & post1 & b & E1 & Hb & Hbdfs).
  fold r1 in E1.
  destruct (open_files_Ok env _ _ _ _ H2) as [Ekeys Hkeyed].
  destruct (open_files_Ok_trace env _ _ _ _ H2) as [E2 Hfiles]. fold r2 in E2.
  assert (Hfile : forall it, it ∈ files -> fst it = i -> cfg_bdf (snd it) = b).
  { intros it Hit Ei. rewrite Forall_forall in Hfiles.
    specialize (Hfiles it Hit). rewrite Ei, Hbdfs in Hfiles. congruence. }
  exists (trace r0 ++ pre1), (post1 ++ trace r2 ++
    trace (poll_stage env fuel ds files 0 w3) ++
    map (classification bm) ds ++ flat_map restore_block ds ++
    (if silent then [] else [EvPrint (MsgFinishing ds)]) ++ map EvPciChip ds), b.
  split; [|split; [|split]].
  - subst tr. rewrite Htr, E1. rewrite <- !app_assoc. reflexivity.
  - rewrite app_assoc. exact Hb.
  - apply elem_of_app. right. apply elem_of_app. left. rewrite E2.
    rewrite <- Ekeys in Hids. apply list_elem_of_fmap in Hids as (it & -> & Hit).
    apply list_elem_of_fmap. exists it. split; [|exact Hit].
    now rewrite (Hfile it Hit eq_refl).
  - subst tr. rewrite Htr, !Forall_app. repeat split.
    + eapply Forall_impl; [apply (preflight_emits env l silent w)|].
      intros [] He; try exact I; discriminate He.
    + eapply Forall_impl; [apply (config_write_loop_emits env ds ∅ w1)|].
      intros [] He; try exact I; discriminate He.
    + rewrite E2. apply Forall_forall. intros e He.
      apply list_elem_of_fmap in He as (it & -> & Hit). now apply Hfile.
    + pose proof (poll_stage_emits env fuel ds files 0 w3) as Hp.
      rewrite poll_stage_eq in Hp |- *. cbv zeta in Hp |- *.
      cbn [trace] in Hp |- *. apply Forall_cons in Hp as [_ Hp].
      constructor; [exact I|].
      match goal with
      | |- Forall _ (trace (poll_loop ?e ?n ?fs ?c ?s ?el ?m ?w')) =>
          pose proof (poll_loop_reads e n fs c s el m w') as Hr
      end.
      rewrite Forall_forall in Hp, Hr. apply Forall_forall. intros e He.
      specialize (Hp e He). specialize (Hr e He).
      destruct e; try exact I; try discriminate Hp.
      destruct (Hr eq_refl) as (f' & data' & [= -> _ _ _] & _ & Hf).
      apply list_elem_of_fmap in Hf as (it & -> & Hit).
      intros Eo. apply (Hfile it Hit).
      rewrite Forall_forall in Hkeyed. now rewrite <- (Hkeyed it Hit).
    + apply Forall_forall. intros e He.
      apply list_elem_of_fmap in He as (d & -> & _).
      unfold classification. now destruct (bm !! d) as [[| |]|].
    + apply Forall_forall. intros e He.
      apply list_elem_of_In, in_flat_map in He as (d & _ & He).
      cbn in He. now destruct He as [<-|[<-|[<-|[]]]].
    + destruct silent; repeat constructor.
    + apply Forall_forall. intros e He.
      now apply list_elem_of_fmap in He as (d & -> & _).
Qed.

Lemma polled_config_space_is_resolved_bdf_witness :
  let tr := trace (full_lds_reset Sample.env 10 [3; 3; 5] false false
                     Sample.w0) in
  exists pre post b,
    tr = pre ++ EvResolveBdf 5 :: post /\
    pci_bdf Sample.env (hist Sample.w0 ++ pre) 5 = inr b /\
    EvOpenConfig 5 b ∈ post /\
    Forall (fun e => match e with
                     | EvOpenConfig j b' => j = 5 -> b' = b
                     | EvPread f _ _ _ => cfg_owner f = 5 -> cfg_bdf f = b
                     | _ => True
                     end) tr.
Proof.
  apply (polled_config_space_is_resolved_bdf Sample.env 10 [3; 3; 5] false
           false Sample.w0
           [{| chip_interface := 3 |}; {| chip_interface := 5 |}] 5).
  - exact sample_set_iter_ok.
  - exact sample_run_returns.
  - right. right. left.
Defined.

(** ** [full_lds_reset]: runs that do not return *)

Section Reach.

Variable env : Env.

Lemma emits_weaken {A} (P Q : event -> bool) (m : M A) :
  (forall e, P e = true -> Q e = true) -> emits P m -> emits Q m.
Proof. intros HPQ Hm w. eapply Forall_impl; [apply Hm | exact HPQ]. Qed.

Lemma preflight_no_restore e : preflight_ev e = true -> any_restore e = false.
Proof. now destruct e. Qed.
Lemma config_write_ev_no_restore e :
  config_write_ev e = true -> any_restore e = false.
Proof.
  destruct e; try reflexivity. intros He. now apply config_write_not_restore.
Qed.
Lemma open_config_no_restore e :
  open_config_ev e = true -> any_restore e = false.
Proof. now destruct e. Qed.
Lemma poll_no_restore e : poll_ev e = true -> any_restore e = false.
Proof. now destruct e. Qed.
Lemma classified_no_restore e : any_classified e = true -> any_restore e = false.
Proof. now destruct e. Qed.

(** Either no RESTORE_STATE was sent, or the five stages before it all
    went through. *)
Lemma full_lds_reset_reach fuel l reset_m3 silent w :
  let ds := set_iter env l in
  let r0 := preflight env l silent w in
  let w1 := after w r0 in
  let tr := trace (full_lds_reset env fuel l reset_m3 silent w) in
  count any_restore tr = 0%nat \/
  exists bdfs files el bm broke tail,
    let r1 := config_write_loop env ds ∅ w1 in
    let w2 := after w1 r1 in
    let r2 := open_files env ds bdfs w2 in
    let w3 := after w2 r2 in
    let r3 := poll_stage env fuel ds files 0 w3 in
    out r0 = Ok ds /\ out r1 = Ok bdfs /\ out r2 = Ok files /\
    out r3 = Ok (el, bm, broke) /\
    tr = trace r0 ++ trace r1 ++ trace r2 ++ trace r3 ++
         map (classification bm) ds ++ tail /\
    Forall (fun e => restore_ev e || finish_ev e = true) tail.
Proof.
  intros ds r0 w1 tr. subst tr. unfold full_lds_reset.
  pose proof (fun l s w => count_class_zero any_restore _ _
                (preflight_emits env l s w) preflight_no_restore) as Z0.
  pose proof (fun ds m w => count_class_zero any_restore _ _
                (config_write_loop_emits env ds m w)
                config_write_ev_no_restore) as Z1.
  pose proof (fun ds m w => count_class_zero any_restore _ _
                (open_files_emits env ds m w) open_config_no_restore) as Z2.
  pose proof (fun n ds fs c w => count_class_zero any_restore _ _
                (poll_stage_emits env n ds fs c w) poll_no_restore) as Z3.
  pose proof (fun ds m c w => count_class_zero any_restore _ _
                (classify_emits env ds m c w) classified_no_restore) as Z4.
  match goal with |- context [trace ((?m ≫= ?k) w)] =>
    destruct (trace_bind_cases m k w) as [(ds' & H0 & -> & _)|(_ & -> & _)]
  end; [|left; apply Z0].
  destruct (preflight_Ok env _ _ _ _ H0) as [_ ->]. fold ds r0 w1 in H0 |- *.
  specialize (Z0 l silent w). fold r0 in Z0.
  match goal with |- context [trace ((?m ≫= ?k) w1)] =>
    destruct (trace_bind_cases m k w1) as [(bdfs & H1 & -> & _)|(_ & -> & _)]
  end; [|left; rewrite count_app, Z0, Z1; reflexivity].
  set (w2 := after w1 _) in *.
  match goal with |- context [trace ((?m ≫= ?k) w2)] =>
    destruct (trace_bind_cases m k w2) as [(files & H2 & -> & _)|(_ & -> & _)]
  end; [|left; rewrite !count_app, Z0, Z1, Z2; reflexivity].
  set (w3 := after w2 _) in *.
  match goal with |- context [trace ((?m ≫= ?k) w3)] =>
    destruct (trace_bind_cases m k w3)
      as [([[el bm] broke] & H3 & -> & _)|(_ & -> & _)]
  end; [|left; rewrite !count_app, Z0, Z1, Z2, Z3; reflexivity].
  set (w4 := after w3 _) in *.
  match goal with |- context [trace ((?m ≫= ?k) w4)] =>
    destruct (trace_bind_cases m k w4) as [(n & H4 & -> & _)|(_ & -> & _)]
  end; [|left; rewrite !count_app, Z0, Z1, Z2, Z3, Z4; reflexivity].
  right. exists bdfs, files, el, bm, broke.
  rewrite (classify_Ok env _ _ _ _ _ H4).
  eexists. cbv zeta. fold w2 w3.
  split; [exact H0|]. split; [exact H1|]. split; [exact H2|].
  split; [exact H3|]. split; [reflexivity|].
  match goal with |- Forall _ (trace (?m ?w')) =>
    assert (Hm : emits (fun e => restore_ev e || finish_ev e) m);
      [|apply Hm]
  end.
  apply emits_bind.
  { eapply emits_weaken; [|apply restore_loop_emits].
    intros e ->. reflexivity. }
  intros _. apply emits_bind.
  { destruct silent; [apply emits_ret | now apply emits_perform]. }
  intros _. apply emits_bind.
  { eapply emits_weaken; [|apply make_chips_emits].
    intros e ->. apply orb_true_r. }
  intros cs. apply emits_ret.
Qed.

End Reach.

(** X7.  No RESTORE_STATE before every device is prepared, on every run,
    also those that raise later: when the trace of a call holds a
    RESTORE_STATE command, every device of the list has had its BDF resolved
    once, received exactly one CONFIG_WRITE, had its config space opened
    once and read at least once, and been classified once. *)
Theorem restore_implies_every_device_prepared (env : Env) (fuel : nat)
    (l : list Z) (reset_m3 silent : bool) (w : world) (i : Z) :
  set_iter_ok env ->
  let tr := trace (full_lds_reset env fuel l reset_m3 silent w) in
  (0 < count any_restore tr)%nat ->
  i ∈ l ->
  count (is_resolve i) tr = 1%nat /\
  count (is_config_write i) tr = 1%nat /\
  count (is_open_config i) tr = 1%nat /\
  (1 <= count (is_pread i) tr)%nat /\
  count (is_classified i) tr = 1%nat.
Proof.
  intros Hok tr Hpos Hi.
  destruct (full_lds_reset_reach env fuel l reset_m3 silent w)
    as [Hz|(bdfs & files & el & bm & broke & tail & H)];
    [fold tr in Hz; lia|].
  cbv zeta in H. destruct H as (H0 & H1 & H2 & H3 & Htr & Htail).
  fold tr in Htr.
  set (ds := set_iter env l) in *.
  set (r0 := preflight env l silent w) in *.
  set (w1 := after w r0) in *.
  set (w2 := after w1 (config_write_loop env ds ∅ w1)) in *.
  set (w3 := after w2 (open_files env ds bdfs w2)) in *.
  destruct (dedup_spec env l Hok) as [Hnd Hmem]. fold ds in Hnd, Hmem.
  assert (Hids : i ∈ ds) by now apply Hmem.
  destruct (config_write_loop_within env ds ∅ w1) as [_ E1].
  rewrite (E1 _ H1) in Htr.
  destruct (open_files_Ok env _ _ _ _ H2) as [Ekeys Hkeyed].
  destruct (open_files_Ok_trace env _ _ _ _ H2) as [E2 _].
  rewrite E2 in Htr.
  pose proof (preflight_emits env l silent w) as F0. fold r0 in F0.
  pose proof (poll_stage_emits env fuel ds files 0 w3) as F3.
  assert (Hcount : forall p : event -> bool,
    (forall e, preflight_ev e = true -> p e = false) ->
    (forall e, poll_ev e = true -> p e = false) ->
    (forall e, restore_ev e || finish_ev e = true -> p e = false) ->
    count p tr =
      (count p (flat_map config_write_block ds) +
       count p (map (fun it => EvOpenConfig (fst it) (cfg_bdf (snd it))) files) +
       count p (map (classification bm) ds))%nat).
  { intros p P0 P3 Pt. rewrite Htr, !count_app.
    rewrite (count_class_zero p _ _ F0 P0), (count_class_zero p _ _ F3 P3),
      (count_class_zero p _ _ Htail Pt). lia. }
  assert (Hopens : forall p : event -> bool,
    (forall j b, p (EvOpenConfig j b) = false) ->
    count p (map (fun it => EvOpenConfig (fst it) (cfg_bdf (snd it))) files)
    = 0%nat).
  { intros p Hp. generalize files. intros fs.
    induction fs as [|it fs IH]; [reflexivity|].
    cbn [map count]. now rewrite Hp, IH. }
  assert (Hcls : forall p : event -> bool,
    (forall j, p (EvPrint (MsgCompleted j)) = false) ->
    (forall j, p (EvPrint (MsgNotCompleted j)) = false) ->
    count p (map (classification bm) ds) = 0%nat).
  { intros p Hp1 Hp2. apply count_map_zero. intros d.
    unfold classification. destruct (bm !! d) as [[| |]|]; auto. }
  assert (Htl : forall e, restore_ev e || finish_ev e = true ->
                          is_config_write i e = false).
  { intros e He. destruct e; try reflexivity.
    destruct (is_config_write i (EvIoctl interface_id request buf)) eqn:E;
      [|reflexivity].
    apply is_command_any, config_write_not_restore in E.
    unfold restore_ev, finish_ev in He. rewrite orb_false_r in He.
    congruence. }
  split; [|split; [|split; [|split]]].
  - rewrite Hcount; try (intros [|[]| | | | | | | | |] He;
                          (discriminate He || reflexivity)).
    rewrite (count_blocks i _ _ 1 ds (count_resolve_config_write_block i) Hnd).
    rewrite Hopens, Hcls by reflexivity.
    now rewrite decide_True by exact Hids.
  - rewrite Hcount; [| | |exact Htl];
      try (intros [|[]| | | | | | | | |] He; (discriminate He || reflexivity)).
    rewrite (count_blocks i _ _ 1 ds (count_config_write_block i) Hnd).
    rewrite Hopens, Hcls by reflexivity.
    now rewrite decide_True by exact Hids.
  - rewrite Hcount; try (intros [|[]| | | | | | | | |] He;
                          (discriminate He || reflexivity)).
    rewrite count_flat_map_zero by reflexivity.
    rewrite Hcls by reflexivity.
    assert (E : count (is_open_config i)
                  (map (fun it => EvOpenConfig (fst it) (cfg_bdf (snd it)))
                     files)
                = count (is_open_config i)
                    (map (fun d => EvOpenConfig d EmptyString)
                       (map fst files))).
    { generalize files. intros fs. induction fs as [|it fs IH];
        [reflexivity|]. cbn [map count is_open_config]. now rewrite IH. }
    rewrite E, Ekeys, (count_map_once _ _ i ds); [| |exact Hnd].
    + rewrite decide_True by exact Hids. cbn. now rewrite Z.eqb_refl.
    + intros d Hd. cbn. now apply Z.eqb_neq.
  - rewrite Htr, !count_app.
    assert (Hnb : Nat.eqb 0 (length files) = false).
    { destruct files; [|reflexivity]. cbn in Ekeys. rewrite <- Ekeys in Hids.
      inversion Hids. }
    enough (1 <= count (is_pread i)
                   (trace (poll_stage env fuel ds files 0 w3)))%nat by lia.
    rewrite poll_stage_eq in H3 |- *. cbv zeta in H3 |- *.
    cbn [out trace] in H3 |- *. cbn [count is_pread Nat.add].
    rewrite <- Ekeys in Hnd, Hids.
    rewrite (poll_loop_reads_per_sleep env fuel files 0 _ _ _ _ i
               Hnd Hkeyed Hnb Hids).
    apply poll_loop_sleeps_once; [| exact Hnb |].
    + unfold POST_RESET_MSG_WAIT_TIME. lia.
    + rewrite H3. discriminate.
  - rewrite Hcount; try (intros [|[]| | | | | | | | |] He;
                          (discriminate He || reflexivity)).
    rewrite count_flat_map_zero by reflexivity.
    rewrite Hopens by reflexivity.
    rewrite count_classified by exact Hnd.
    now rewrite decide_True by exact Hids.
Qed.

Lemma no_chip_set_iter_ok : set_iter_ok Faulty.no_chip_env.
Proof. exact sample_set_iter_ok. Qed.

Lemma restore_implies_every_device_prepared_witness :
  let tr := trace (full_lds_reset Faulty.no_chip_env 10 [3; 5] false false
                     Sample.w0) in
  count (is_resolve 5) tr = 1%nat /\
  count (is_config_write 5) tr = 1%nat /\
  count (is_open_config 5) tr = 1%nat /\
  (1 <= count (is_pread 5) tr)%nat /\
  count (is_classified 5) tr = 1%nat.
Proof.
  apply (restore_implies_every_device_prepared Faulty.no_chip_env 10 [3; 5]
           false false Sample.w0 5).
  - exact no_chip_set_iter_ok.
  - vm_compute. lia.
  - right. left.
Defined.

(** X8.  Nothing is rolled back when a BDF cannot be resolved.  When the
    provider raises for a device after the devices before it went through
    lines 92-98, the call raises that exception at once: the devices
    before it have received their CONFIG_WRITE and no RESTORE_STATE
    follows. *)
Theorem failed_resolution_is_not_rolled_back (env : Env) (fuel : nat)
    (l : list Z) (reset_m3 silent : bool) (w : world)
    (pre : list Z) (i : Z) (post : list Z) (bdfs : gmap Z string) (x : exn) :
  is_arm (host_platform env) = false ->
  set_iter env l = pre ++ i :: post ->
  let r0 := preflight env l silent w in
  let r1 := config_write_loop env pre ∅ (after w r0) in
  out r1 = Ok bdfs ->
  pci_bdf env (hist (after (after w r0) r1)) i = inl x ->
  let r := full_lds_reset env fuel l reset_m3 silent w in
  out r = Raise x /\
  trace r = trace r0 ++ flat_map config_write_block pre ++ [EvResolveBdf i] /\
  command_ids TENSTORRENT_RESET_DEVICE_CONFIG_WRITE (trace r) = pre /\
  command_ids TENSTORRENT_RESET_DEVICE_RESTORE_STATE (trace r) = [].
Proof.
  intros Harm Hds r0 r1 H1 Hx r.
  destruct (preflight_not_arm env l silent w Harm) as [H0 E0].
  cbv zeta in H0, E0. fold r0 in H0, E0.
  destruct (config_write_loop_stops env pre i post ∅ (after w r0) bdfs x H1 Hx)
    as [Eo Et].
  assert (E : out r = Raise x /\
              trace r = trace r0 ++ flat_map config_write_block pre
                        ++ [EvResolveBdf i]).
  { subst r. unfold full_lds_reset.
    rewrite (out_bind_Ok _ _ _ _ H0), (trace_bind_Ok _ _ _ _ H0).
    fold r0. rewrite Hds.
    rewrite (proj1 (bind_Raise _ _ _ _ Eo)), (proj2 (bind_Raise _ _ _ _ Eo)).
    now rewrite Et. }
  destruct E as [Er Etr]. split; [exact Er|]. split; [exact Etr|].
  rewrite Etr, E0. unfold command_ids. rewrite !omap_app.
  rewrite (omap_blocks _ _ (fun d => [d]) pre) by reflexivity.
  rewrite (omap_blocks _ _ (fun _ => []) pre) by reflexivity.
  rewrite flat_map_singleton, flat_map_nothing.
  split; destruct silent; cbn; now rewrite ?app_nil_r.
Qed.

Lemma failed_resolution_is_not_rolled_back_witness :
  let r0 := preflight Faulty.env [3; 5] false Sample.w0 in
  let r := full_lds_reset Faulty.env 10 [3; 5] false false Sample.w0 in
  out r = Raise ProviderError /\
  trace r = trace r0 ++ flat_map config_write_block [3] ++ [EvResolveBdf 5] /\
  command_ids TENSTORRENT_RESET_DEVICE_CONFIG_WRITE (trace r) = [3] /\
  command_ids TENSTORRENT_RESET_DEVICE_RESTORE_STATE (trace r) = [].
Proof.
  apply (failed_resolution_is_not_rolled_back Faulty.env 10 [3; 5] false false
           Sample.w0 [3] 5 [] {[ 3 := Sample.bdf_of 3 ]} ProviderError).
  - reflexivity.
  - vm_compute. reflexivity.
  - vm_compute. reflexivity.
  - reflexivity.
Defined.

(** * Properties of [reset_utils.py] *)

Section SplitFacts.

Import ResetUtils.

Variable sep : ascii.

Lemma split_length s : length (split sep s) = S (count_sep sep s).
Proof.
  induction s as [|c s IH]; [reflexivity|].
  cbn [split count_sep]. destruct (Ascii.eqb c sep).
  - cbn [length]. now rewrite IH.
  - destruct (split sep s); [discriminate IH|]. cbn [length] in *. lia.
Qed.

Lemma split_no_sep s : count_sep sep s = 0%nat -> split sep s = [s].
Proof.
  induction s as [|c s IH]; [reflexivity|].
  cbn [split count_sep]. destruct (Ascii.eqb c sep); [discriminate|].
  intros H. now rewrite IH.
Qed.

Lemma split_app s t :
  count_sep sep s = 0%nat ->
  split sep (s ++ String sep t) = s :: split sep t.
Proof.
  induction s as [|c s IH].
  - intros _. change (split sep (String sep t) = EmptyString :: split sep t).
    cbn [split]. now rewrite Ascii.eqb_refl.
  - change (count_sep sep (String c s) = 0%nat ->
            split sep (String c (s ++ String sep t)) = String c s :: split sep t).
    cbn [split count_sep]. destruct (Ascii.eqb c sep); [discriminate|].
    intros H. now rewrite IH.
Qed.

Lemma split_join items :
  items <> [] ->
  Forall (fun s => count_sep sep s = 0%nat) items ->
  split sep (join (String sep EmptyString) items) = items.
Proof.
  intros Hne H. induction H as [|s items Hs H IH]; [congruence|].
  destruct items as [|t items].
  - cbn [join]. now apply split_no_sep.
  - change (join (String sep EmptyString) (s :: t :: items))
      with (s ++ String sep (join (String sep EmptyString) (t :: items)))%string.
    rewrite split_app by exact Hs. now rewrite IH.
Qed.

Lemma count_sep_app s t :
  count_sep sep (s ++ t) = (count_sep sep s + count_sep sep t)%nat.
Proof.
  induction s as [|c s IH]; [reflexivity|].
  change (count_sep sep (String c (s ++ t))
          = (count_sep sep (String c s) + count_sep sep t)%nat).
  cbn [count_sep]. rewrite IH. lia.
Qed.

End SplitFacts.

(** X9.  [parse_reset_input] when no file has the name [value]: the string
    is cut at its commas and [int] is applied to every piece.  There is one
    piece more than there are commas, so the list returned is never empty
    and has that length; it is returned when [int] accepts every piece, and
    when [int] rejects one (as it does an empty piece) the function prints
    its message and exits with status 1: no partial list, and never a JSON
    document. *)
Theorem parse_reset_input_comma_list {Data : Type}
    (open_file : string -> ResetUtils.exn + string)
    (json_load : string -> ResetUtils.exn + Data)
    (int : string -> option Z) (value : string) :
  open_file value = inl ResetUtils.FileNotFoundError ->
  let r := ResetUtils.parse_reset_input open_file json_load int value in
  let items := ResetUtils.split "," value in
  length items = S (ResetUtils.count_sep "," value) /\
  (forall ids, Forall2 (fun s z => int s = Some z) items ids ->
               r = {| ResetUtils.returned := inr (ResetUtils.Ids ids);
                      ResetUtils.printed := [] |}) /\
  (Exists (fun s => int s = None) items ->
   r = {| ResetUtils.returned := inl (ResetUtils.SystemExit 1);
          ResetUtils.printed := [ResetUtils.MsgInvalidInput] |}) /\
  (forall ids, ResetUtils.returned r = inr (ResetUtils.Ids ids) ->
               length ids = S (ResetUtils.count_sep "," value) /\
               Forall2 (fun s z => int s = Some z) items ids) /\
  (forall data, ResetUtils.returned r <> inr (ResetUtils.Loaded data)).
Proof.
  intros Hopen r items. subst r.
  unfold ResetUtils.parse_reset_input, ResetUtils.load_json_file,
    ResetUtils.int_items.
  rewrite Hopen. fold items.
  split; [apply split_length|].
  split; [|split; [|split]].
  - intros ids H. apply mapM_Some in H. now rewrite H.
  - intros H. apply mapM_None in H. now rewrite H.
  - intros ids. destruct (mapM int items) as [ids'|] eqn:E; [|discriminate].
    cbn. intros [= <-]. apply mapM_Some in E. split; [|exact E].
    apply Forall2_length in E. rewrite <- E. apply split_length.
  - intros data. destruct (mapM int items); discriminate.
Qed.

Lemma parse_reset_input_comma_list_witness :
  let r := ResetUtils.parse_reset_input ResetUtils.Sample.no_file
             ResetUtils.Sample.no_json ResetUtils.Sample.int "0,1," in
  let items := ResetUtils.split "," "0,1," in
  length items = S (ResetUtils.count_sep "," "0,1,") /\
  (forall ids, Forall2 (fun s z => ResetUtils.Sample.int s = Some z) items ids ->
               r = {| ResetUtils.returned := inr (ResetUtils.Ids ids);
                      ResetUtils.printed := [] |}) /\
  (Exists (fun s => ResetUtils.Sample.int s = None) items ->
   r = {| ResetUtils.returned := inl (ResetUtils.SystemExit 1);
          ResetUtils.printed := [ResetUtils.MsgInvalidInput] |}) /\
  (forall ids, ResetUtils.returned r = inr (ResetUtils.Ids ids) ->
               length ids = S (ResetUtils.count_sep "," "0,1,") /\
               Forall2 (fun s z => ResetUtils.Sample.int s = Some z) items ids) /\
  (forall data, ResetUtils.returned r <> inr (ResetUtils.Loaded data)).
Proof.
  apply (parse_reset_input_comma_list ResetUtils.Sample.no_file
           ResetUtils.Sample.no_json ResetUtils.Sample.int "0,1,").
  reflexivity.
Defined.

(** X10.  Round trip: the ids of a non-empty list, written with [str] and
    joined by commas, are read back as that list by [parse_reset_input] when
    no file has that name ([str] of an id has no comma and [int] reads it
    back). *)
Theorem parse_reset_input_of_joined_ids {Data : Type}
    (open_file : string -> ResetUtils.exn + string)
    (json_load : string -> ResetUtils.exn + Data)
    (int : string -> option Z) (str : Z -> string) (ids : list Z) :
  let value := ResetUtils.join "," (map str ids) in
  open_file value = inl ResetUtils.FileNotFoundError ->
  ids <> [] ->
  Forall (fun z => ResetUtils.count_sep "," (str z) = 0%nat /\
                   int (str z) = Some z) ids ->
  ResetUtils.parse_reset_input open_file json_load int value
  = {| ResetUtils.returned := inr (ResetUtils.Ids ids);
       ResetUtils.printed := [] |}.
Proof.
  intros value Hopen Hne Hids. subst value.
  unfold ResetUtils.parse_reset_input, ResetUtils.load_json_file,
    ResetUtils.int_items.
  rewrite Hopen, split_join.
  - assert (E : mapM int (map str ids) = Some ids).
    { apply mapM_Some. clear Hne Hopen.
      induction Hids as [|z ids [_ Hz] _ IH]; constructor; assumption. }
    now rewrite E.
  - destruct ids; [congruence | discriminate].
  - clear Hne Hopen. induction Hids as [|z ids [Hz _] _ IH]; constructor;
      assumption.
Qed.

Lemma parse_reset_input_of_joined_ids_witness :
  let value := ResetUtils.join "," (map ResetUtils.Sample.str [0; 3; 12]) in
  ResetUtils.parse_reset_input ResetUtils.Sample.no_file
    ResetUtils.Sample.no_json ResetUtils.Sample.int value
  = {| ResetUtils.returned := inr (ResetUtils.Ids [0; 3; 12]);
       ResetUtils.printed := [] |}.
Proof.
  apply (parse_reset_input_of_joined_ids ResetUtils.Sample.no_file
           ResetUtils.Sample.no_json ResetUtils.Sample.int
           ResetUtils.Sample.str [0; 3; 12]).
  - reflexivity.
  - discriminate.
  - repeat constructor.
Defined.

Lemma pci_idx_loop_spec devices gs wh :
  let local_wh dev :=
    ResetUtils.as_wh dev && negb (ResetUtils.is_remote dev) in
  ResetUtils.pci_idx_loop devices gs wh =
    (gs ++ map ResetUtils.get_pci_interface_id
             (List.filter (fun dev => negb (local_wh dev) && ResetUtils.as_gs dev)
                devices),
     wh ++ map ResetUtils.get_pci_interface_id (List.filter local_wh devices)).
Proof.
  cbv zeta. revert gs wh. induction devices as [|dev devices IH]; intros gs wh.
  - cbn. now rewrite !app_nil_r.
  - cbn [ResetUtils.pci_idx_loop List.filter].
    destruct (ResetUtils.as_wh dev && negb (ResetUtils.is_remote dev)).
    + rewrite IH. cbn [negb andb map]. now rewrite <- app_assoc.
    + cbn [negb andb]. destruct (ResetUtils.as_gs dev); rewrite IH.
      * cbn [map]. now rewrite <- app_assoc.
      * reflexivity.
Qed.

(** X11.  Lines 29-35 of [generate_reset_logs]: the loop sorts the devices
    in three.  The Wormhole list holds, in order, the ids of the devices
    that are Wormhole and not remote; the Grayskull list those of the other
    devices that are Grayskull; every other device (a remote Wormhole that
    is not Grayskull, a Blackhole) is in neither list. *)
Theorem pci_idx_loop_partitions (devices : list ResetUtils.device) :
  let local_wh dev :=
    ResetUtils.as_wh dev && negb (ResetUtils.is_remote dev) in
  let gs := List.filter (fun dev => negb (local_wh dev) && ResetUtils.as_gs dev)
              devices in
  let wh := List.filter local_wh devices in
  let dropped := List.filter (fun dev => negb (local_wh dev)
                                         && negb (ResetUtils.as_gs dev))
                   devices in
  ResetUtils.pci_idx_loop devices [] [] =
    (map ResetUtils.get_pci_interface_id gs,
     map ResetUtils.get_pci_interface_id wh) /\
  (length gs + length wh + length dropped = length devices)%nat.
Proof.
  cbv zeta. split.
  - now rewrite pci_idx_loop_spec.
  - induction devices as [|dev devices IH]; [reflexivity|].
    cbn [List.filter].
    destruct (ResetUtils.as_wh dev && negb (ResetUtils.is_remote dev));
      cbn [negb andb]; [cbn [length]; lia|].
    destruct (ResetUtils.as_gs dev); cbn [negb length]; lia.
Qed.
